(** * Fraud risk assessment engine of the payment platform

    A shallow embedding of
      services/anti-fraud-service/src/models/fraud_models.py
      services/anti-fraud-service/src/services/fraud_detection.py
    and the properties of its scoring pipeline.

    Conventions of the embedding.
    - A Python [float] is a rational number ([Q]): sums, products and
      quotients are exact where the interpreter rounds to the nearest
      double, comparisons are the exact ones, [np.clip], [min], [max]
      and [abs] are [Qmin], [Qmax] and [Qabs].  Numeric results are
      compared with [==].  A threshold that exact arithmetic meets with
      equality can fall on either side after rounding, so the
      properties of thresholds on computed values are stated with a
      margin.  NaN is represented where the service can meet one: in
      the numbers that the model artefacts hand back ([pyfloat]).
    - A [datetime] is a number of seconds since the epoch, in UTC.
    - A [dict] is a [gmap] with string keys.
    - An exception is a value of [exn]; [str] gives its message.
    - The collaborators of the service (clock, cache, relational store,
      aggregate queries, alert sink) are the fields of [Env]; what the
      service writes is kept in [World].  The helper methods whose body
      is a constant ([return []], [return False], [return {}],
      [return True]) are embedded as these constants.
    - Two places of [fraud_detection.py] are not valid Python as they
      stand; each is read with the least change, named where the
      method is embedded ([extract_features], [calculate_ml_score]). *)

From Stdlib Require Import QArith Qminmax Qabs Qround Lqa ZArith Lia.
From Stdlib Require Import String List DecimalString.
From stdpp Require Import gmap strings.
Import ListNotations.

#[local] Set Warnings "-register-all".
#[local] Open Scope string_scope.
#[local] Open Scope list_scope.
#[local] Open Scope Q_scope.

(** ** Numbers *)

Definition Qgtb (x y : Q) : bool := negb (Qle_bool x y).
Definition Qgeb (x y : Q) : bool := Qle_bool y x.
Definition Qltb (x y : Q) : bool := negb (Qle_bool y x).
Definition Qleb (x y : Q) : bool := Qle_bool x y.

(** [np.clip(x, lo, hi)] is [minimum(maximum(x, lo), hi)]. *)
Definition np_clip (x lo hi : Q) : Q := Qmin (Qmax x lo) hi.

(** [int(x)] truncates towards zero. *)
Definition int_of_float (x : Q) : Z := Z.quot (Qnum x) (Zpos (Qden x)).

(** [str(n)] for an integer. *)
Definition str_of_int (n : Z) : string := NilZero.string_of_int (Z.to_int n).

(** [sum(xs)]: the accumulator starts at 0 and runs left to right. *)
Definition py_sum (xs : list Q) : Q := fold_left Qplus xs 0.

(** ** Exceptions and the two effect layers *)

Inductive exn : Type :=
| ValidationError (model field : string)
| Exception (message : string).

Definition str (e : exn) : string :=
  match e with
  | ValidationError model field =>
      ("validation error for " ++ model ++ ": " ++ field)%string
  | Exception message => message
  end.

(** A computation that may raise. *)
Inductive result (A : Type) : Type :=
| Ok (a : A)
| Raise (e : exn).
Arguments Ok {A} a.
Arguments Raise {A} e.

#[global] Instance result_ret : MRet result := fun A a => Ok a.
#[global] Instance result_bind : MBind result := fun A B k r =>
  match r with
  | Ok a => k a
  | Raise e => Raise e
  end.

(** [ensure c e] raises [e] unless [c] holds. *)
Definition ensure (c : bool) (e : exn) : result unit :=
  if c then Ok tt else Raise e.

(** ** models/fraud_models.py *)

Inductive RiskLevel := LOW | MEDIUM | HIGH | CRITICAL.
Inductive FraudAction := APPROVE | HOLD | REJECT | MANUAL_REVIEW.
Inductive TransactionType := PAYMENT | WITHDRAWAL | DEPOSIT | REFUND.

Definition RiskLevel_eqb (a b : RiskLevel) : bool :=
  match a, b with
  | LOW, LOW | MEDIUM, MEDIUM | HIGH, HIGH | CRITICAL, CRITICAL => true
  | _, _ => false
  end.

Definition FraudAction_eqb (a b : FraudAction) : bool :=
  match a, b with
  | APPROVE, APPROVE | HOLD, HOLD | REJECT, REJECT
  | MANUAL_REVIEW, MANUAL_REVIEW => true
  | _, _ => false
  end.

(** The values held by a [Dict[str, Any]]. *)
Inductive value : Type :=
| VBool (b : bool)
| VInt (n : Z)
| VFloat (x : Q)
| VStr (s : string)
| VDict (d : gmap string value).

Record Money := {
  amount : Q;
  currency : string;
  precision : Z
}.

(** [Money(amount=.., currency=.., precision=..)]: pydantic checks
    [amount > 0], a currency of exactly three characters and
    [0 <= precision <= 8]. *)
Definition Money_new (amount : Q) (currency : string) (precision : Z)
  : result Money :=
  ensure (Qgtb amount 0) (ValidationError "Money" "amount") ;;
  ensure (Nat.eqb (String.length currency) 3)
          (ValidationError "Money" "currency") ;;
  ensure ((0 <=? precision)%Z && (precision <=? 8)%Z)
          (ValidationError "Money" "precision") ;;
  Ok {| amount := amount; currency := currency; precision := precision |}.

Record GeoLocation := {
  latitude : Q;
  longitude : Q;
  country : string;
  city : option string;
  region : option string
}.

Record DeviceFingerprint := {
  fingerprint : string;
  user_agent : string;
  ip_address : string;
  screen_resolution : option string;
  timezone : option string;
  language : option string;
  platform : option string
}.

Record UserRiskProfile := {
  up_user_id : string;
  base_score : Q;
  transaction_history_score : Q;
  age_score : Q;
  verification_level : string;
  dispute_rate : Q;
  velocity_score : Q;
  last_updated : Z;
  total_transactions : Z;
  total_amount : Money;
  average_transaction_amount : Money;
  account_age_days : Z;
  failed_attempts_24h : Z;
  up_risk_level : RiskLevel
}.

Definition unit_interval (x : Q) : bool := Qleb 0 x && Qleb x 1.

(** [UserRiskProfile(...)]: the five ratios lie in [0,1], the three
    counts are not negative. *)
Definition UserRiskProfile_new (p : UserRiskProfile) : result UserRiskProfile :=
  let bad := ValidationError "UserRiskProfile" in
  ensure (unit_interval (base_score p)) (bad "base_score") ;;
  ensure (unit_interval (transaction_history_score p))
          (bad "transaction_history_score") ;;
  ensure (unit_interval (age_score p)) (bad "age_score") ;;
  ensure (unit_interval (dispute_rate p)) (bad "dispute_rate") ;;
  ensure (unit_interval (velocity_score p)) (bad "velocity_score") ;;
  ensure (0 <=? total_transactions p)%Z (bad "total_transactions") ;;
  ensure (0 <=? account_age_days p)%Z (bad "account_age_days") ;;
  ensure (0 <=? failed_attempts_24h p)%Z (bad "failed_attempts_24h") ;;
  Ok p.

Record FraudRuleResult := {
  rule_name : string;
  triggered : bool;
  score : Q;
  details : gmap string value;
  execution_time_ms : Q
}.

(** [FraudRuleResult(rule_name=.., triggered=.., score=.., details=..,
    execution_time_ms=..)].  The score lies in [0,1];
    [execution_time_ms] has no default, so a call that leaves it out is
    rejected. *)
Definition FraudRuleResult_new (rule_name : string) (triggered : bool)
    (score : Q) (details : gmap string value)
    (execution_time_ms : option Q) : result FraudRuleResult :=
  let bad := ValidationError "FraudRuleResult" in
  ensure (unit_interval score) (bad "score") ;;
  match execution_time_ms with
  | None => Raise (bad "execution_time_ms")
  | Some t =>
      Ok {| rule_name := rule_name; triggered := triggered; score := score;
            details := details; execution_time_ms := t |}
  end.

(** [result.execution_time_ms = t] *)
Definition set_execution_time_ms (r : FraudRuleResult) (t : Q)
  : FraudRuleResult :=
  {| rule_name := rule_name r; triggered := triggered r; score := score r;
     details := details r; execution_time_ms := t |}.

Record Transaction := {
  id : string;
  user_id : string;
  type : TransactionType;
  tx_amount : Money;
  timestamp : Z;
  device_fingerprint : DeviceFingerprint;
  geolocation : GeoLocation;
  recipient_id : option string;
  tx_description : option string;
  metadata : gmap string value
}.

Record FraudAssessment := {
  fa_id : string;
  fa_user_id : string;
  transaction_id : option string;
  withdrawal_id : option string;
  fa_score : Q;
  risk_level : RiskLevel;
  rules : list FraudRuleResult;
  ml_score : option Q;
  action : FraudAction;
  reason : string;
  confidence : Q;
  assessment_time_ms : Q;
  created_at : Z;
  requires_manual_review : bool;
  reviewed_by : option string;
  reviewed_at : option Z;
  review_notes : option string
}.

(** [FraudAssessment(...)]: score and confidence lie in [0,1], and so
    does the model score when there is one. *)
Definition FraudAssessment_new (a : FraudAssessment) : result FraudAssessment :=
  let bad := ValidationError "FraudAssessment" in
  ensure (unit_interval (fa_score a)) (bad "score") ;;
  ensure (match ml_score a with
                | Some m => unit_interval m
                | None => true
                end) (bad "ml_score") ;;
  ensure (unit_interval (confidence a)) (bad "confidence") ;;
  Ok a.

Record VelocityCheck := {
  window_minutes : Z;
  max_transactions : Z;
  max_amount : option Money;
  cooldown_minutes : option Z
}.

Record FraudDetectionRequest := {
  req_user_id : string;
  transaction : option Transaction;
  withdrawal_request : option (gmap string value);
  context : gmap string value;
  force_assessment : bool
}.

Record FraudDetectionResponse := {
  success : bool;
  assessment : option FraudAssessment;
  error : option string;
  processing_time_ms : Q;
  correlation_id : string
}.

(** ** The service object and its collaborators *)

(** An entry of [self.fraud_rules]. *)
Record RuleConfig := {
  name : string;
  description : string;
  weight : Q;
  rc_action : FraudAction;
  enabled : bool
}.

(** A number that a model artefact hands back: a float that is a number,
    or NaN. *)
Inductive pyfloat : Type :=
| Num (x : Q)
| NaN.

(** What [self.ml_model] predicts with: a classifier has
    [predict_proba] and yields the two class probabilities of the first
    row, any other object is asked for [decision_function] and yields
    the decision score of the first row. *)
Inductive Predictor : Type :=
| Classifier (predict_proba : list Q -> result (pyfloat * pyfloat))
| AnomalyScorer (decision_function : list Q -> result pyfloat).

(** The object in [self.ml_model].  [truth_value] is [bool(model)]:
    Python asks [__bool__], else [__len__], and either may raise (the
    length of an ensemble of scikit-learn is the number of its fitted
    estimators, which do not exist before [fit]). *)
Record MLModel := {
  truth_value : result bool;
  predictor : Predictor
}.

(** The attributes of a [FraudDetectionService]. *)
Record FraudDetectionService := {
  fraud_rules : list (string * RuleConfig);
  velocity_checks : list (string * VelocityCheck);
  ml_model : option MLModel;
  scaler : list Q -> result (list Q)
}.

(** A row of the profile query: [users] joined with
    [user_transaction_stats]. *)
Record UserRow := {
  row_created_at : Z;
  row_verification_level : string;
  row_total_transactions : Z;
  row_total_amount : Q;
  row_avg_amount : Q;
  row_failed_attempts_24h : Z
}.

(** A row of the typical locations query. *)
Record LocationRow := {
  loc_latitude : Q;
  loc_longitude : Q;
  loc_frequency : Z
}.

(** What the service reads from outside and what may fail there. *)
Record Env := {
  (* clock, identifiers, formatting, mathematics *)
  clock : nat -> Q;
  uuid4 : nat -> string;
  format_3f : Q -> string;
  math_radians : Q -> Q;
  math_sin : Q -> Q;
  math_cos : Q -> Q;
  math_asin : Q -> Q;
  math_sqrt : Q -> Q;
  np_exp : Q -> Q;
  (* redis *)
  redis_get_error : string -> option exn;
  redis_setex_error : string -> option exn;
  redis_delete_error : string -> option exn;
  (* asyncpg: fetchrow, fetch, execute *)
  fetchrow_user : string -> result (option UserRow);
  fetchrow_count : string -> Z -> Z -> result (option Z);
  fetchrow_total : string -> Z -> Z -> result (option Q);
  fetch_locations : string -> Z -> result (list LocationRow);
  execute_error : FraudAssessment -> option exn;
  (* alert sink *)
  alert_error : FraudAssessment -> option exn
}.

(** What the service leaves behind: the cache entries, the rows of
    [fraud_assessments], the alerts sent, and how many clock readings
    and identifiers have been drawn. *)
Record World := {
  cache : gmap string UserRiskProfile;
  fraud_assessments : list FraudAssessment;
  alerts : list FraudAssessment;
  ticks : nat
}.

(** A step of the service: it may raise, and it changes the world. *)
Definition M (A : Type) : Type := World -> result A * World.

#[global] Instance M_ret : MRet M := fun A a w => (Ok a, w).
#[global] Instance M_bind : MBind M := fun A B k m w =>
  match m w with
  | (Ok a, w') => k a w'
  | (Raise e, w') => (Raise e, w')
  end.

Definition lift {A} (r : result A) : M A := fun w => (r, w).

Definition raise {A} (e : exn) : M A := lift (Raise e).

(** [try: body except Exception as e: handler(e)] *)
Definition try_except {A} (body : M A) (handler : exn -> M A) : M A :=
  fun w =>
    match body w with
    | (Ok a, w') => (Ok a, w')
    | (Raise e, w') => handler e w'
    end.

(** An operation of a collaborator that either fails or has an effect. *)
Definition effect (failure : option exn) (f : World -> World) : M unit :=
  fun w =>
    match failure with
    | Some e => (Raise e, w)
    | None => (Ok tt, f w)
    end.

Definition tick (w : World) : World :=
  {| cache := cache w; fraud_assessments := fraud_assessments w;
     alerts := alerts w; ticks := S (ticks w) |}.

Definition set_cache (f : gmap string UserRiskProfile ->
                          gmap string UserRiskProfile) (w : World) : World :=
  {| cache := f (cache w); fraud_assessments := fraud_assessments w;
     alerts := alerts w; ticks := ticks w |}.

Definition insert_assessment (a : FraudAssessment) (w : World) : World :=
  {| cache := cache w; fraud_assessments := fraud_assessments w ++ [a];
     alerts := alerts w; ticks := ticks w |}.

Definition emit_alert (a : FraudAssessment) (w : World) : World :=
  {| cache := cache w; fraud_assessments := fraud_assessments w;
     alerts := alerts w ++ [a]; ticks := ticks w |}.

(** [self._initialize_fraud_rules()] *)
Definition initialize_fraud_rules : list (string * RuleConfig) :=
  [ ("velocity_check",
     {| name := "VELOCITY_CHECK";
        description := "Check transaction velocity limits";
        weight := 0.3; rc_action := HOLD; enabled := true |});
    ("amount_anomaly",
     {| name := "AMOUNT_ANOMALY";
        description := "Detect unusual transaction amounts";
        weight := 0.25; rc_action := MANUAL_REVIEW; enabled := true |});
    ("geolocation_anomaly",
     {| name := "GEOLOCATION_ANOMALY";
        description := "Detect unusual geographic locations";
        weight := 0.2; rc_action := HOLD; enabled := true |});
    ("device_fingerprint",
     {| name := "DEVICE_FINGERPRINT";
        description := "Check for new or suspicious devices";
        weight := 0.15; rc_action := MANUAL_REVIEW; enabled := true |});
    ("time_pattern",
     {| name := "TIME_PATTERN";
        description := "Detect unusual transaction timing";
        weight := 0.1; rc_action := MANUAL_REVIEW; enabled := true |}) ].

(** [self.velocity_checks] as [__init__] sets it. *)
Definition initial_velocity_checks : list (string * VelocityCheck) :=
  [ ("hourly", {| window_minutes := 60; max_transactions := 10;
                  max_amount := None; cooldown_minutes := None |});
    ("daily", {| window_minutes := 1440; max_transactions := 50;
                 max_amount := Some {| amount := 10000; currency := "USD";
                                       precision := 2 |};
                 cooldown_minutes := None |});
    ("weekly", {| window_minutes := 10080; max_transactions := 200;
                  max_amount := Some {| amount := 50000; currency := "USD";
                                        precision := 2 |};
                  cooldown_minutes := None |}) ].

(** The service as [__init__] leaves it, with the model artefacts that
    [_load_ml_model] found (or none). *)
Definition new_service (model : option MLModel)
    (scaler : list Q -> result (list Q)) : FraudDetectionService :=
  {| fraud_rules := initialize_fraud_rules;
     velocity_checks := initial_velocity_checks;
     ml_model := model;
     scaler := scaler |}.

(** ** services/fraud_detection.py: the pure part *)

(** [_calculate_final_score] *)
Definition calculate_final_score (rule_results : list FraudRuleResult)
    (ml_score : option Q) : Q :=
  let rule_score := py_sum (map score rule_results) in
  let final_score :=
    match ml_score with
    | Some ml => (rule_score * 0.6) + (ml * 0.4)
    | None => rule_score
    end in
  np_clip final_score 0 1.

(** [_determine_risk_level] *)
Definition determine_risk_level (final_score : Q) : RiskLevel :=
  if Qgeb final_score 0.8 then CRITICAL
  else if Qgeb final_score 0.6 then HIGH
  else if Qgeb final_score 0.3 then MEDIUM
  else LOW.

(** [_determine_action] *)
Definition determine_action (final_score : Q) (risk_level : RiskLevel)
    (rule_results : list FraudRuleResult) : FraudAction :=
  if Qgeb final_score 0.8 then REJECT
  else if Qgeb final_score 0.6 then HOLD
  else if Qgeb final_score 0.3 then
    let high_weight_triggered :=
      existsb (fun r => triggered r && Qgtb (score r) 0.5) rule_results in
    if high_weight_triggered then MANUAL_REVIEW else APPROVE
  else APPROVE.

(** [max(xs)] and [min(xs)] of a list with a first element. *)
Definition py_max (x : Q) (xs : list Q) : Q := fold_left Qmax xs x.
Definition py_min (x : Q) (xs : list Q) : Q := fold_left Qmin xs x.

(** [_calculate_confidence] *)
Definition calculate_confidence (rule_results : list FraudRuleResult)
    (ml_score : option Q) : Q :=
  match rule_results, ml_score with
  | [], None => 0
  | _, _ =>
      let rule_confidence :=
        py_sum (map score (List.filter triggered rule_results)) in
      let indicators :=
        (if Qgtb rule_confidence 0 then [rule_confidence] else [])
        ++ match ml_score with
           | Some ml => [ml]
           | None => []
           end in
      match indicators with
      | [] => 0.5
      | [indicator] => indicator
      | first :: rest =>
          let max_indicator := py_max first rest in
          let min_indicator := py_min first rest in
          let agreement := 1 - (max_indicator - min_indicator) in
          (py_sum indicators / inject_Z (Z.of_nat (length indicators)))
          * agreement
      end
  end.

(** [_calculate_base_risk_score] *)
Definition calculate_base_risk_score (account_age_days : Z)
    (verification_level : string) (total_transactions : Z) : Q :=
  let base := 0.5 in
  let base :=
    if (account_age_days <? 7)%Z then base + 0.3
    else if (account_age_days <? 30)%Z then base + 0.2
    else if (account_age_days <? 90)%Z then base + 0.1
    else base in
  let verification_scores : gmap string Q :=
    {[ "NONE" := 0.3; "BASIC" := 0.1; "ENHANCED" := - 0.1;
       "PREMIUM" := - 0.2 ]} in
  let base := base + default 0.1 (verification_scores !! verification_level) in
  let base :=
    if (total_transactions =? 0)%Z then base + 0.2
    else if (total_transactions <? 10)%Z then base + 0.1
    else if (total_transactions >? 100)%Z then base - 0.1
    else base in
  np_clip base 0 1.

(** [_calculate_transaction_history_score] *)
Definition calculate_transaction_history_score (total_transactions : Z) : Q :=
  if (total_transactions =? 0)%Z then 0.8
  else if (total_transactions <? 10)%Z then 0.6
  else if (total_transactions <? 50)%Z then 0.3
  else 0.1.

(** [_calculate_age_score] *)
Definition calculate_age_score (account_age_days : Z) : Q :=
  if (account_age_days <? 7)%Z then 0.9
  else if (account_age_days <? 30)%Z then 0.7
  else if (account_age_days <? 90)%Z then 0.4
  else if (account_age_days <? 365)%Z then 0.2
  else 0.1.

(** [t.hour] and [t.weekday()] of a UTC time; the epoch was a Thursday. *)
Definition hour (t : Z) : Z := ((t mod 86400) / 3600)%Z.
Definition weekday (t : Z) : Z := ((t / 86400 + 3) mod 7)%Z.

(** [(a - b).days] *)
Definition days_between (a b : Z) : Z := ((a - b) / 86400)%Z.

(** The [for] loop over a list, threading the variables it updates. *)
Fixpoint for_each {A S} (f : S -> A -> M S) (xs : list A) (s : S) : M S :=
  match xs with
  | [] => mret s
  | x :: xs' => s' ← f s x; for_each f xs' s'
  end.

(** ** services/fraud_detection.py: the methods that reach outside *)

(** The local variables [triggered], [score] and [details] of a rule
    evaluator at its [return]. *)
Record RuleLocals := {
  l_triggered : bool;
  l_score : Q;
  l_details : gmap string value
}.

Definition initial_locals : RuleLocals :=
  {| l_triggered := false; l_score := 0; l_details := ∅ |}.

(** The closing statement of every evaluator:
    [return FraudRuleResult(rule_name=rule_config['name'],
       triggered=triggered, score=score * rule_config['weight'],
       details=details)]. *)
Definition rule_result (rule_config : RuleConfig) (l : RuleLocals)
  : result FraudRuleResult :=
  FraudRuleResult_new (name rule_config) (l_triggered l)
    (l_score l * weight rule_config) (l_details l) None.

Section Service.

Variable env : Env.
Variable self : FraudDetectionService.

(** [time.time()], [datetime.utcnow()] and [uuid.uuid4()] draw the next
    reading. *)
Definition time_time : M Q :=
  fun w => (Ok (clock env (ticks w)), tick w).

Definition utcnow : M Z := t ← time_time; mret (Qfloor t).

Definition new_uuid : M string :=
  fun w => (Ok (uuid4 env (ticks w)), tick w).

Definition redis_get (key : string) : M (option UserRiskProfile) :=
  fun w =>
    match redis_get_error env key with
    | Some e => (Raise e, w)
    | None => (Ok (cache w !! key), w)
    end.

Definition redis_setex (key : string) (ttl : Z) (p : UserRiskProfile)
  : M unit :=
  effect (redis_setex_error env key) (set_cache (insert key p)).

Definition redis_delete (key : string) : M unit :=
  effect (redis_delete_error env key) (set_cache (delete key)).

Definition cache_key_of (user_id : string) : string :=
  ("user_risk_profile:" ++ user_id)%string.

(** [UserRiskProfile.parse_raw]: the cached snapshot is validated again. *)
Definition parse_raw (p : UserRiskProfile) : result UserRiskProfile :=
  let total := total_amount p in
  let average := average_transaction_amount p in
  Money_new (amount total) (currency total) (precision total) ;;
  Money_new (amount average) (currency average) (precision average) ;;
  UserRiskProfile_new p.

(** [_create_default_user_profile] *)
Definition create_default_user_profile (user_id : string)
  : M UserRiskProfile :=
  now ← utcnow;
  total ← lift (Money_new 0 "USD" 2);
  average ← lift (Money_new 0 "USD" 2);
  lift (UserRiskProfile_new
    {| up_user_id := user_id;
       base_score := 0.7;
       transaction_history_score := 0.0;
       age_score := 0.8;
       verification_level := "NONE";
       dispute_rate := 0.0;
       velocity_score := 0.0;
       last_updated := now;
       total_transactions := 0;
       total_amount := total;
       average_transaction_amount := average;
       account_age_days := 0;
       failed_attempts_24h := 0;
       up_risk_level := MEDIUM |}).

(** [_get_user_risk_profile] *)
Definition get_user_risk_profile (user_id : string) : M UserRiskProfile :=
  let cache_key := cache_key_of user_id in
  cached_profile ← redis_get cache_key;
  match cached_profile with
  | Some cached => lift (parse_raw cached)
  | None =>
      row ← lift (fetchrow_user env user_id);
      match row with
      | None => create_default_user_profile user_id
      | Some row =>
          now ← utcnow;
          let account_age_days := days_between now (row_created_at row) in
          let base :=
            calculate_base_risk_score account_age_days
              (row_verification_level row) (row_total_transactions row) in
          now' ← utcnow;
          total ← lift (Money_new (row_total_amount row) "USD" 2);
          average ← lift (Money_new (row_avg_amount row) "USD" 2);
          profile ← lift (UserRiskProfile_new
            {| up_user_id := user_id;
               base_score := base;
               transaction_history_score :=
                 calculate_transaction_history_score
                   (row_total_transactions row);
               age_score := calculate_age_score account_age_days;
               verification_level := row_verification_level row;
               dispute_rate := 0.0;
               velocity_score := 0.0;
               last_updated := now';
               total_transactions := row_total_transactions row;
               total_amount := total;
               average_transaction_amount := average;
               account_age_days := account_age_days;
               failed_attempts_24h := row_failed_attempts_24h row;
               up_risk_level := determine_risk_level base |});
          redis_setex cache_key 300 profile ;;
          mret profile
      end
  end.

(** [_get_transaction_count_in_window] *)
Definition get_transaction_count_in_window (user_id : string)
    (window_minutes : Z) (timestamp : Z) : M Z :=
  let window_start := (timestamp - window_minutes * 60)%Z in
  row ← lift (fetchrow_count env user_id window_start timestamp);
  mret (default 0%Z row).

(** [_get_transaction_amount_in_window] *)
Definition get_transaction_amount_in_window (user_id : string)
    (window_minutes : Z) (timestamp : Z) : M Q :=
  let window_start := (timestamp - window_minutes * 60)%Z in
  row ← lift (fetchrow_total env user_id window_start timestamp);
  mret (default 0.0 row).

(** [_get_user_typical_locations] *)
Definition get_user_typical_locations (user_id : string)
  : M (list LocationRow) :=
  now ← utcnow;
  lift (fetch_locations env user_id (now - 30 * 86400)%Z).

(** [_calculate_distance]: the haversine formula. *)
Definition calculate_distance (lat1 lon1 lat2 lon2 : Q) : Q :=
  let lat1 := math_radians env lat1 in
  let lon1 := math_radians env lon1 in
  let lat2 := math_radians env lat2 in
  let lon2 := math_radians env lon2 in
  let dlat := lat2 - lat1 in
  let dlon := lon2 - lon1 in
  let a := math_sin env (dlat / 2) ^ 2
           + math_cos env lat1 * math_cos env lat2
             * math_sin env (dlon / 2) ^ 2 in
  let c := 2 * math_asin env (math_sqrt env a) in
  let r := 6371 in
  c * r.

(** The helper methods below have a constant for a body in the source
    (a comment says what an implementation would query). *)

(** [_get_user_known_devices]: [return []] *)
Definition get_user_known_devices (user_id : string) : M (list string) :=
  mret [].

(** [_is_device_blacklisted]: [return False] *)
Definition is_device_blacklisted (fingerprint : string) : M bool :=
  mret false.

(** [_get_user_typical_transaction_hours]: [return {}] *)
Definition get_user_typical_transaction_hours (user_id : string)
  : M (gmap string Q) :=
  mret ∅.

(** [_is_new_geolocation]: [return True] *)
Definition is_new_geolocation (user_id : string) (g : GeoLocation) : M bool :=
  mret true.

(** [_is_new_device]: [return True] *)
Definition is_new_device (user_id : string) (fingerprint : string) : M bool :=
  mret true.

(** *** The five rule evaluators *)

(** One round of the loop of [_check_velocity_rules]. *)
Definition velocity_round (transaction : Transaction) (l : RuleLocals)
    (entry : string * VelocityCheck) : M RuleLocals :=
  let '(period, velocity_check) := entry in
  count ← get_transaction_count_in_window (user_id transaction)
             (window_minutes velocity_check) (timestamp transaction);
  let l :=
    if (count >? max_transactions velocity_check)%Z then
      {| l_triggered := true;
         l_score := Qmax (l_score l) 0.8;
         l_details :=
           <[ period := VDict
                {[ "count" := VInt count;
                   "limit" := VInt (max_transactions velocity_check);
                   "exceeded" := VBool true ]} ]> (l_details l) |}
    else l in
  match max_amount velocity_check with
  | Some limit =>
      total_amount ← get_transaction_amount_in_window (user_id transaction)
                        (window_minutes velocity_check)
                        (timestamp transaction);
      if Qgtb total_amount (amount limit) then
        mret {| l_triggered := true;
                l_score := Qmax (l_score l) 0.9;
                l_details :=
                  <[ (period ++ "_amount")%string := VDict
                       {[ "total" := VFloat total_amount;
                          "limit" := VFloat (amount limit);
                          "exceeded" := VBool true ]} ]> (l_details l) |}
      else mret l
  | None => mret l
  end.

Definition velocity_locals (transaction : Transaction) : M RuleLocals :=
  for_each (velocity_round transaction) (velocity_checks self) initial_locals.

(** [_check_velocity_rules] *)
Definition check_velocity_rules (transaction : Transaction)
    (rule_config : RuleConfig) : M FraudRuleResult :=
  l ← velocity_locals transaction;
  lift (rule_result rule_config l).

Definition amount_anomaly_locals (transaction : Transaction)
    (user_profile : UserRiskProfile) : RuleLocals :=
  if (total_transactions user_profile >? 0)%Z then
    let avg_amount := amount (average_transaction_amount user_profile) in
    let current_amount := amount (tx_amount transaction) in
    if Qgtb avg_amount 0 then
      let z_score := Qabs (current_amount - avg_amount) / avg_amount in
      {| l_triggered := Qgtb z_score 3;
         l_score := if Qgtb z_score 3 then Qmin 0.8 (z_score / 5) else 0;
         l_details :=
           {[ "current_amount" := VFloat current_amount;
              "average_amount" := VFloat avg_amount;
              "z_score" := VFloat z_score;
              "threshold" := VFloat 3.0 ]} |}
    else initial_locals
  else initial_locals.

(** [_check_amount_anomaly] *)
Definition check_amount_anomaly (transaction : Transaction)
    (user_profile : UserRiskProfile) (rule_config : RuleConfig)
  : M FraudRuleResult :=
  lift (rule_result rule_config
          (amount_anomaly_locals transaction user_profile)).

Definition distance_to (transaction : Transaction) (location : LocationRow)
  : Q :=
  calculate_distance (latitude (geolocation transaction))
    (longitude (geolocation transaction))
    (loc_latitude location) (loc_longitude location).

Definition geolocation_locals (transaction : Transaction)
  : M RuleLocals :=
  typical_locations ← get_user_typical_locations (user_id transaction);
  match typical_locations with
  | first :: others =>
      (* [min(float('inf'), d)] is [d]: the loop starts from the first
         distance *)
      let min_distance :=
        fold_left (fun m location => Qmin m (distance_to transaction location))
                  others (distance_to transaction first) in
      mret {| l_triggered := Qgtb min_distance 1000;
              l_score := if Qgtb min_distance 1000
                         then Qmin 0.7 (min_distance / 5000) else 0;
              l_details :=
                {[ "current_location" := VDict
                     {[ "lat" := VFloat (latitude (geolocation transaction));
                        "lon" := VFloat (longitude (geolocation transaction));
                        "country" := VStr (country (geolocation transaction)) ]};
                   "min_distance_km" := VFloat min_distance;
                   "threshold_km" := VInt 1000 ]} |}
  | [] =>
      mret {| l_triggered := false; l_score := 0;
              l_details := {[ "status" := VStr "no_location_history" ]} |}
  end.

(** [_check_geolocation_anomaly] *)
Definition check_geolocation_anomaly (transaction : Transaction)
    (user_profile : UserRiskProfile) (rule_config : RuleConfig)
  : M FraudRuleResult :=
  l ← geolocation_locals transaction;
  lift (rule_result rule_config l).

Definition device_locals (transaction : Transaction) : M RuleLocals :=
  known ← get_user_known_devices (user_id transaction);
  let fp := fingerprint (device_fingerprint transaction) in
  if negb (existsb (String.eqb fp) known) then
    blacklisted ← is_device_blacklisted fp;
    reported ← is_device_blacklisted fp;
    mret {| l_triggered := true;
            l_score := if (blacklisted : bool) then 1.0 else 0.5;
            l_details :=
              {[ "device_fingerprint" := VStr fp;
                 "is_known_device" := VBool false;
                 "known_devices_count" := VInt (Z.of_nat (length known));
                 "is_blacklisted" := VBool reported ]} |}
  else
    mret {| l_triggered := false;
            l_score := 0;
            l_details :=
              {[ "device_fingerprint" := VStr fp;
                 "is_known_device" := VBool true;
                 "known_devices_count" := VInt (Z.of_nat (length known)) ]} |}.

(** [_check_device_fingerprint] *)
Definition check_device_fingerprint (transaction : Transaction)
    (user_profile : UserRiskProfile) (rule_config : RuleConfig)
  : M FraudRuleResult :=
  l ← device_locals transaction;
  lift (rule_result rule_config l).

(** The body of [_check_time_pattern] below the lookup of the typical
    hours. *)
Definition time_pattern_of (typical_hours : gmap string Q)
    (transaction : Transaction) : RuleLocals :=
  let current_hour := hour (timestamp transaction) in
  if negb (bool_decide (typical_hours = ∅)) then
    let hour_frequency :=
      default 0 (typical_hours !! str_of_int current_hour) in
    let total_frequency := py_sum (map_to_list typical_hours).*2 in
    if Qgtb total_frequency 0 then
      let hour_probability := hour_frequency / total_frequency in
      {| l_triggered := Qltb hour_probability 0.05;
         l_score := if Qltb hour_probability 0.05 then 0.4 else 0;
         l_details :=
           {[ "current_hour" := VInt current_hour;
              "hour_frequency" := VFloat hour_frequency;
              "total_frequency" := VFloat total_frequency;
              "hour_probability" := VFloat hour_probability;
              "threshold" := VFloat 0.05 ]} |}
    else initial_locals
  else
    {| l_triggered := false; l_score := 0;
       l_details := {[ "status" := VStr "no_transaction_history" ]} |}.

Definition time_pattern_locals (transaction : Transaction) : M RuleLocals :=
  typical_hours ← get_user_typical_transaction_hours (user_id transaction);
  mret (time_pattern_of typical_hours transaction).

(** [_check_time_pattern] *)
Definition check_time_pattern (transaction : Transaction)
    (user_profile : UserRiskProfile) (rule_config : RuleConfig)
  : M FraudRuleResult :=
  l ← time_pattern_locals transaction;
  lift (rule_result rule_config l).

(** *** The rule engine *)

(** The branch ladder of [_execute_fraud_rules]: the evaluator of a rule
    key, or nothing for a key the ladder does not know ([continue]). *)
Definition rule_evaluator (rule_name : string) (transaction : Transaction)
    (user_profile : UserRiskProfile) (rule_config : RuleConfig)
  : option (M FraudRuleResult) :=
  if String.eqb rule_name "velocity_check" then
    Some (check_velocity_rules transaction rule_config)
  else if String.eqb rule_name "amount_anomaly" then
    Some (check_amount_anomaly transaction user_profile rule_config)
  else if String.eqb rule_name "geolocation_anomaly" then
    Some (check_geolocation_anomaly transaction user_profile rule_config)
  else if String.eqb rule_name "device_fingerprint" then
    Some (check_device_fingerprint transaction user_profile rule_config)
  else if String.eqb rule_name "time_pattern" then
    Some (check_time_pattern transaction user_profile rule_config)
  else None.

(** What the [except] branch appends. *)
Definition error_result (rule_name : string) (e : exn) (elapsed : Q)
  : result FraudRuleResult :=
  FraudRuleResult_new rule_name false 0.0 {[ "error" := VStr (str e) ]}
    (Some elapsed).

(** One round of the loop of [_execute_fraud_rules]. *)
Definition execute_rule (transaction : Transaction)
    (user_profile : UserRiskProfile) (results : list FraudRuleResult)
    (entry : string * RuleConfig) : M (list FraudRuleResult) :=
  let '(rule_name, rule_config) := entry in
  if negb (enabled rule_config) then mret results
  else
    start_time ← time_time;
    try_except
      match rule_evaluator rule_name transaction user_profile rule_config with
      | None => mret results
      | Some evaluator =>
          r ← evaluator;
          now ← time_time;
          mret (results ++ [set_execution_time_ms r ((now - start_time) * 1000)])
      end
      (fun e =>
         now ← time_time;
         r ← lift (error_result rule_name e ((now - start_time) * 1000));
         mret (results ++ [r])).

(** [_execute_fraud_rules] *)
Definition execute_fraud_rules (transaction : Transaction)
    (user_profile : UserRiskProfile) : M (list FraudRuleResult) :=
  for_each (execute_rule transaction user_profile) (fraud_rules self) [].

(** *** The model score *)

(** [_extract_features].  The source declares it with a plain [def] and
    writes [await] in its body, which Python rejects.  It is read with
    the two [await] keywords left out, so that the signature and the
    call in [_calculate_ml_score] stay as written: the calls of
    [_is_new_geolocation] and [_is_new_device] then yield coroutine
    objects, which are true, and both features are 1.0.  (Read with
    [async def] instead, the caller would hand a coroutine to the
    scaler; the properties of [calculate_ml_score] below hold for every
    answer of the scaler, a refusal included.) *)
Definition extract_features (transaction : Transaction)
    (user_profile : UserRiskProfile) : list Q :=
  let current := amount (tx_amount transaction) in
  let average := amount (average_transaction_amount user_profile) in
  [ current;
    inject_Z (hour (timestamp transaction));
    inject_Z (weekday (timestamp transaction));
    inject_Z (account_age_days user_profile);
    inject_Z (total_transactions user_profile);
    average;
    inject_Z (failed_attempts_24h user_profile);
    1.0;
    1.0;
    Qabs (current - average) / Qmax average 1 ].

(** [np.clip(x, 0, 1)] of a number that may be NaN: NaN stays NaN. *)
Definition clip_unit (x : pyfloat) : pyfloat :=
  match x with
  | Num q => Num (np_clip q 0 1)
  | NaN => NaN
  end.

(** [1 / (1 + np.exp(-x))] *)
Definition to_probability (x : pyfloat) : pyfloat :=
  match x with
  | Num q => Num (1 / (1 + np_exp env (- q)))
  | NaN => NaN
  end.

(** [_calculate_ml_score].  The test [if not self.ml_model] stands
    before the [try]: what the truth test of the model raises leaves
    the method.  Line 548 of the source is indented less than the
    [else] it belongs to; it is read at the indentation of line 549. *)
Definition calculate_ml_score (transaction : Transaction)
    (user_profile : UserRiskProfile) : M (option pyfloat) :=
  match ml_model self with
  | None => mret None
  | Some model =>
      truthy ← lift (truth_value model);
      if negb truthy then mret None
      else
        try_except
          (let features := extract_features transaction user_profile in
           features_scaled ← lift (scaler self features);
           fraud_probability ←
             match predictor model with
             | Classifier predict_proba =>
                 probabilities ← lift (predict_proba features_scaled);
                 mret (snd probabilities)
             | AnomalyScorer decision_function =>
                 anomaly_score ← lift (decision_function features_scaled);
                 mret (to_probability anomaly_score)
             end;
           mret (Some (clip_unit fraud_probability)))
          (fun e => mret None)
  end.

(** [_generate_assessment_reason] *)
Definition generate_assessment_reason (rule_results : list FraudRuleResult)
    (ml_score : option Q) (final_score : Q) : string :=
  let triggered_rules := List.filter triggered rule_results in
  let reasons :=
    (match triggered_rules with
     | [] => []
     | _ => [("Rules triggered: "
              ++ String.concat ", " (map rule_name triggered_rules))%string]
     end)
    ++ (match ml_score with
        | Some ml => [("ML score: " ++ format_3f env ml)%string]
        | None => []
        end)
    ++ [("Final score: " ++ format_3f env final_score)%string] in
  String.concat "; " reasons.

(** *** Persistence, cache invalidation, alerting *)

(** [_store_assessment]: one [INSERT] into [fraud_assessments]. *)
Definition store_assessment (a : FraudAssessment) : M unit :=
  effect (execute_error env a) (insert_assessment a).

(** [_update_user_risk_profile] *)
Definition update_user_risk_profile (user_id : string) (new_score : Q)
  : M unit :=
  redis_delete (cache_key_of user_id).

(** [_send_fraud_alert] *)
Definition send_fraud_alert (a : FraudAssessment) : M unit :=
  effect (alert_error env a) (emit_alert a).

(** *** The coordinator *)

Definition failure_response (message : string) (elapsed : Q)
    (correlation_id : string) : FraudDetectionResponse :=
  {| success := false; assessment := None; error := Some message;
     processing_time_ms := elapsed; correlation_id := correlation_id |}.

(** The model score as the rest of the pipeline can use it: no score,
    a number, or nothing for NaN. *)
Definition as_number (x : option pyfloat) : option (option Q) :=
  match x with
  | None => Some None
  | Some (Num q) => Some (Some q)
  | Some NaN => None
  end.

(** The constructor call of lines 149-161, for the values computed
    above it. *)
Definition new_assessment (transaction : Transaction) (final_score : Q)
    (level : RiskLevel) (rule_results : list FraudRuleResult)
    (ml : option Q) (act : FraudAction) (why : string) (conf elapsed : Q)
    (new_id : string) (created : Z) : result FraudAssessment :=
  FraudAssessment_new
    {| fa_id := new_id;
       fa_user_id := user_id transaction;
       transaction_id := Some (id transaction);
       withdrawal_id := None;
       fa_score := final_score;
       risk_level := level;
       rules := rule_results;
       ml_score := ml;
       action := act;
       reason := why;
       confidence := conf;
       assessment_time_ms := elapsed;
       created_at := created;
       requires_manual_review :=
         existsb (FraudAction_eqb act) [MANUAL_REVIEW];
       reviewed_by := None;
       reviewed_at := None;
       review_notes := None |}.

(** The body of the [try] of [assess_transaction] for a request that
    carries a transaction, up to the persistence step (lines 132-164).
    It yields the assessment with the locals [final_score] and
    [risk_level], which the steps below it read.

    The readings of the clock and the identifier are those of the
    arguments and defaults of the constructor call; the computations
    before them change nothing, so the embedding draws the readings
    first.  A model score that is NaN makes the final score NaN
    ([nan * 0.4], and [np.clip] keeps NaN), and the constructor rejects
    a NaN score ([not nan >= 0]). *)
Definition assess_and_store (transaction : Transaction) (start_time : Q)
  : M (FraudAssessment * Q * RiskLevel) :=
  user_profile ← get_user_risk_profile (user_id transaction);
  rule_results ← execute_fraud_rules transaction user_profile;
  ml_float ← calculate_ml_score transaction user_profile;
  now ← time_time;
  new_id ← new_uuid;
  created ← utcnow;
  match as_number ml_float with
  | None => raise (ValidationError "FraudAssessment" "score")
  | Some ml =>
      let final_score := calculate_final_score rule_results ml in
      let level := determine_risk_level final_score in
      let act := determine_action final_score level rule_results in
      let why := generate_assessment_reason rule_results ml final_score in
      let conf := calculate_confidence rule_results ml in
      a ← lift (new_assessment transaction final_score level rule_results
                  ml act why conf ((now - start_time) * 1000) new_id
                  created);
      store_assessment a ;;
      mret (a, final_score, level)
  end.

(** The steps below the persistence step (lines 166-188). *)
Definition finish_assessment (transaction : Transaction) (start_time : Q)
    (correlation_id : string) (stored : FraudAssessment * Q * RiskLevel)
  : M FraudDetectionResponse :=
  let '(a, final_score, level) := stored in
  update_user_risk_profile (user_id transaction) final_score ;;
  (if existsb (RiskLevel_eqb level) [HIGH; CRITICAL]
   then send_fraud_alert a else mret tt) ;;
  finished ← time_time;
  mret {| success := true; assessment := Some a; error := None;
          processing_time_ms := (finished - start_time) * 1000;
          correlation_id := correlation_id |}.

(** The body of the [try] for a request that carries a transaction. *)
Definition assess_steps (transaction : Transaction) (start_time : Q)
    (correlation_id : string) : M FraudDetectionResponse :=
  stored ← assess_and_store transaction start_time;
  finish_assessment transaction start_time correlation_id stored.

(** [assess_transaction] *)
Definition assess_transaction (request : FraudDetectionRequest)
  : M FraudDetectionResponse :=
  start_time ← time_time;
  stamp ← time_time;
  let correlation_id :=
    ("fraud_" ++ str_of_int (int_of_float stamp))%string in
  try_except
    match transaction request with
    | None =>
        now ← time_time;
        mret (failure_response "No transaction provided"
                ((now - start_time) * 1000) correlation_id)
    | Some transaction => assess_steps transaction start_time correlation_id
    end
    (fun e =>
       now ← time_time;
       mret (failure_response (str e) ((now - start_time) * 1000)
               correlation_id)).

End Service.

(** * The specification's vocabulary *)

(** Clipping to [0,1], by cases. *)
Definition clip01 (x : Q) : Q :=
  if Qltb x 0 then 0 else if Qgtb x 1 then 1 else x.

(** The sum of the weighted scores, as a recursion over the list. *)
Fixpoint rule_sum (rule_results : list FraudRuleResult) : Q :=
  match rule_results with
  | [] => 0
  | r :: rest => score r + rule_sum rest
  end.

(** The sum of the weighted scores of the triggered rules. *)
Fixpoint triggered_sum (rule_results : list FraudRuleResult) : Q :=
  match rule_results with
  | [] => 0
  | r :: rest =>
      if triggered r then score r + triggered_sum rest
      else triggered_sum rest
  end.

(** The fusion of section 4.F.1, in the words of the specification. *)
Definition fuse_as_specified (rule_results : list FraudRuleResult)
    (ml_score : option Q) : Q :=
  clip01 match ml_score with
         | Some ml => 0.6 * rule_sum rule_results + 0.4 * ml
         | None => rule_sum rule_results
         end.

(** The indicators of section 4.F.4. *)
Definition indicators_as_specified (rule_results : list FraudRuleResult)
    (ml_score : option Q) : list Q :=
  (if Qgtb (triggered_sum rule_results) 0
   then [triggered_sum rule_results] else [])
  ++ match ml_score with
     | Some ml => [ml]
     | None => []
     end.

(** Mean of two indicators times their agreement. *)
Definition agreement_weighted_mean (x y : Q) : Q :=
  ((x + y) / 2) * (1 - (Qmax x y - Qmin x y)).

(** The confidence of section 4.F.4, in the words of the specification. *)
Definition confidence_as_specified (rule_results : list FraudRuleResult)
    (ml_score : option Q) : Q :=
  match indicators_as_specified rule_results ml_score with
  | [] => 0.5
  | [x] => x
  | x :: y :: _ => clip01 (agreement_weighted_mean x y)
  end.

(** The same without the final clip. *)
Definition confidence_unclipped (rule_results : list FraudRuleResult)
    (ml_score : option Q) : Q :=
  match indicators_as_specified rule_results ml_score with
  | [] => 0.5
  | [x] => x
  | x :: y :: _ => agreement_weighted_mean x y
  end.

(** Some rule fired with a weighted score above one half. *)
Definition heavy_rule_triggered (rule_results : list FraudRuleResult) : Prop :=
  exists r, In r rule_results /\ triggered r = true /\ 0.5 < score r.

(** The clipped confidence of section 4.F.4 behind the guard of the
    code: 0 when there is neither a rule result nor a model score. *)
Definition confidence_with_guard (rule_results : list FraudRuleResult)
    (ml_score : option Q) : Q :=
  match rule_results, ml_score with
  | [], None => 0
  | _, _ => confidence_as_specified rule_results ml_score
  end.

(** The confidence in the words of the amended claim: 0 when there is
    neither a rule result nor a model score, and otherwise the
    confidence of section 4.F.4 without its clip. *)
Definition confidence_as_amended (rule_results : list FraudRuleResult)
    (ml_score : option Q) : Q :=
  match rule_results, ml_score with
  | [], None => 0
  | _, _ => confidence_unclipped rule_results ml_score
  end.

(** A step that leaves a part [proj] of the world as it is. *)
Definition keeps_field {X A} (proj : World -> X) (m : M A) : Prop :=
  forall w, proj (snd (m w)) = proj w.

(** * Sample inputs *)

Definition sample_result (rule : string) (fired : bool) (weighted : Q)
  : FraudRuleResult :=
  {| rule_name := rule; triggered := fired; score := weighted;
     details := ∅; execution_time_ms := 0 |}.

(** A velocity rule that fired on the hourly count. *)
Definition velocity_fired : list FraudRuleResult :=
  [ sample_result "VELOCITY_CHECK" true 0.24;
    sample_result "AMOUNT_ANOMALY" false 0 ].

(** Two rules that fired with the largest score the model admits. *)
Definition two_full_scores : list FraudRuleResult :=
  [ sample_result "A" true 1; sample_result "B" true 1 ].

(** One rule that fired with a weighted score above one half. *)
Definition one_heavy_rule : list FraudRuleResult :=
  [ sample_result "VELOCITY_CHECK" true 0.6 ].

(** Collaborators that answer without failing, except where an argument
    says otherwise: the row of the profile query, the answer of the
    count query, and the failures of the [INSERT] and of
    [redis.delete]. *)
Definition sample_env (user_row : option UserRow)
    (count_query : result (option Z))
    (insert_failure delete_failure : option exn) : Env :=
  {| clock := fun n => inject_Z (1700000000 + Z.of_nat n);
     uuid4 := fun n => ("assessment-" ++ str_of_int (Z.of_nat n))%string;
     format_3f := fun x => str_of_int (Qfloor (x * 1000));
     math_radians := fun x => x;
     math_sin := fun x => x;
     math_cos := fun x => x;
     math_asin := fun x => x;
     math_sqrt := fun x => x;
     np_exp := fun x => 1;
     redis_get_error := fun _ => None;
     redis_setex_error := fun _ => None;
     redis_delete_error := fun _ => delete_failure;
     fetchrow_user := fun _ => Ok user_row;
     fetchrow_count := fun _ _ _ => count_query;
     fetchrow_total := fun _ _ _ => Ok (Some 0);
     fetch_locations := fun _ _ => Ok [];
     execute_error := fun _ => insert_failure;
     alert_error := fun _ => None |}.

(** Nothing fails, the user is not in [users]. *)
Definition env_unknown_user : Env :=
  sample_env None (Ok (Some 0%Z)) None None.

(** The count query of the velocity rule fails. *)
Definition env_count_query_down : Env :=
  sample_env None (Raise (Exception "connection lost")) None None.

(** The [INSERT] into [fraud_assessments] fails. *)
Definition env_insert_down : Env :=
  sample_env None (Ok (Some 0%Z)) (Some (Exception "insert failed")) None.

(** [redis.delete] fails. *)
Definition env_delete_down : Env :=
  sample_env None (Ok (Some 0%Z)) None
    (Some (Exception "redis unavailable")).

Definition usd (x : Q) : Money :=
  {| amount := x; currency := "USD"; precision := 2 |}.

(** An established user: 5 transactions, 50 USD on average. *)
Definition regular_profile : UserRiskProfile :=
  {| up_user_id := "u1";
     base_score := 0.5;
     transaction_history_score := 0.6;
     age_score := 0.2;
     verification_level := "BASIC";
     dispute_rate := 0;
     velocity_score := 0;
     last_updated := 1699990000;
     total_transactions := 5;
     total_amount := usd 250;
     average_transaction_amount := usd 50;
     account_age_days := 100;
     failed_attempts_24h := 0;
     up_risk_level := MEDIUM |}.

(** A payment of 2000 USD by that user. *)
Definition big_payment : Transaction :=
  {| id := "t1";
     user_id := "u1";
     type := PAYMENT;
     tx_amount := usd 2000;
     timestamp := 1700000000;
     device_fingerprint :=
       {| fingerprint := "fp-1"; user_agent := "agent";
          ip_address := "203.0.113.7"; screen_resolution := None;
          timezone := None; language := None; platform := None |};
     geolocation :=
       {| latitude := 48; longitude := 2; country := "FR";
          city := None; region := None |};
     recipient_id := None;
     tx_description := None;
     metadata := ∅ |}.

Definition payment_request : FraudDetectionRequest :=
  {| req_user_id := "u1"; transaction := Some big_payment;
     withdrawal_request := None; context := ∅;
     force_assessment := false |}.

(** A request filed under another user than the one of the transaction
    it carries. *)
Definition proxy_request : FraudDetectionRequest :=
  {| req_user_id := "alice"; transaction := Some big_payment;
     withdrawal_request := None; context := ∅;
     force_assessment := false |}.

Definition empty_world : World :=
  {| cache := ∅; fraud_assessments := []; alerts := []; ticks := 0 |}.

(** The profile of the sample user is in the cache. *)
Definition cached_world : World :=
  {| cache := {[ "user_risk_profile:u1" := regular_profile ]};
     fraud_assessments := []; alerts := []; ticks := 0 |}.

(** A service with the rule catalog of [__init__] and no model. *)
Definition sample_service : FraudDetectionService :=
  new_service None (fun features => Ok features).

(** The locals that the evaluator of a rule key has at its [return],
    where it multiplies the raw score by the weight of the rule. *)
Definition rule_locals (env : Env) (self : FraudDetectionService)
    (rule_key : string) (transaction : Transaction)
    (user_profile : UserRiskProfile) : option (M RuleLocals) :=
  if String.eqb rule_key "velocity_check" then
    Some (velocity_locals env self transaction)
  else if String.eqb rule_key "amount_anomaly" then
    Some (mret (amount_anomaly_locals transaction user_profile))
  else if String.eqb rule_key "geolocation_anomaly" then
    Some (geolocation_locals env transaction)
  else if String.eqb rule_key "device_fingerprint" then
    Some (device_locals transaction)
  else if String.eqb rule_key "time_pattern" then
    Some (time_pattern_locals transaction)
  else None.

(** A service with the rule catalog of [__init__] and a classifier
    that gives every transaction the fraud probability 0.9. *)
Definition scoring_service : FraudDetectionService :=
  new_service
    (Some {| truth_value := Ok true;
             predictor := Classifier (fun _ => Ok (Num 0.1, Num 0.9)) |})
    (fun features => Ok features).

(** A service whose model cannot say whether it is true, as an ensemble
    that has not been fitted. *)
Definition unfitted_service : FraudDetectionService :=
  new_service
    (Some {| truth_value :=
               Raise (Exception "object has no attribute 'estimators_'");
             predictor :=
               AnomalyScorer (fun _ => Raise (Exception "not fitted")) |})
    (fun _ => Raise (Exception "not fitted")).

(** The catalog entries of the amount and device rules. *)
Definition amount_config : RuleConfig :=
  {| name := "AMOUNT_ANOMALY";
     description := "Detect unusual transaction amounts";
     weight := 0.25; rc_action := MANUAL_REVIEW; enabled := true |}.

Definition device_config : RuleConfig :=
  {| name := "DEVICE_FINGERPRINT";
     description := "Check for new or suspicious devices";
     weight := 0.15; rc_action := MANUAL_REVIEW; enabled := true |}.

(** The normalised deviation of section 4.D.2. *)
Definition deviation (transaction : Transaction)
    (user_profile : UserRiskProfile) : Q :=
  Qabs (amount (tx_amount transaction)
        - amount (average_transaction_amount user_profile))
  / amount (average_transaction_amount user_profile).

(** What the [except] branch of the rule engine records for a rule. *)
Definition recorded_failure (rule_key : string) (e : exn) (elapsed : Q)
  : FraudRuleResult :=
  {| rule_name := rule_key; triggered := false; score := 0.0;
     details := {[ "error" := VStr (str e) ]};
     execution_time_ms := elapsed |}.

(** The rule engine as a relation: [engine_run env self tx profile
    entries acc w out w'] says that the loop over [entries], started
    with the results [acc] in the world [w], ends with the results [out]
    in the world [w'].  A disabled rule and a rule without an evaluator
    add nothing; an evaluator that returns adds its result; an
    evaluator that raises adds the recorded failure, and the loop goes
    on with the rules that remain. *)
Inductive engine_run (env : Env) (self : FraudDetectionService)
    (tx : Transaction) (profile : UserRiskProfile)
  : list (string * RuleConfig) -> list FraudRuleResult -> World ->
    list FraudRuleResult -> World -> Prop :=
| run_done acc w :
    engine_run env self tx profile [] acc w acc w
| run_disabled key cfg rest acc w out w' :
    enabled cfg = false ->
    engine_run env self tx profile rest acc w out w' ->
    engine_run env self tx profile ((key, cfg) :: rest) acc w out w'
| run_unknown key cfg rest acc w out w' :
    enabled cfg = true ->
    rule_evaluator env self key tx profile cfg = None ->
    engine_run env self tx profile rest acc (tick w) out w' ->
    engine_run env self tx profile ((key, cfg) :: rest) acc w out w'
| run_returned key cfg evaluator r w1 rest acc w out w' :
    enabled cfg = true ->
    rule_evaluator env self key tx profile cfg = Some evaluator ->
    evaluator (tick w) = (Ok r, w1) ->
    engine_run env self tx profile rest
      (acc ++ [set_execution_time_ms r
                 ((clock env (ticks w1) - clock env (ticks w)) * 1000)])
      (tick w1) out w' ->
    engine_run env self tx profile ((key, cfg) :: rest) acc w out w'
| run_raised key cfg evaluator e w1 rest acc w out w' :
    enabled cfg = true ->
    rule_evaluator env self key tx profile cfg = Some evaluator ->
    evaluator (tick w) = (Raise e, w1) ->
    engine_run env self tx profile rest
      (acc ++ [recorded_failure key e
                 ((clock env (ticks w1) - clock env (ticks w)) * 1000)])
      (tick w1) out w' ->
    engine_run env self tx profile ((key, cfg) :: rest) acc w out w'.

(** The model step yields [ml]: no score, or a number.  This says that
    the truth test of the model, if there is a model, does not raise,
    and that the prediction is not NaN. *)
Definition model_step_scores (env : Env) (self : FraudDetectionService)
    (transaction : Transaction) (user_profile : UserRiskProfile)
    (ml : option Q) : Prop :=
  forall w,
    calculate_ml_score env self transaction user_profile w
    = (Ok (Num <$> ml), w).

(** The correlation id of a request that arrives in the world [w]: the
    second clock reading, in whole seconds. *)
Definition correlation_id_of (env : Env) (w : World) : string :=
  ("fraud_" ++ str_of_int (int_of_float (clock env (S (ticks w)))))%string.

(** * Vocabulary of the further properties *)

(** The levels in increasing order of risk. *)
Definition level_rank (level : RiskLevel) : Z :=
  match level with
  | LOW => 0
  | MEDIUM => 1
  | HIGH => 2
  | CRITICAL => 3
  end.

(** A velocity window whose count or amount limit is exceeded, as the
    two queries of [_check_velocity_rules] see it. *)
Definition limit_exceeded (env : Env) (transaction : Transaction)
    (velocity_check : VelocityCheck) : Prop :=
  let since :=
    (timestamp transaction - window_minutes velocity_check * 60)%Z in
  (exists row,
     fetchrow_count env (user_id transaction) since (timestamp transaction)
     = Ok row
     /\ (max_transactions velocity_check < default 0 row)%Z)
  \/ (exists limit row,
        max_amount velocity_check = Some limit
        /\ fetchrow_total env (user_id transaction) since
             (timestamp transaction) = Ok row
        /\ amount limit < default 0.0 row).

(** The locals of the velocity rule are in one of two shapes. *)
Definition velocity_shape (l : RuleLocals) : Prop :=
  (l_triggered l = false /\ l_score l = 0 /\ l_details l = ∅)
  \/ (l_triggered l = true /\ (l_score l = 0.8 \/ l_score l = 0.9)).

(** The rule keys the branch ladder of the engine knows. *)
Definition has_evaluator (rule_key : string) : bool :=
  String.eqb rule_key "velocity_check"
  || String.eqb rule_key "amount_anomaly"
  || String.eqb rule_key "geolocation_anomaly"
  || String.eqb rule_key "device_fingerprint"
  || String.eqb rule_key "time_pattern".

(** The entries of a catalog that the engine evaluates. *)
Definition evaluated_entries (entries : list (string * RuleConfig))
  : list (string * RuleConfig) :=
  List.filter (fun entry => enabled (snd entry) && has_evaluator (fst entry))
    entries.

(** The sum of the frequencies of the typical hours and the frequency of
    the hour of a transaction, as [_check_time_pattern] reads them. *)
Definition total_frequency (hours : gmap string Q) : Q :=
  py_sum (map_to_list hours).*2.

Definition hour_frequency (hours : gmap string Q) (transaction : Transaction)
  : Q :=
  default 0 (hours !! str_of_int (hour (timestamp transaction))).

(** Twelve transactions in every window. *)
Definition env_busy_user : Env :=
  sample_env None (Ok (Some 12%Z)) None None.

(** The name a result of the rule engine may carry for a catalog entry:
    the name of the rule, or its key when the evaluator raised. *)
Definition names_entry (entry : string * RuleConfig) (r : FraudRuleResult)
  : Prop :=
  rule_name r = name (snd entry) \/ rule_name r = fst entry.

(** A registered user with 5 transactions of 50 USD on average. *)
Definition registered_row : UserRow :=
  {| row_created_at := 1690000000;
     row_verification_level := "BASIC";
     row_total_transactions := 5;
     row_total_amount := 250;
     row_avg_amount := 50;
     row_failed_attempts_24h := 0 |}.

Definition env_registered_user : Env :=
  sample_env (Some registered_row) (Ok (Some 0%Z)) None None.

(** A registered user without statistics: the profile query fills the
    missing amounts and counts with 0. *)
Definition fresh_row : UserRow :=
  {| row_created_at := 1699990000;
     row_verification_level := "NONE";
     row_total_transactions := 0;
     row_total_amount := 0;
     row_avg_amount := 0;
     row_failed_attempts_24h := 0 |}.

Definition env_fresh_user : Env :=
  sample_env (Some fresh_row) (Ok (Some 0%Z)) None None.

(** A result of the rule engine that reports nothing: not triggered,
    with the score 0.0 of the [except] branch. *)
Definition reports_nothing (r : FraudRuleResult) : Prop :=
  triggered r = false /\ score r = 0.0.

(** The two optional parts of a reason, each with its separator. *)
Definition rules_part (rule_results : list FraudRuleResult) : string :=
  match List.filter triggered rule_results with
  | [] => ""
  | fired =>
      ("Rules triggered: " ++ String.concat ", " (map rule_name fired)
       ++ "; ")%string
  end.

Definition ml_part (env : Env) (ml_score : option Q) : string :=
  match ml_score with
  | Some ml => ("ML score: " ++ format_3f env ml ++ "; ")%string
  | None => ""
  end.

(** * Properties *)

(** ** Comparisons, clipping and sums *)

Lemma Qleb_true x y : Qleb x y = true <-> x <= y.
Proof. apply Qle_bool_iff. Qed.

Lemma Qleb_false x y : Qleb x y = false <-> y < x.
Proof.
  unfold Qleb. rewrite <- not_true_iff_false, Qle_bool_iff.
  split; [apply Qnot_le_lt | apply Qlt_not_le].
Qed.

Lemma Qgeb_true x y : Qgeb x y = true <-> y <= x.
Proof. apply Qle_bool_iff. Qed.

Lemma Qgeb_false x y : Qgeb x y = false <-> x < y.
Proof. apply Qleb_false. Qed.

Lemma Qgtb_true x y : Qgtb x y = true <-> y < x.
Proof. unfold Qgtb. rewrite negb_true_iff. apply Qleb_false. Qed.

Lemma Qgtb_false x y : Qgtb x y = false <-> x <= y.
Proof. unfold Qgtb. rewrite negb_false_iff. apply Qle_bool_iff. Qed.

Lemma Qltb_true x y : Qltb x y = true <-> x < y.
Proof. unfold Qltb. rewrite negb_true_iff. apply Qleb_false. Qed.

Lemma Qltb_false x y : Qltb x y = false <-> y <= x.
Proof. unfold Qltb. rewrite negb_false_iff. apply Qle_bool_iff. Qed.

(** Case analysis on every comparison of rationals in the goal. *)
Ltac qcase :=
  match goal with
  | |- context [Qgeb ?x ?y] =>
      let H := fresh "C" in
      destruct (Qgeb x y) eqn:H;
      [apply Qgeb_true in H | apply Qgeb_false in H]
  | |- context [Qgtb ?x ?y] =>
      let H := fresh "C" in
      destruct (Qgtb x y) eqn:H;
      [apply Qgtb_true in H | apply Qgtb_false in H]
  | |- context [Qltb ?x ?y] =>
      let H := fresh "C" in
      destruct (Qltb x y) eqn:H;
      [apply Qltb_true in H | apply Qltb_false in H]
  | |- context [Qleb ?x ?y] =>
      let H := fresh "C" in
      destruct (Qleb x y) eqn:H;
      [apply Qleb_true in H | apply Qleb_false in H]
  end.

Lemma unit_interval_true x : unit_interval x = true <-> 0 <= x <= 1.
Proof.
  unfold unit_interval. rewrite andb_true_iff, !Qleb_true. tauto.
Qed.

Lemma np_clip_clip01 x : np_clip x 0 1 == clip01 x.
Proof.
  unfold np_clip, clip01.
  destruct (Q.max_spec x 0) as [[H1 E1] | [H1 E1]];
    destruct (Q.min_spec (Qmax x 0) 1) as [[H2 E2] | [H2 E2]];
    rewrite E2; try rewrite E1; rewrite ?E1 in H2;
    repeat qcase; lra.
Qed.

Lemma clip01_bounds x : 0 <= clip01 x <= 1.
Proof. unfold clip01. repeat qcase; lra. Qed.

Lemma clip01_id x : 0 <= x <= 1 -> clip01 x == x.
Proof. intros H. unfold clip01. repeat qcase; lra. Qed.

Lemma clip01_compat x y : x == y -> clip01 x == clip01 y.
Proof. intros H. unfold clip01. repeat qcase; lra. Qed.

Lemma np_clip_bounds x : 0 <= np_clip x 0 1 <= 1.
Proof. rewrite np_clip_clip01. apply clip01_bounds. Qed.

Lemma fold_left_Qplus xs acc : fold_left Qplus xs acc == acc + py_sum xs.
Proof.
  unfold py_sum. revert acc.
  induction xs as [| x xs IH]; intros acc; simpl.
  - lra.
  - rewrite IH, (IH (0 + x)). lra.
Qed.

Lemma py_sum_cons x xs : py_sum (x :: xs) == x + py_sum xs.
Proof. unfold py_sum at 1. simpl. rewrite fold_left_Qplus. lra. Qed.

Lemma py_sum_scores rule_results :
  py_sum (map score rule_results) == rule_sum rule_results.
Proof.
  induction rule_results as [| r rest IH]; simpl.
  - reflexivity.
  - rewrite py_sum_cons, IH. reflexivity.
Qed.

(** ** Score fusion *)

(** C1. For every list of rule results and every optional model score,
    the final score is the clip to [0,1] of 0.6 times the sum of all
    rule scores plus 0.4 times the model score when the model score is
    defined, and the clip to [0,1] of the sum of all rule scores when it
    is not. *)
Theorem calculate_final_score_fuses rule_results ml_score :
  calculate_final_score rule_results ml_score
  == fuse_as_specified rule_results ml_score.
Proof.
  unfold calculate_final_score, fuse_as_specified.
  rewrite np_clip_clip01. apply clip01_compat.
  destruct ml_score as [ml |]; rewrite py_sum_scores; lra.
Qed.

Lemma calculate_final_score_bounds rule_results ml_score :
  0 <= calculate_final_score rule_results ml_score <= 1.
Proof. apply np_clip_bounds. Qed.

(** ** Risk level and action *)

(** C4. The risk level is the band that holds the final score: LOW
    exactly below 0.3, MEDIUM exactly from 0.3 and below 0.6, HIGH
    exactly from 0.6 and below 0.8, CRITICAL exactly from 0.8.  This
    holds for every score, so for every score in [0,1]. *)
Theorem determine_risk_level_band s :
  (determine_risk_level s = LOW <-> s < 0.3)
  /\ (determine_risk_level s = MEDIUM <-> 0.3 <= s /\ s < 0.6)
  /\ (determine_risk_level s = HIGH <-> 0.6 <= s /\ s < 0.8)
  /\ (determine_risk_level s = CRITICAL <-> 0.8 <= s).
Proof.
  unfold determine_risk_level.
  repeat qcase; repeat split; intros; try discriminate; try lra;
    try (exfalso; lra).
Qed.

Lemma heavy_rule_triggered_iff rule_results :
  existsb (fun r => triggered r && Qgtb (score r) 0.5) rule_results = true
  <-> heavy_rule_triggered rule_results.
Proof.
  unfold heavy_rule_triggered. rewrite existsb_exists.
  split; intros [r [Hin H]]; exists r; split; auto.
  - apply andb_true_iff in H as [Ht Hs]. apply Qgtb_true in Hs. auto.
  - destruct H as [Ht Hs]. apply andb_true_iff. split; auto.
    apply Qgtb_true; auto.
Qed.

Lemma determine_action_cases s level rule_results :
  (determine_action s level rule_results = REJECT <-> 0.8 <= s)
  /\ (determine_action s level rule_results = HOLD <-> 0.6 <= s /\ s < 0.8)
  /\ (determine_action s level rule_results = MANUAL_REVIEW
      <-> 0.3 <= s /\ s < 0.6 /\ heavy_rule_triggered rule_results)
  /\ (determine_action s level rule_results = APPROVE
      <-> s < 0.3
          \/ (0.3 <= s /\ s < 0.6 /\ ~ heavy_rule_triggered rule_results)).
Proof.
  unfold determine_action.
  pose proof (heavy_rule_triggered_iff rule_results) as Hh.
  destruct (existsb _ rule_results);
    [ assert (Hheavy : heavy_rule_triggered rule_results)
        by (apply Hh; reflexivity)
    | assert (Hlight : ~ heavy_rule_triggered rule_results)
        by (intros Hc; apply Hh in Hc; discriminate) ];
    clear Hh; repeat qcase;
    repeat match goal with
           | |- _ /\ _ => split
           | |- _ <-> _ => split; intros
           end;
    try discriminate; try reflexivity; try lra;
    repeat match goal with
           | H : _ /\ _ |- _ => destruct H
           | H : _ \/ _ |- _ => destruct H
           end;
    try lra; try contradiction; auto.
  all: try (right; repeat split; auto; lra).
  all: try (left; lra).
Qed.

Lemma manual_review_flag act :
  existsb (FraudAction_eqb act) [MANUAL_REVIEW] = true
  <-> act = MANUAL_REVIEW.
Proof. destruct act; simpl; split; intros; congruence. Qed.

(** ** Confidence *)

Lemma py_sum_triggered rule_results :
  py_sum (map score (List.filter triggered rule_results))
  == triggered_sum rule_results.
Proof.
  induction rule_results as [| r rest IH]; simpl.
  - reflexivity.
  - destruct (triggered r); simpl.
    + rewrite py_sum_cons, IH. reflexivity.
    + exact IH.
Qed.

Lemma agreement_weighted_mean_compat x x' y :
  x == x' -> agreement_weighted_mean x y == agreement_weighted_mean x' y.
Proof.
  intros E. unfold agreement_weighted_mean.
  destruct (Q.max_spec x y) as [[? E1] | [? E1]];
    destruct (Q.max_spec x' y) as [[? E2] | [? E2]];
    destruct (Q.min_spec x y) as [[? E3] | [? E3]];
    destruct (Q.min_spec x' y) as [[? E4] | [? E4]];
    rewrite E1, E2, E3, E4, E; try reflexivity; try lra;
    exfalso; lra.
Qed.

Lemma agreement_weighted_mean_bounds x y :
  0 <= x <= 1 -> 0 <= y <= 1 -> 0 <= agreement_weighted_mean x y <= 1.
Proof.
  intros Hx Hy. unfold agreement_weighted_mean.
  destruct (Q.max_spec x y) as [[? E1] | [? E1]];
    destruct (Q.min_spec x y) as [[? E2] | [? E2]];
    rewrite E1, E2; try (exfalso; lra).
  all: assert (Hh : (x + y) / 2 == (x + y) * (1 # 2)) by field;
    set (m := (x + y) / 2) in *;
    assert (Hm : 0 <= m <= 1) by lra;
    split; nra.
Qed.

(** The value [_calculate_confidence] returns past its first guard. *)
Lemma calculate_confidence_past_guard rule_results ml_score :
  rule_results <> [] \/ ml_score <> None ->
  calculate_confidence rule_results ml_score
  == confidence_unclipped rule_results ml_score.
Proof.
  intros Hguard.
  assert (E : calculate_confidence rule_results ml_score
              = let rc :=
                  py_sum (map score (List.filter triggered rule_results)) in
                let indicators :=
                  (if Qgtb rc 0 then [rc] else [])
                  ++ match ml_score with Some ml => [ml] | None => [] end in
                match indicators with
                | [] => 0.5
                | [indicator] => indicator
                | first :: rest =>
                    (py_sum indicators
                     / inject_Z (Z.of_nat (length indicators)))
                    * (1 - (py_max first rest - py_min first rest))
                end).
  { unfold calculate_confidence.
    destruct rule_results as [| r rest]; destruct ml_score as [ml |];
      try reflexivity.
    destruct Hguard as [H | H]; congruence. }

  rewrite E. clear E Hguard. cbv zeta.
  unfold confidence_unclipped, indicators_as_specified.
  pose proof (py_sum_triggered rule_results) as Hs.
  set (rc := py_sum _) in *. set (ts := triggered_sum _) in *.
  destruct (Qgtb rc 0) eqn:Hrc; destruct (Qgtb ts 0) eqn:Hts;
    try (apply Qgtb_true in Hrc); try (apply Qgtb_false in Hrc);
    try (apply Qgtb_true in Hts); try (apply Qgtb_false in Hts);
    try (exfalso; lra);
    destruct ml_score as [ml |]; simpl; try reflexivity; try exact Hs.
  rewrite <- (agreement_weighted_mean_compat rc ts ml Hs).
  unfold agreement_weighted_mean, py_sum, py_max, py_min. simpl.
  assert (Hd : (0 + rc + ml) / inject_Z 2 == (rc + ml) / 2) by (field).
  rewrite Hd. reflexivity.
Qed.

Lemma triggered_sum_indicator rule_results x :
  triggered_sum rule_results <= 1 ->
  In x (if Qgtb (triggered_sum rule_results) 0
        then [triggered_sum rule_results] else []) ->
  0 <= x <= 1.
Proof.
  intros Hle Hin.
  destruct (Qgtb (triggered_sum rule_results) 0) eqn:C; simpl in Hin;
    [| contradiction].
  apply Qgtb_true in C. destruct Hin as [<- | []]. lra.
Qed.

(** The confidence for inputs in range. *)
Lemma calculate_confidence_in_range rule_results ml_score :
  triggered_sum rule_results <= 1 ->
  (forall ml, ml_score = Some ml -> 0 <= ml <= 1) ->
  calculate_confidence rule_results ml_score
  == confidence_with_guard rule_results ml_score.
Proof.
  intros Hsum Hml.
  assert (Hcases : (rule_results = [] /\ ml_score = None)
                   \/ (rule_results <> [] \/ ml_score <> None)).
  { destruct rule_results; destruct ml_score; auto;
      right; (left; discriminate) || (right; discriminate). }
  destruct Hcases as [[-> ->] | Hguard]; [reflexivity |].
  assert (E : confidence_with_guard rule_results ml_score
              = confidence_as_specified rule_results ml_score).
  { unfold confidence_with_guard.
    destruct rule_results; destruct ml_score; try reflexivity.
    destruct Hguard; congruence. }
  rewrite E, (calculate_confidence_past_guard _ _ Hguard).
  unfold confidence_unclipped, confidence_as_specified,
    indicators_as_specified.
  pose proof (triggered_sum_indicator rule_results) as Hind.
  destruct (Qgtb (triggered_sum rule_results) 0);
    destruct ml_score as [ml |]; simpl; try reflexivity.
  symmetry. apply clip01_id. apply agreement_weighted_mean_bounds.
  - apply Hind; [exact Hsum | left; reflexivity].
  - apply Hml. reflexivity.
Qed.

(** C6, as amended.  For every list of rule results and every optional
    model score: the confidence is 0 when there is no rule result and
    no model score; otherwise, with the indicators being the sum of the
    triggered scores (when positive) and the model score (when
    defined), it is 0.5 for no indicator, the indicator itself for one,
    and the mean times (1 - (max - min)) for two.  Nothing is clipped:
    for two indicators the value can leave [0,1]. *)
Theorem calculate_confidence_amended rule_results ml_score :
  calculate_confidence rule_results ml_score
  == confidence_as_amended rule_results ml_score.
Proof.
  assert (Hcases : (rule_results = [] /\ ml_score = None)
                   \/ (rule_results <> [] \/ ml_score <> None)).
  { destruct rule_results; destruct ml_score; auto;
      right; (left; discriminate) || (right; discriminate). }
  destruct Hcases as [[-> ->] | Hguard]; [reflexivity |].
  rewrite (calculate_confidence_past_guard _ _ Hguard).
  unfold confidence_as_amended.
  destruct rule_results; destruct ml_score; try reflexivity.
  destruct Hguard; congruence.
Qed.

(** C6 fails as stated: with no rule result and no model score the
    code answers 0, not 0.5; and for two triggered scores of 1 with a
    model score of 0 the code answers -1, which the claim clips to 0. *)
Lemma calculate_confidence_not_as_specified :
  (~ calculate_confidence [] None == confidence_as_specified [] None
   /\ calculate_confidence [] None == 0)
  /\ (~ calculate_confidence two_full_scores (Some 0)
         == confidence_as_specified two_full_scores (Some 0)
      /\ calculate_confidence two_full_scores (Some 0) == -1).
Proof.
  repeat split; vm_compute; solve [discriminate | reflexivity].
Qed.

(** ** Running a sequence of steps *)

Lemma bind_run {A B} (m : M A) (k : A -> M B) w :
  (m ≫= k) w = match m w with
               | (Ok a, w') => k a w'
               | (Raise e, w') => (Raise e, w')
               end.
Proof. reflexivity. Qed.

Lemma bind_ok {A B} (m : M A) (k : A -> M B) w a w1 :
  m w = (Ok a, w1) -> (m ≫= k) w = k a w1.
Proof. intros H. rewrite bind_run, H. reflexivity. Qed.

Lemma bind_raise {A B} (m : M A) (k : A -> M B) w e w1 :
  m w = (Raise e, w1) -> (m ≫= k) w = (Raise e, w1).
Proof. intros H. rewrite bind_run, H. reflexivity. Qed.

Lemma bind_ok_inv {A B} (m : M A) (k : A -> M B) w b w' :
  (m ≫= k) w = (Ok b, w') ->
  exists a w1, m w = (Ok a, w1) /\ k a w1 = (Ok b, w').
Proof.
  rewrite bind_run. destruct (m w) as [[a | e] w1]; intros H.
  - exists a, w1. auto.
  - discriminate.
Qed.

Lemma bind_raise_inv {A B} (m : M A) (k : A -> M B) w e w' :
  (m ≫= k) w = (Raise e, w') ->
  m w = (Raise e, w')
  \/ exists a w1, m w = (Ok a, w1) /\ k a w1 = (Raise e, w').
Proof.
  rewrite bind_run. destruct (m w) as [[a | e0] w1]; intros H.
  - right. exists a, w1. auto.
  - left. congruence.
Qed.

Lemma try_except_run {A} (body : M A) (handler : exn -> M A) w :
  try_except body handler w = match body w with
                              | (Ok a, w') => (Ok a, w')
                              | (Raise e, w') => handler e w'
                              end.
Proof. reflexivity. Qed.

Lemma lift_run {A} (r : result A) w : lift r w = (r, w).
Proof. reflexivity. Qed.

Lemma ret_run {A} (a : A) w : (mret a : M A) w = (Ok a, w).
Proof. reflexivity. Qed.

Lemma effect_none f w : effect None f w = (Ok tt, f w).
Proof. reflexivity. Qed.

Lemma effect_some e f w : effect (Some e) f w = (Raise e, w).
Proof. reflexivity. Qed.

(** ** Parts of the world that the steps leave alone *)

Section Keeps.

Context {X : Type} (proj : World -> X).
Hypothesis proj_tick : forall w, proj (tick w) = proj w.
Hypothesis proj_cache : forall f w, proj (set_cache f w) = proj w.

Lemma keeps_field_ret {A} (a : A) : keeps_field proj (mret a : M A).
Proof. intros w. reflexivity. Qed.

Lemma keeps_field_lift {A} (r : result A) : keeps_field proj (lift r).
Proof. intros w. reflexivity. Qed.

Lemma keeps_field_bind {A B} (m : M A) (k : A -> M B) :
  keeps_field proj m -> (forall a, keeps_field proj (k a)) ->
  keeps_field proj (m ≫= k).
Proof.
  intros Hm Hk w. rewrite bind_run. specialize (Hm w).
  destruct (m w) as [[a | e] w1]; simpl in *.
  - rewrite (Hk a w1). exact Hm.
  - exact Hm.
Qed.

Lemma keeps_field_try_except {A} (body : M A) (handler : exn -> M A) :
  keeps_field proj body -> (forall e, keeps_field proj (handler e)) ->
  keeps_field proj (try_except body handler).
Proof.
  intros Hb Hh w. rewrite try_except_run. specialize (Hb w).
  destruct (body w) as [[a | e] w1]; simpl in *.
  - exact Hb.
  - rewrite (Hh e w1). exact Hb.
Qed.

Lemma keeps_field_effect failure f :
  (forall w, proj (f w) = proj w) -> keeps_field proj (effect failure f).
Proof. intros Hf w. destruct failure; simpl; auto. Qed.

Lemma keeps_field_for_each {A S} (f : S -> A -> M S) xs :
  (forall s x, keeps_field proj (f s x)) ->
  forall s, keeps_field proj (for_each f xs s).
Proof.
  intros Hf. induction xs as [| x xs IH]; intros s; simpl.
  - apply keeps_field_ret.
  - apply keeps_field_bind; auto.
Qed.

Lemma keeps_field_time_time env : keeps_field proj (time_time env).
Proof. intros w. apply proj_tick. Qed.

Lemma keeps_field_new_uuid env : keeps_field proj (new_uuid env).
Proof. intros w. apply proj_tick. Qed.

Lemma keeps_field_utcnow env : keeps_field proj (utcnow env).
Proof. intros w. apply proj_tick. Qed.

Lemma keeps_field_run {A} (m : M A) w r w' :
  keeps_field proj m -> m w = (r, w') -> proj w' = proj w.
Proof. intros Hk H. specialize (Hk w). rewrite H in Hk. exact Hk. Qed.

Ltac keeps_field :=
  repeat first
    [ apply keeps_field_ret | apply keeps_field_lift
    | apply keeps_field_time_time | apply keeps_field_new_uuid
    | apply keeps_field_effect; intros ?; apply proj_cache
    | apply keeps_field_bind; [| intros ?]
    | apply keeps_field_try_except; [| intros ?]
    | apply keeps_field_for_each; intros ? ?
    | match goal with
      | |- keeps_field _ (match ?x with _ => _ end) => destruct x
      | |- keeps_field _ (if ?x then _ else _) => destruct x
      | |- keeps_field _ (let '(_, _) := ?x in _) => destruct x
      end ].

(** The steps of the service that write neither rows nor alerts. *)

Lemma keeps_field_get_user_risk_profile env user_id :
  keeps_field proj (get_user_risk_profile env user_id).
Proof.
  unfold get_user_risk_profile, create_default_user_profile, redis_setex,
    utcnow.
  apply keeps_field_bind.
  - intros w. unfold redis_get. destruct (redis_get_error _ _); reflexivity.
  - intros cached. keeps_field.
Qed.

Lemma keeps_field_rule_evaluator env self key tx profile cfg evaluator :
  rule_evaluator env self key tx profile cfg = Some evaluator ->
  keeps_field proj evaluator.
Proof.
  unfold rule_evaluator.
  repeat match goal with
         | |- context [String.eqb key ?s] => destruct (String.eqb key s)
         end; try discriminate; intros [= <-];
    unfold check_velocity_rules, velocity_locals, velocity_round,
      check_amount_anomaly, check_geolocation_anomaly, geolocation_locals,
      get_user_typical_locations, check_device_fingerprint, device_locals,
      check_time_pattern, time_pattern_locals,
      get_transaction_count_in_window, get_transaction_amount_in_window,
      get_user_known_devices, is_device_blacklisted,
      get_user_typical_transaction_hours, utcnow;
    keeps_field.
Qed.

Lemma keeps_field_execute_fraud_rules env self tx profile :
  keeps_field proj (execute_fraud_rules env self tx profile).
Proof.
  unfold execute_fraud_rules. apply keeps_field_for_each.
  intros results [key cfg]. unfold execute_rule.
  destruct (negb (enabled cfg)); [apply keeps_field_ret |].
  apply keeps_field_bind; [apply keeps_field_time_time | intros start].
  apply keeps_field_try_except.
  - destruct (rule_evaluator env self key tx profile cfg) as [evaluator |]
      eqn:Hev; [| apply keeps_field_ret].
    apply keeps_field_bind;
      [exact (keeps_field_rule_evaluator _ _ _ _ _ _ _ Hev) | intros r].
    keeps_field.
  - intros e. keeps_field.
Qed.

Lemma keeps_field_calculate_ml_score env self tx profile :
  keeps_field proj (calculate_ml_score env self tx profile).
Proof.
  unfold calculate_ml_score. keeps_field.
Qed.

End Keeps.

(** ** The profile of an unknown user *)

Lemma Money_new_zero currency precision :
  Money_new 0 currency precision = Raise (ValidationError "Money" "amount").
Proof. reflexivity. Qed.

Lemma get_user_risk_profile_unknown env user_id w :
  redis_get_error env (cache_key_of user_id) = None ->
  cache w !! cache_key_of user_id = None ->
  fetchrow_user env user_id = Ok None ->
  get_user_risk_profile env user_id w
  = (Raise (ValidationError "Money" "amount"), tick w).
Proof.
  intros Hget Hmiss Hrow. unfold get_user_risk_profile.
  rewrite bind_run. unfold redis_get. rewrite Hget, Hmiss.
  rewrite bind_run, lift_run, Hrow. reflexivity.
Qed.

(** C2 does not hold of the code.  [_create_default_user_profile]
    builds [Money(amount=0, ...)], which the model rejects because an
    amount must be positive: for every user the call raises after it
    has read the clock, and so does the lookup of a user who is neither
    cached nor in [users]. *)
Theorem create_default_user_profile_raises env user_id w :
  create_default_user_profile env user_id w
  = (Raise (ValidationError "Money" "amount"), tick w)
  /\ get_user_risk_profile env_unknown_user user_id empty_world
     = (Raise (ValidationError "Money" "amount"), tick empty_world).
Proof.
  split.
  - reflexivity.
  - apply get_user_risk_profile_unknown; reflexivity.
Qed.
(** ** The rule evaluators *)

Lemma ensure_ok c e : ensure c e = Ok tt -> c = true.
Proof. destruct c; [reflexivity | discriminate]. Qed.

Lemma FraudRuleResult_new_ok rule fired weighted info elapsed r :
  FraudRuleResult_new rule fired weighted info elapsed = Ok r ->
  rule_name r = rule /\ triggered r = fired /\ score r = weighted
  /\ details r = info /\ 0 <= weighted <= 1.
Proof.
  unfold FraudRuleResult_new.
  destruct (unit_interval weighted) eqn:Hs; simpl; [| discriminate].
  apply unit_interval_true in Hs.
  destruct elapsed as [t |]; [| discriminate].
  intros [= <-]. simpl. auto.
Qed.

(** An evaluator calls the constructor without [execution_time_ms]:
    the call raises whatever the locals are. *)
Lemma rule_result_raises rule_config l :
  exists field,
    rule_result rule_config l
    = Raise (ValidationError "FraudRuleResult" field).
Proof.
  unfold rule_result, FraudRuleResult_new.
  destruct (unit_interval _); simpl; eauto.
Qed.

Lemma Qdiv_nonneg x y : 0 <= x -> 0 < y -> 0 <= x / y.
Proof.
  intros Hx Hy. unfold Qdiv. apply Qmult_le_0_compat; [exact Hx |].
  apply Qlt_le_weak, Qinv_lt_0_compat, Hy.
Qed.

Lemma Qmax_between lo hi x c :
  lo <= x <= hi -> lo <= c <= hi -> lo <= Qmax x c <= hi.
Proof.
  intros Hx Hc.
  destruct (Q.max_spec x c) as [[_ E] | [_ E]]; rewrite E; assumption.
Qed.

Lemma Qmin_cap c x : 0 <= c -> 0 <= x -> 0 <= Qmin c x <= c.
Proof.
  intros Hc Hx.
  destruct (Q.min_spec c x) as [[? E] | [? E]]; rewrite E; lra.
Qed.

Lemma for_each_invariant {A S} (P : S -> Prop) (f : S -> A -> M S) xs :
  (forall s x w s' w', P s -> f s x w = (Ok s', w') -> P s') ->
  forall s w s' w', P s -> for_each f xs s w = (Ok s', w') -> P s'.
Proof.
  intros Hf. induction xs as [| x xs IH]; intros s w s' w' Hs H; simpl in H.
  - rewrite ret_run in H. injection H as <- _. exact Hs.
  - apply bind_ok_inv in H as (s1 & w1 & H1 & H2).
    eapply IH; [| exact H2]. eapply Hf; eauto.
Qed.

(** The device rule as the source stands: no device is known and none
    is blacklisted, so every fingerprint is a new device. *)
Lemma device_locals_run tx w :
  device_locals tx w
  = (Ok {| l_triggered := true;
           l_score := 0.5;
           l_details :=
             {[ "device_fingerprint" :=
                  VStr (fingerprint (device_fingerprint tx));
                "is_known_device" := VBool false;
                "known_devices_count" := VInt 0;
                "is_blacklisted" := VBool false ]} |}, w).
Proof. reflexivity. Qed.

(** The time pattern rule as the source stands: there are no typical
    hours. *)
Lemma time_pattern_of_empty tx :
  time_pattern_of ∅ tx
  = {| l_triggered := false; l_score := 0;
       l_details := {[ "status" := VStr "no_transaction_history" ]} |}.
Proof.
  unfold time_pattern_of.
  rewrite bool_decide_eq_true_2 by reflexivity. reflexivity.
Qed.

Lemma time_pattern_locals_run tx w :
  time_pattern_locals tx w = (Ok (time_pattern_of ∅ tx), w).
Proof. reflexivity. Qed.

Section Evaluators.

Variable env : Env.
Variable self : FraudDetectionService.

Lemma velocity_round_score tx l entry w l' w' :
  0 <= l_score l <= 0.9 ->
  velocity_round env tx l entry w = (Ok l', w') ->
  0 <= l_score l' <= 0.9.
Proof.
  intros Hl H. destruct entry as [period vc]. unfold velocity_round in H.
  apply bind_ok_inv in H as (count & w1 & _ & H).
  match type of H with
  | context [if (count >? ?m)%Z then ?a else ?b] =>
      set (l1 := if (count >? m)%Z then a else b) in H
  end.
  assert (Hl1 : 0 <= l_score l1 <= 0.9).
  { unfold l1. destruct (count >? _)%Z; simpl; [| exact Hl].
    apply Qmax_between; [exact Hl | lra]. }
  clearbody l1.
  destruct (max_amount vc) as [limit |].
  - apply bind_ok_inv in H as (total & w2 & _ & H).
    destruct (Qgtb total (amount limit)); rewrite ret_run in H;
      injection H as <- _; simpl; [| exact Hl1].
    apply Qmax_between; [exact Hl1 | lra].
  - rewrite ret_run in H. injection H as <- _. exact Hl1.
Qed.

Lemma velocity_locals_score tx w l w' :
  velocity_locals env self tx w = (Ok l, w') -> 0 <= l_score l <= 0.9.
Proof.
  unfold velocity_locals.
  apply (for_each_invariant (fun l => 0 <= l_score l <= 0.9)).
  - intros s x w0 s' w0' Hs H. eapply velocity_round_score; eauto.
  - simpl. lra.
Qed.

Lemma amount_anomaly_locals_score tx profile :
  0 <= l_score (amount_anomaly_locals tx profile) <= 0.8.
Proof.
  unfold amount_anomaly_locals.
  destruct (total_transactions profile >? 0)%Z; [| simpl; lra].
  destruct (Qgtb (amount (average_transaction_amount profile)) 0) eqn:Ha;
    [| simpl; lra].
  apply Qgtb_true in Ha. simpl.
  destruct (Qgtb _ 3) eqn:Hz; [| lra].
  apply Qgtb_true in Hz. apply Qmin_cap; [lra |].
  apply Qdiv_nonneg; lra.
Qed.

Lemma geolocation_locals_score tx w l w' :
  geolocation_locals env tx w = (Ok l, w') -> 0 <= l_score l <= 0.7.
Proof.
  unfold geolocation_locals. intros H.
  apply bind_ok_inv in H as (locations & w1 & _ & H).
  destruct locations as [| first others]; rewrite ret_run in H;
    injection H as <- _; simpl; [lra |].
  destruct (Qgtb _ 1000) eqn:Hd; [| lra].
  apply Qgtb_true in Hd. apply Qmin_cap; [lra |].
  apply Qdiv_nonneg; lra.
Qed.

Lemma time_pattern_of_score hours tx :
  0 <= l_score (time_pattern_of hours tx) <= 0.4.
Proof.
  unfold time_pattern_of.
  destruct (negb _); [| simpl; lra].
  destruct (Qgtb _ 0); [| simpl; lra].
  cbn [l_score]. destruct (Qltb _ 0.05); lra.
Qed.

(** Every evaluator ends with the constructor call on its locals. *)
Lemma rule_evaluator_locals key tx profile cfg :
  rule_evaluator env self key tx profile cfg
  = option_map (fun locals => l ← locals; lift (rule_result cfg l))
      (rule_locals env self key tx profile).
Proof.
  unfold rule_evaluator, rule_locals.
  repeat match goal with
         | |- context [String.eqb key ?s] => destruct (String.eqb key s)
         end; reflexivity.
Qed.

(** The raw score of the locals of each evaluator. *)
Lemma rule_locals_raw_score key tx profile locals w l w' :
  rule_locals env self key tx profile = Some locals ->
  locals w = (Ok l, w') ->
  0 <= l_score l <= 0.9.
Proof.
  unfold rule_locals.
  repeat match goal with
         | |- context [String.eqb key ?s] => destruct (String.eqb key s)
         end; try discriminate; intros [= <-] Hrun.
  - exact (velocity_locals_score _ _ _ _ Hrun).
  - rewrite ret_run in Hrun. injection Hrun as <- _.
    pose proof (amount_anomaly_locals_score tx profile). lra.
  - pose proof (geolocation_locals_score _ _ _ _ Hrun). lra.
  - rewrite device_locals_run in Hrun. injection Hrun as <- _.
    cbn [l_score]. lra.
  - rewrite time_pattern_locals_run in Hrun. injection Hrun as <- _.
    pose proof (time_pattern_of_score ∅ tx). lra.
Qed.

(** No evaluator returns a result: its closing constructor call
    raises. *)
Lemma evaluator_never_returns key tx profile cfg evaluator w r w' :
  rule_evaluator env self key tx profile cfg = Some evaluator ->
  evaluator w = (Ok r, w') ->
  False.
Proof.
  rewrite rule_evaluator_locals.
  destruct (rule_locals env self key tx profile) as [locals |];
    [| discriminate].
  intros [= <-] Hrun.
  apply bind_ok_inv in Hrun as (l & w1 & _ & Hrun).
  rewrite lift_run in Hrun. injection Hrun as Hr _.
  destruct (rule_result_raises cfg l) as (field & Hraise).
  congruence.
Qed.

End Evaluators.
(** ** The device rule *)

(** C7 does not hold of the code.  For every transaction the evaluator
    finds a new device (the list of known devices is empty and no
    device is blacklisted, as the two helper methods stand) and
    computes what the claim says for that case: triggered, raw score
    0.5, and details with the fingerprint, the known flag, the number
    of known devices and the blacklisted flag.  But its [return] calls
    the [FraudRuleResult] constructor without the required
    [execution_time_ms]: the call raises for every transaction, profile
    and rule configuration, and the rule engine records the rule as not
    triggered, with score 0.0 and the message of the exception. *)
Theorem check_device_fingerprint_raises tx profile cfg w :
  (exists l,
     device_locals tx w = (Ok l, w)
     /\ l_triggered l = true
     /\ l_score l = 0.5
     /\ l_details l !! "device_fingerprint"
        = Some (VStr (fingerprint (device_fingerprint tx)))
     /\ l_details l !! "is_known_device" = Some (VBool false)
     /\ l_details l !! "known_devices_count" = Some (VInt 0)
     /\ l_details l !! "is_blacklisted" = Some (VBool false))
  /\ (exists field,
        check_device_fingerprint tx profile cfg w
        = (Raise (ValidationError "FraudRuleResult" field), w))
  /\ check_device_fingerprint big_payment regular_profile device_config
       empty_world
     = (Raise (ValidationError "FraudRuleResult" "execution_time_ms"),
        empty_world)
  /\ (exists results w',
        execute_fraud_rules env_unknown_user sample_service big_payment
          regular_profile empty_world = (Ok results, w')
        /\ nth_error results 3
           = Some (recorded_failure "device_fingerprint"
                     (ValidationError "FraudRuleResult" "execution_time_ms")
                     1000)).
Proof.
  split; [| split; [| split]].
  - eexists. split; [apply device_locals_run |]. repeat split.
  - unfold check_device_fingerprint.
    rewrite bind_run, device_locals_run, lift_run.
    match goal with
    | |- context [rule_result cfg ?l] =>
        destruct (rule_result_raises cfg l) as [field ->]
    end.
    exists field. reflexivity.
  - reflexivity.
  - eexists _, _. split; vm_compute; reflexivity.
Qed.

(** ** The amount rule *)

(** What [_check_amount_anomaly] computes before its [return]. *)
Lemma amount_anomaly_locals_as_specified tx profile :
  (0 < total_transactions profile)%Z ->
  0 < amount (average_transaction_amount profile) ->
  let d := deviation tx profile in
  let l := amount_anomaly_locals tx profile in
  (l_triggered l = true <-> 3 < d)
  /\ l_score l * 0.25 == (if l_triggered l then 0.25 * Qmin 0.8 (d / 5) else 0)
  /\ l_details l !! "current_amount" = Some (VFloat (amount (tx_amount tx)))
  /\ l_details l !! "average_amount"
     = Some (VFloat (amount (average_transaction_amount profile)))
  /\ l_details l !! "z_score" = Some (VFloat d)
  /\ l_details l !! "threshold" = Some (VFloat 3.0).
Proof.
  intros Htotal Havg. unfold amount_anomaly_locals, deviation.
  apply Z.gtb_lt in Htotal. rewrite Htotal.
  apply Qgtb_true in Havg. rewrite Havg.
  cbv zeta. cbn [l_triggered l_score l_details].
  split; [apply Qgtb_true |].
  split; [destruct (Qgtb _ 3); cbv iota; ring |].
  repeat split.
Qed.

(** C8 does not hold of the code.  The evaluator computes the claim's
    values, but its [return] calls the [FraudRuleResult] constructor
    without the required [execution_time_ms]: the call raises for every
    transaction and profile.  For the sample payment (2000 USD against
    an average of 50 USD, deviation 39) the locals say triggered with
    raw score 0.8, and the evaluator raises. *)
Theorem check_amount_anomaly_raises tx profile cfg w :
  (exists field,
     check_amount_anomaly tx profile cfg w
     = (Raise (ValidationError "FraudRuleResult" field), w))
  /\ deviation big_payment regular_profile == 39
  /\ l_triggered (amount_anomaly_locals big_payment regular_profile) = true
  /\ l_score (amount_anomaly_locals big_payment regular_profile) == 0.8
  /\ check_amount_anomaly big_payment regular_profile amount_config
       empty_world
     = (Raise (ValidationError "FraudRuleResult" "execution_time_ms"),
        empty_world).
Proof.
  split.
  - unfold check_amount_anomaly. rewrite lift_run.
    destruct (rule_result_raises cfg (amount_anomaly_locals tx profile))
      as [field ->].
    exists field. reflexivity.
  - repeat split; try reflexivity; vm_compute; reflexivity.
Qed.

(** ** The rule engine *)

Section Engine.

Variable env : Env.
Variable self : FraudDetectionService.
Variable tx : Transaction.
Variable profile : UserRiskProfile.

Lemma time_time_run w : time_time env w = (Ok (clock env (ticks w)), tick w).
Proof. reflexivity. Qed.

Lemma utcnow_run w :
  utcnow env w = (Ok (Qfloor (clock env (ticks w))), tick w).
Proof. reflexivity. Qed.

Lemma new_uuid_run w : new_uuid env w = (Ok (uuid4 env (ticks w)), tick w).
Proof. reflexivity. Qed.

Lemma error_result_ok key e elapsed :
  error_result key e elapsed = Ok (recorded_failure key e elapsed).
Proof. reflexivity. Qed.

(** One round of the loop, by cases. *)
Lemma execute_rule_run acc key cfg w :
  execute_rule env self tx profile acc (key, cfg) w
  = if enabled cfg then
      match rule_evaluator env self key tx profile cfg with
      | None => (Ok acc, tick w)
      | Some evaluator =>
          match evaluator (tick w) with
          | (Ok r, w1) =>
              (Ok (acc ++ [set_execution_time_ms r
                             ((clock env (ticks w1) - clock env (ticks w))
                              * 1000)]), tick w1)
          | (Raise e, w1) =>
              (Ok (acc ++ [recorded_failure key e
                             ((clock env (ticks w1) - clock env (ticks w))
                              * 1000)]), tick w1)
          end
      end
    else (Ok acc, w).
Proof.
  unfold execute_rule. cbv beta iota.
  destruct (enabled cfg); cbn [negb]; [| reflexivity].
  rewrite (bind_ok _ _ _ _ _ (time_time_run w)), try_except_run.
  destruct (rule_evaluator env self key tx profile cfg) as [evaluator |];
    [| reflexivity].
  rewrite bind_run.
  destruct (evaluator (tick w)) as [[r | e] w1].
  - rewrite (bind_ok _ _ _ _ _ (time_time_run w1)). reflexivity.
  - rewrite (bind_ok _ _ _ _ _ (time_time_run w1)).
    rewrite bind_run, lift_run, error_result_ok. reflexivity.
Qed.

(** The engine never raises, and it runs as [engine_run] says. *)
Lemma for_each_execute_rule entries :
  forall acc w, exists out w',
    for_each (execute_rule env self tx profile) entries acc w = (Ok out, w')
    /\ engine_run env self tx profile entries acc w out w'.
Proof.
  induction entries as [| [key cfg] rest IH]; intros acc w.
  - exists acc, w. split; [reflexivity | constructor].
  - cbn [for_each]. rewrite bind_run, execute_rule_run.
    destruct (enabled cfg) eqn:Hen.
    + destruct (rule_evaluator env self key tx profile cfg)
        as [evaluator |] eqn:Hev.
      * destruct (evaluator (tick w)) as [[r | e] w1] eqn:Hrun.
        -- destruct (IH (acc ++ [set_execution_time_ms r
                ((clock env (ticks w1) - clock env (ticks w)) * 1000)])
              (tick w1)) as (out & w' & Hout & Hspec).
           exists out, w'. split; [exact Hout |].
           eapply run_returned; eauto.
        -- destruct (IH (acc ++ [recorded_failure key e
                ((clock env (ticks w1) - clock env (ticks w)) * 1000)])
              (tick w1)) as (out & w' & Hout & Hspec).
           exists out, w'. split; [exact Hout |].
           eapply run_raised; eauto.
      * destruct (IH acc (tick w)) as (out & w' & Hout & Hspec).
        exists out, w'. split; [exact Hout |].
        eapply run_unknown; eauto.
    + destruct (IH acc w) as (out & w' & Hout & Hspec).
      exists out, w'. split; [exact Hout |].
      eapply run_disabled; eauto.
Qed.

(** Every result of a run is the record of the [except] branch. *)
Lemma engine_run_reports_nothing entries acc w out w' :
  engine_run env self tx profile entries acc w out w' ->
  Forall reports_nothing acc ->
  Forall reports_nothing out.
Proof.
  induction 1 as [acc w
                 | key cfg rest acc w out w' Hen Hrun IH
                 | key cfg rest acc w out w' Hen Hev Hrun IH
                 | key cfg evaluator r w1 rest acc w out w' Hen Hev He Hrun IH
                 | key cfg evaluator e w1 rest acc w out w' Hen Hev He Hrun IH];
    intros Hacc; auto.
  - exfalso. eapply evaluator_never_returns; eauto.
  - apply IH. apply Forall_app. split; [exact Hacc |].
    constructor; [split; reflexivity | constructor].
Qed.

Lemma catalog_entry_runs key cfg :
  In (key, cfg) initialize_fraud_rules ->
  enabled cfg = true
  /\ exists evaluator,
       rule_evaluator env self key tx profile cfg = Some evaluator.
Proof.
  simpl. intros [E | [E | [E | [E | [E | []]]]]];
    injection E as <- <-; (split; [reflexivity | eexists; reflexivity]).
Qed.

(** Over rules of the catalog every round adds one result. *)
Lemma engine_run_length entries acc w out w' :
  engine_run env self tx profile entries acc w out w' ->
  (forall entry, In entry entries -> In entry initialize_fraud_rules) ->
  length out = (length acc + length entries)%nat.
Proof.
  induction 1 as [acc w
                 | key cfg rest acc w out w' Hen Hrun IH
                 | key cfg rest acc w out w' Hen Hev Hrun IH
                 | key cfg evaluator r w1 rest acc w out w' Hen Hev He Hrun IH
                 | key cfg evaluator e w1 rest acc w out w' Hen Hev He Hrun IH];
    intros Hcat.
  - simpl. lia.
  - destruct (catalog_entry_runs key cfg) as [Hon _];
      [apply Hcat; left; reflexivity | congruence].
  - destruct (catalog_entry_runs key cfg) as [_ [evaluator Hsome]];
      [apply Hcat; left; reflexivity | congruence].
  - rewrite IH by (intros; apply Hcat; right; assumption).
    rewrite length_app. simpl. lia.
  - rewrite IH by (intros; apply Hcat; right; assumption).
    rewrite length_app. simpl. lia.
Qed.

(** The engine with the catalog of [__init__]. *)
Lemma execute_fraud_rules_catalog w :
  fraud_rules self = initialize_fraud_rules ->
  exists results w',
    execute_fraud_rules env self tx profile w = (Ok results, w')
    /\ engine_run env self tx profile (fraud_rules self) [] w results w'
    /\ length results = 5%nat.
Proof.
  intros Hcat. unfold execute_fraud_rules.
  destruct (for_each_execute_rule (fraud_rules self) [] w)
    as (results & w' & Hrun & Hspec).
  exists results, w'. split; [exact Hrun |]. split; [exact Hspec |].
  rewrite (engine_run_length _ _ _ _ _ Hspec); rewrite Hcat; auto.
Qed.

(** The engine over any catalog: it returns, and every result is the
    record of the [except] branch. *)
Lemma execute_fraud_rules_run w :
  exists results w',
    execute_fraud_rules env self tx profile w = (Ok results, w')
    /\ engine_run env self tx profile (fraud_rules self) [] w results w'
    /\ Forall reports_nothing results.
Proof.
  unfold execute_fraud_rules.
  destruct (for_each_execute_rule (fraud_rules self) [] w)
    as (results & w' & Hrun & Hspec).
  exists results, w'. split; [exact Hrun |]. split; [exact Hspec |].
  eapply engine_run_reports_nothing; [exact Hspec | constructor].
Qed.

End Engine.

Lemma reports_nothing_sums rs :
  Forall reports_nothing rs ->
  rule_sum rs == 0 /\ triggered_sum rs == 0 /\ ~ heavy_rule_triggered rs
  /\ forall r, In r rs -> score r <= 0.27.
Proof.
  induction 1 as [| r rs [Ht Hs] Hall (IHs & IHt & IHh & IHb)]; simpl.
  - split; [reflexivity |]. split; [reflexivity |].
    split; [intros (r & [] & _) | intros r []].
  - split; [rewrite Hs, IHs; reflexivity |].
    split; [rewrite Ht; exact IHt |].
    split.
    + intros (x & [<- | Hin] & Hx & Hheavy); [congruence |].
      apply IHh. exists x. auto.
    + intros x [<- | Hin]; [rewrite Hs; lra | auto].
Qed.

(** ** The model score *)

(** [_calculate_ml_score] by cases.  It leaves the world as it is.  It
    raises only what the truth test of the model raises; a score it
    returns comes from a model whose truth test says true, and is NaN
    or lies in [0,1]. *)
Lemma calculate_ml_score_cases env self tx profile w :
  exists r,
    calculate_ml_score env self tx profile w = (r, w)
    /\ match r with
       | Raise e =>
           exists model,
             ml_model self = Some model /\ truth_value model = Raise e
       | Ok None => True
       | Ok (Some x) =>
           (exists model,
              ml_model self = Some model /\ truth_value model = Ok true)
           /\ forall m, x = Num m -> 0 <= m <= 1
       end.
Proof.
  unfold calculate_ml_score.
  destruct (ml_model self) as [model |]; [| exists (Ok None); auto].
  rewrite bind_run, lift_run.
  destruct (truth_value model) as [[|] | e] eqn:Htruth; cbn [negb].
  - rewrite try_except_run. cbv zeta. rewrite bind_run, lift_run.
    destruct (scaler self _) as [scaled | e]; [| exists (Ok None); auto].
    rewrite bind_run.
    assert (Hclip : forall x m, clip_unit x = Num m -> 0 <= m <= 1).
    { intros [q |] m; cbn; [| discriminate].
      intros [= <-]. apply np_clip_bounds. }
    destruct (predictor model) as [predict_proba | decision_function].
    + rewrite bind_run, lift_run.
      destruct (predict_proba scaled) as [[p0 p1] | e];
        [| exists (Ok None); auto].
      rewrite !ret_run. eexists. split; [reflexivity |].
      split; [eauto | apply Hclip].
    + rewrite bind_run, lift_run.
      destruct (decision_function scaled) as [anomaly | e];
        [| exists (Ok None); auto].
      rewrite !ret_run. eexists. split; [reflexivity |].
      split; [eauto | apply Hclip].
  - exists (Ok None). auto.
  - exists (Raise e). eauto.
Qed.

(** ** The assessment record *)

Lemma FraudAssessment_new_inv a a' :
  FraudAssessment_new a = Ok a' -> a' = a.
Proof.
  unfold FraudAssessment_new, ensure.
  destruct (unit_interval (fa_score a)); [| discriminate].
  destruct (match ml_score a with Some _ => _ | None => _ end);
    [| discriminate].
  destruct (unit_interval (confidence a)); [| discriminate].
  cbn. congruence.
Qed.

Lemma FraudAssessment_new_ok a :
  0 <= fa_score a <= 1 ->
  (forall ml, ml_score a = Some ml -> 0 <= ml <= 1) ->
  0 <= confidence a <= 1 ->
  FraudAssessment_new a = Ok a.
Proof.
  intros Hs Hml Hc. unfold FraudAssessment_new.
  apply unit_interval_true in Hs, Hc. rewrite Hs, Hc.
  destruct (ml_score a) as [ml |]; [| reflexivity].
  assert (Hm : unit_interval ml = true)
    by (apply unit_interval_true, Hml; reflexivity).
  rewrite Hm. reflexivity.
Qed.

Lemma FraudAssessment_new_valid a a' :
  FraudAssessment_new a = Ok a' ->
  0 <= fa_score a <= 1
  /\ (forall ml, ml_score a = Some ml -> 0 <= ml <= 1)
  /\ 0 <= confidence a <= 1.
Proof.
  unfold FraudAssessment_new, ensure.
  destruct (unit_interval (fa_score a)) eqn:H1; [| discriminate].
  destruct (ml_score a) as [ml |] eqn:Hml.
  - destruct (unit_interval ml) eqn:H2; [| discriminate].
    destruct (unit_interval (confidence a)) eqn:H3; [| discriminate].
    intros _. apply unit_interval_true in H1, H2, H3.
    split; [exact H1 |]. split; [| exact H3]. intros m [= <-]. exact H2.
  - destruct (unit_interval (confidence a)) eqn:H3; [| discriminate].
    intros _. apply unit_interval_true in H1, H3.
    split; [exact H1 |]. split; [| exact H3]. discriminate.
Qed.

(** What the constructor call of [assess_transaction] returns. *)
Lemma new_assessment_inv tx s level rs ml act why conf elapsed new_id
    created a :
  new_assessment tx s level rs ml act why conf elapsed new_id created = Ok a ->
  fa_user_id a = user_id tx
  /\ transaction_id a = Some (id tx)
  /\ fa_score a = s
  /\ risk_level a = level
  /\ rules a = rs
  /\ ml_score a = ml
  /\ action a = act
  /\ confidence a = conf
  /\ requires_manual_review a = existsb (FraudAction_eqb act) [MANUAL_REVIEW]
  /\ 0 <= s <= 1
  /\ (forall m, ml = Some m -> 0 <= m <= 1)
  /\ 0 <= conf <= 1.
Proof.
  unfold new_assessment. intros H.
  pose proof (FraudAssessment_new_valid _ _ H) as (Hs & Hm & Hc).
  apply FraudAssessment_new_inv in H. subst a.
  cbn [fa_score ml_score confidence] in Hs, Hm, Hc.
  do 9 (split; [reflexivity |]).
  split; [exact Hs |]. split; [exact Hm | exact Hc].
Qed.

Lemma confidence_as_specified_bounds rule_results ml_score :
  triggered_sum rule_results <= 1 ->
  (forall ml, ml_score = Some ml -> 0 <= ml <= 1) ->
  0 <= confidence_as_specified rule_results ml_score <= 1.
Proof.
  intros Hsum Hml.
  unfold confidence_as_specified, indicators_as_specified.
  destruct (Qgtb (triggered_sum rule_results) 0) eqn:Hpos;
    [apply Qgtb_true in Hpos |];
    destruct ml_score as [ml |]; simpl;
    try (specialize (Hml ml eq_refl));
    try apply clip01_bounds; lra.
Qed.

Lemma calculate_confidence_bounds rule_results ml_score :
  triggered_sum rule_results <= 1 ->
  (forall ml, ml_score = Some ml -> 0 <= ml <= 1) ->
  0 <= calculate_confidence rule_results ml_score <= 1.
Proof.
  intros Hsum Hml.
  rewrite (calculate_confidence_in_range _ _ Hsum Hml).
  pose proof (confidence_as_specified_bounds _ _ Hsum Hml).
  unfold confidence_with_guard.
  destruct rule_results; destruct ml_score; try assumption. lra.
Qed.

Lemma alert_test_is_threshold s :
  existsb (RiskLevel_eqb (determine_risk_level s)) [HIGH; CRITICAL]
  = Qgeb s 0.6.
Proof.
  unfold determine_risk_level.
  destruct (Qgeb s 0.8) eqn:H8; [| destruct (Qgeb s 0.6) eqn:H6].
  - apply Qgeb_true in H8. symmetry. apply Qgeb_true. lra.
  - reflexivity.
  - destruct (Qgeb s 0.3); reflexivity.
Qed.

(** ** The coordinator *)

Section Coordinator.

Variable env : Env.
Variable self : FraudDetectionService.

Lemma rows_kept {A} (m : M A) w r w' :
  keeps_field fraud_assessments m -> m w = (r, w') ->
  fraud_assessments w' = fraud_assessments w.
Proof. apply keeps_field_run. Qed.

Lemma alerts_kept {A} (m : M A) w r w' :
  keeps_field alerts m -> m w = (r, w') -> alerts w' = alerts w.
Proof. apply keeps_field_run. Qed.

Lemma lookup_keeps_rows user_id :
  keeps_field fraud_assessments (get_user_risk_profile env user_id).
Proof. apply keeps_field_get_user_risk_profile; intros; reflexivity. Qed.

Lemma lookup_keeps_alerts user_id :
  keeps_field alerts (get_user_risk_profile env user_id).
Proof. apply keeps_field_get_user_risk_profile; intros; reflexivity. Qed.

Lemma engine_keeps_rows tx profile :
  keeps_field fraud_assessments (execute_fraud_rules env self tx profile).
Proof. apply keeps_field_execute_fraud_rules; intros; reflexivity. Qed.

Lemma engine_keeps_alerts tx profile :
  keeps_field alerts (execute_fraud_rules env self tx profile).
Proof. apply keeps_field_execute_fraud_rules; intros; reflexivity. Qed.

(** The steps up to the persistence step, when they succeed. *)
Lemma assess_and_store_inv tx start w a s l w' :
  assess_and_store env self tx start w = (Ok (a, s, l), w') ->
  exists profile w1 w2 ml_float,
    get_user_risk_profile env (user_id tx) w = (Ok profile, w1)
    /\ execute_fraud_rules env self tx profile w1 = (Ok (rules a), w2)
    /\ calculate_ml_score env self tx profile w2 = (Ok ml_float, w2)
    /\ as_number ml_float = Some (ml_score a)
    /\ s = fa_score a
    /\ l = risk_level a
    /\ fa_score a = calculate_final_score (rules a) (ml_score a)
    /\ risk_level a = determine_risk_level (fa_score a)
    /\ action a = determine_action (fa_score a) (risk_level a) (rules a)
    /\ requires_manual_review a
       = existsb (FraudAction_eqb (action a)) [MANUAL_REVIEW]
    /\ confidence a = calculate_confidence (rules a) (ml_score a)
    /\ fa_user_id a = user_id tx
    /\ transaction_id a = Some (id tx)
    /\ 0 <= fa_score a <= 1
    /\ (forall ml, ml_score a = Some ml -> 0 <= ml <= 1)
    /\ 0 <= confidence a <= 1
    /\ execute_error env a = None
    /\ w' = insert_assessment a (tick (tick (tick w2)))
    /\ fraud_assessments w' = fraud_assessments w ++ [a]
    /\ alerts w' = alerts w.
Proof.
  unfold assess_and_store. intros H.
  apply bind_ok_inv in H as (profile & w1 & H1 & H).
  apply bind_ok_inv in H as (results & w2 & H2 & H).
  apply bind_ok_inv in H as (ml_float & w3 & H3 & H).
  destruct (calculate_ml_score_cases env self tx profile w2)
    as (r & Hml & _).
  rewrite Hml in H3. injection H3 as -> <-.
  rewrite (bind_ok _ _ _ _ _ (time_time_run env w2)) in H.
  rewrite (bind_ok _ _ _ _ _ (new_uuid_run env (tick w2))) in H.
  rewrite (bind_ok _ _ _ _ _ (utcnow_run env (tick (tick w2)))) in H.
  destruct (as_number ml_float) as [ml |] eqn:Hnum; [| discriminate H].
  cbv zeta in H.
  apply bind_ok_inv in H as (a0 & w7 & H7 & H).
  rewrite lift_run in H7. injection H7 as Hnew <-.
  apply new_assessment_inv in Hnew
    as (Hu & Ht & Hs & Hl & Hr & Hm & Hact & Hconf & Hflag & Hsr & Hmr & Hcr).
  apply bind_ok_inv in H as (? & w8 & H8 & H).
  rewrite ret_run in H. injection H as <- <- <- <-.
  unfold store_assessment in H8.
  destruct (execute_error env a0) eqn:Hexec; simpl in H8;
    [discriminate H8 |].
  injection H8 as _ <-.
  pose proof (rows_kept _ _ _ _ (lookup_keeps_rows _) H1) as Hrows1.
  pose proof (rows_kept _ _ _ _ (engine_keeps_rows _ _) H2) as Hrows2.
  pose proof (alerts_kept _ _ _ _ (lookup_keeps_alerts _) H1) as Hal1.
  pose proof (alerts_kept _ _ _ _ (engine_keeps_alerts _ _) H2) as Hal2.
  exists profile, w1, w2, ml_float.
  rewrite Hr, Hm, Hs, Hl, Hact, Hconf, Hflag.
  split; [exact H1 |]. split; [exact H2 |]. split; [exact Hml |].
  split; [exact Hnum |]. split; [reflexivity |]. split; [reflexivity |].
  split; [reflexivity |]. split; [reflexivity |]. split; [reflexivity |].
  split; [reflexivity |]. split; [reflexivity |].
  split; [exact Hu |]. split; [exact Ht |].
  split; [exact Hsr |]. split; [exact Hmr |]. split; [exact Hcr |].
  split; [reflexivity |]. split; [reflexivity |].
  cbn. rewrite Hrows2, Hrows1, Hal2, Hal1. split; reflexivity.
Qed.

(** The steps up to the persistence step, when one of them raises:
    nothing is written to [fraud_assessments], no alert is sent. *)
Lemma assess_and_store_raise tx start w e w' :
  assess_and_store env self tx start w = (Raise e, w') ->
  fraud_assessments w' = fraud_assessments w /\ alerts w' = alerts w.
Proof.
  unfold assess_and_store. intros H.
  apply bind_raise_inv in H as [H | (profile & w1 & H1 & H)].
  { split; [exact (rows_kept _ _ _ _ (lookup_keeps_rows _) H)
           | exact (alerts_kept _ _ _ _ (lookup_keeps_alerts _) H)]. }
  pose proof (rows_kept _ _ _ _ (lookup_keeps_rows _) H1) as Hrows1.
  pose proof (alerts_kept _ _ _ _ (lookup_keeps_alerts _) H1) as Hal1.
  apply bind_raise_inv in H as [H | (results & w2 & H2 & H)].
  { pose proof (rows_kept _ _ _ _ (engine_keeps_rows _ _) H).
    pose proof (alerts_kept _ _ _ _ (engine_keeps_alerts _ _) H).
    split; congruence. }
  pose proof (rows_kept _ _ _ _ (engine_keeps_rows _ _) H2) as Hrows2.
  pose proof (alerts_kept _ _ _ _ (engine_keeps_alerts _ _) H2) as Hal2.
  assert (Hrows : fraud_assessments w2 = fraud_assessments w) by congruence.
  assert (Hal : alerts w2 = alerts w) by congruence.
  clear Hrows1 Hrows2 Hal1 Hal2 H1 H2.
  destruct (calculate_ml_score_cases env self tx profile w2)
    as (r & Hml & _).
  rewrite bind_run, Hml in H.
  destruct r as [ml_float | e0]; [| injection H as _ <-; auto].
  rewrite (bind_ok _ _ _ _ _ (time_time_run env w2)) in H.
  rewrite (bind_ok _ _ _ _ _ (new_uuid_run env (tick w2))) in H.
  rewrite (bind_ok _ _ _ _ _ (utcnow_run env (tick (tick w2)))) in H.
  destruct (as_number ml_float) as [ml |].
  - cbv zeta in H. rewrite bind_run, lift_run in H.
    destruct (new_assessment _ _ _ _ _ _ _ _ _ _ _) as [a | e0];
      [| injection H as _ <-; auto].
    rewrite bind_run in H. unfold store_assessment in H.
    destruct (execute_error env a); simpl in H; [| discriminate H].
    injection H as _ <-. auto.
  - injection H as _ <-. auto.
Qed.

(** The steps below the persistence step, by cases. *)
Lemma finish_assessment_run tx start cid a s l w :
  finish_assessment env tx start cid (a, s, l) w
  = match redis_delete_error env (cache_key_of (user_id tx)) with
    | Some e => (Raise e, w)
    | None =>
        let w1 := set_cache (delete (cache_key_of (user_id tx))) w in
        let resp :=
          {| success := true; assessment := Some a; error := None;
             processing_time_ms := (clock env (ticks w) - start) * 1000;
             correlation_id := cid |} in
        if existsb (RiskLevel_eqb l) [HIGH; CRITICAL] then
          match alert_error env a with
          | Some e => (Raise e, w1)
          | None => (Ok resp, tick (emit_alert a w1))
          end
        else (Ok resp, tick w1)
    end.
Proof.
  unfold finish_assessment, update_user_risk_profile, redis_delete,
    send_fraud_alert.
  rewrite bind_run.
  destruct (redis_delete_error env _) as [e |];
    [rewrite effect_some; reflexivity |].
  rewrite effect_none, bind_run. cbv zeta.
  destruct (existsb _ [HIGH; CRITICAL]).
  - destruct (alert_error env a) as [e |];
      [rewrite effect_some; reflexivity |].
    rewrite effect_none. reflexivity.
  - reflexivity.
Qed.

(** The steps succeed when the profile is found, the model step yields
    a number or no score, and neither the store, nor the cache, nor the
    alert sink fails, whatever the rules do. *)
Lemma assess_steps_succeeds tx start cid profile w w1 ml :
  get_user_risk_profile env (user_id tx) w = (Ok profile, w1) ->
  (forall w0,
     calculate_ml_score env self tx profile w0 = (Ok (Num <$> ml), w0)) ->
  (forall a, execute_error env a = None) ->
  redis_delete_error env (cache_key_of (user_id tx)) = None ->
  (forall a, alert_error env a = None) ->
  exists results w2 a elapsed w',
    execute_fraud_rules env self tx profile w1 = (Ok results, w2)
    /\ engine_run env self tx profile (fraud_rules self) [] w1 results w2
    /\ assess_steps env self tx start cid w
       = (Ok {| success := true; assessment := Some a; error := None;
                processing_time_ms := elapsed; correlation_id := cid |}, w')
    /\ rules a = results.
Proof.
  intros Hprofile Hml Hexec Hdel Halert.
  destruct (execute_fraud_rules_run env self tx profile w1)
    as (results & w2 & Hrules & Hspec & Hnothing).
  destruct (reports_nothing_sums _ Hnothing) as (_ & Htrig & _ & _).
  destruct (calculate_ml_score_cases env self tx profile w2)
    as (r & Hcases & Hrange).
  rewrite Hml in Hcases. injection Hcases as <-.
  assert (Hmlr : forall m, ml = Some m -> 0 <= m <= 1).
  { intros m ->. cbn in Hrange. apply Hrange. reflexivity. }
  exists results, w2.
  unfold assess_steps, assess_and_store.
  rewrite bind_run.
  rewrite (bind_ok _ _ _ _ _ Hprofile), (bind_ok _ _ _ _ _ Hrules),
    (bind_ok _ _ _ _ _ (Hml w2)).
  rewrite (bind_ok _ _ _ _ _ (time_time_run env w2)),
    (bind_ok _ _ _ _ _ (new_uuid_run env (tick w2))),
    (bind_ok _ _ _ _ _ (utcnow_run env (tick (tick w2)))).
  assert (Hnum : as_number (Num <$> ml) = Some ml)
    by (destruct ml; reflexivity).
  rewrite Hnum. cbv zeta. rewrite bind_run, lift_run.
  unfold new_assessment.
  match goal with
  | |- context [FraudAssessment_new ?a] =>
      rewrite (FraudAssessment_new_ok a); cbn [fa_score ml_score confidence]
  end.
  - unfold store_assessment.
    rewrite bind_run, Hexec, effect_none, ret_run.
    rewrite finish_assessment_run, Hdel. cbv zeta.
    destruct (existsb _ [HIGH; CRITICAL]).
    + rewrite Halert. eexists _, _, _.
      split; [exact Hrules |]. split; [exact Hspec |].
      split; reflexivity.
    + eexists _, _, _.
      split; [exact Hrules |]. split; [exact Hspec |].
      split; reflexivity.
  - apply calculate_final_score_bounds.
  - exact Hmlr.
  - apply calculate_confidence_bounds; [lra | exact Hmlr].
Qed.

(** What a successful run of the steps returns and writes. *)
Lemma assess_steps_inv tx start cid w resp w' :
  assess_steps env self tx start cid w = (Ok resp, w') ->
  exists a elapsed profile w1 w2,
    resp = {| success := true; assessment := Some a; error := None;
              processing_time_ms := elapsed; correlation_id := cid |}
    /\ get_user_risk_profile env (user_id tx) w = (Ok profile, w1)
    /\ execute_fraud_rules env self tx profile w1 = (Ok (rules a), w2)
    /\ fa_score a = calculate_final_score (rules a) (ml_score a)
    /\ risk_level a = determine_risk_level (fa_score a)
    /\ action a = determine_action (fa_score a) (risk_level a) (rules a)
    /\ requires_manual_review a
       = existsb (FraudAction_eqb (action a)) [MANUAL_REVIEW]
    /\ confidence a = calculate_confidence (rules a) (ml_score a)
    /\ fa_user_id a = user_id tx
    /\ transaction_id a = Some (id tx)
    /\ 0 <= fa_score a <= 1
    /\ (forall ml, ml_score a = Some ml -> 0 <= ml <= 1)
    /\ 0 <= confidence a <= 1
    /\ fraud_assessments w' = fraud_assessments w ++ [a]
    /\ alerts w'
       = alerts w ++ (if Qgeb (fa_score a) 0.6 then [a] else [])
    /\ cache w' !! cache_key_of (user_id tx) = None.
Proof.
  unfold assess_steps. intros H.
  apply bind_ok_inv in H as ([[a s] l] & w3 & Hstore & H).
  apply assess_and_store_inv in Hstore
    as (profile & w1 & w2 & ml_float & H1 & H2 & _ & _ & -> & -> & Hs & Hl
        & Hact & Hflag & Hconf & Hu & Ht & Hsr & Hmr & Hcr & _ & _ & Hrows
        & Halerts).
  rewrite finish_assessment_run in H.
  destruct (redis_delete_error env _); [discriminate H |].
  cbv zeta in H. rewrite Hl, alert_test_is_threshold in H.
  assert (Hfacts :
    get_user_risk_profile env (user_id tx) w = (Ok profile, w1)
    /\ execute_fraud_rules env self tx profile w1 = (Ok (rules a), w2)
    /\ fa_score a = calculate_final_score (rules a) (ml_score a)
    /\ risk_level a = determine_risk_level (fa_score a)
    /\ action a = determine_action (fa_score a) (risk_level a) (rules a)
    /\ requires_manual_review a
       = existsb (FraudAction_eqb (action a)) [MANUAL_REVIEW]
    /\ confidence a = calculate_confidence (rules a) (ml_score a)
    /\ fa_user_id a = user_id tx
    /\ transaction_id a = Some (id tx)
    /\ 0 <= fa_score a <= 1
    /\ (forall ml, ml_score a = Some ml -> 0 <= ml <= 1)
    /\ 0 <= confidence a <= 1) by tauto.
  exists a, ((clock env (ticks w3) - start) * 1000), profile, w1, w2.
  destruct (Qgeb (fa_score a) 0.6).
  - destruct (alert_error env a); [discriminate H |].
    injection H as <- <-.
    cbn [fraud_assessments alerts cache tick emit_alert set_cache].
    rewrite Hrows, Halerts, lookup_delete_eq. tauto.
  - injection H as <- <-.
    cbn [fraud_assessments alerts cache tick emit_alert set_cache].
    rewrite Hrows, Halerts, lookup_delete_eq, app_nil_r. tauto.
Qed.

End Coordinator.
(** ** The response of [assess_transaction] *)

Section Response.

Variable env : Env.
Variable self : FraudDetectionService.

(** [assess_transaction] never raises; its response, by cases. *)
Lemma assess_transaction_run req w :
  assess_transaction env self req w
  = match transaction req with
    | None =>
        (Ok (failure_response "No transaction provided"
               ((clock env (S (S (ticks w))) - clock env (ticks w)) * 1000)
               (correlation_id_of env w)),
         tick (tick (tick w)))
    | Some tx =>
        match assess_steps env self tx (clock env (ticks w))
                (correlation_id_of env w) (tick (tick w)) with
        | (Ok resp, w') => (Ok resp, w')
        | (Raise e, w') =>
            (Ok (failure_response (str e)
                   ((clock env (ticks w') - clock env (ticks w)) * 1000)
                   (correlation_id_of env w)),
             tick w')
        end
    end.
Proof.
  unfold assess_transaction.
  rewrite (bind_ok _ _ _ _ _ (time_time_run env w)),
    (bind_ok _ _ _ _ _ (time_time_run env (tick w))).
  cbv zeta. rewrite try_except_run.
  destruct (transaction req) as [tx |].
  - unfold correlation_id_of. cbn [tick ticks].
    destruct (assess_steps _ _ _ _ _ _) as [[resp | e] w']; reflexivity.
  - reflexivity.
Qed.

Lemma assess_transaction_inv req w resp w' a :
  assess_transaction env self req w = (Ok resp, w') ->
  assessment resp = Some a ->
  exists tx,
    transaction req = Some tx
    /\ assess_steps env self tx (clock env (ticks w))
         (correlation_id_of env w) (tick (tick w)) = (Ok resp, w').
Proof.
  rewrite assess_transaction_run. intros H Ha.
  destruct (transaction req) as [tx |].
  - exists tx. split; [reflexivity |].
    destruct (assess_steps _ _ _ _ _ _) as [[resp' | e] w1].
    + exact H.
    + injection H as <- _. discriminate Ha.
  - injection H as <- _. discriminate Ha.
Qed.

(** What a returned assessment is and what the call has written. *)
Lemma assess_transaction_effects req w resp w' a :
  assess_transaction env self req w = (Ok resp, w') ->
  assessment resp = Some a ->
  exists tx profile w1 w2,
    transaction req = Some tx
    /\ success resp = true
    /\ error resp = None
    /\ get_user_risk_profile env (user_id tx) (tick (tick w))
       = (Ok profile, w1)
    /\ execute_fraud_rules env self tx profile w1 = (Ok (rules a), w2)
    /\ fa_score a = calculate_final_score (rules a) (ml_score a)
    /\ risk_level a = determine_risk_level (fa_score a)
    /\ action a = determine_action (fa_score a) (risk_level a) (rules a)
    /\ requires_manual_review a
       = existsb (FraudAction_eqb (action a)) [MANUAL_REVIEW]
    /\ confidence a = calculate_confidence (rules a) (ml_score a)
    /\ fa_user_id a = user_id tx
    /\ transaction_id a = Some (id tx)
    /\ 0 <= fa_score a <= 1
    /\ (forall ml, ml_score a = Some ml -> 0 <= ml <= 1)
    /\ 0 <= confidence a <= 1
    /\ fraud_assessments w' = fraud_assessments w ++ [a]
    /\ alerts w'
       = alerts w ++ (if Qgeb (fa_score a) 0.6 then [a] else [])
    /\ cache w' !! cache_key_of (user_id tx) = None.
Proof.
  intros Hrun Hsome.
  destruct (assess_transaction_inv req w resp w' a Hrun Hsome)
    as (tx & Htx & Hsteps).
  destruct (assess_steps_inv _ _ _ _ _ _ _ _ Hsteps)
    as (a' & elapsed & profile & w1 & w2 & -> & Hfacts).
  cbn in Hsome. injection Hsome as ->.
  exists tx, profile, w1, w2.
  split; [exact Htx |]. split; [reflexivity |]. split; [reflexivity |].
  exact Hfacts.
Qed.

(** The rule results of a returned assessment are records of the
    [except] branch of the engine. *)
Lemma returned_rules_report_nothing req w resp w' a :
  assess_transaction env self req w = (Ok resp, w') ->
  assessment resp = Some a ->
  Forall reports_nothing (rules a).
Proof.
  intros Hrun Hsome.
  destruct (assess_transaction_effects req w resp w' a Hrun Hsome)
    as (tx & profile & w1 & w2 & _ & _ & _ & _ & Hrules & _).
  destruct (execute_fraud_rules_run env self tx profile w1)
    as (results & w2' & Hrules' & _ & Hnothing).
  assert (results = rules a) by congruence. subst results.
  exact Hnothing.
Qed.

End Response.

(** C3. The action is REJECT exactly from 0.8, HOLD exactly from 0.6 and
    below 0.8; from 0.3 and below 0.6 it is MANUAL_REVIEW when some
    rule result is triggered with a weighted score above 0.5 and
    APPROVE otherwise; below 0.3 it is APPROVE.  The constructor call
    of [assess_transaction] stores the action it is given and sets
    [requires_manual_review] exactly when that action is MANUAL_REVIEW,
    for every action.  In every assessment that [assess_transaction]
    returns the action is the one resolved from its score and rule
    results, and [requires_manual_review] is true exactly when that
    action is MANUAL_REVIEW. *)
Theorem determine_action_resolves :
  (forall s level rule_results,
     let resolved := determine_action s level rule_results in
     (resolved = REJECT <-> 0.8 <= s)
     /\ (resolved = HOLD <-> 0.6 <= s /\ s < 0.8)
     /\ (0.3 <= s -> s < 0.6 ->
         (heavy_rule_triggered rule_results -> resolved = MANUAL_REVIEW)
         /\ (~ heavy_rule_triggered rule_results -> resolved = APPROVE))
     /\ (s < 0.3 -> resolved = APPROVE))
  /\ (forall tx s level rule_results ml act why conf elapsed new_id created a,
        new_assessment tx s level rule_results ml act why conf elapsed
          new_id created = Ok a ->
        action a = act
        /\ (requires_manual_review a = true <-> act = MANUAL_REVIEW))
  /\ (forall env self req w resp w' a,
        assess_transaction env self req w = (Ok resp, w') ->
        assessment resp = Some a ->
        action a = determine_action (fa_score a) (risk_level a) (rules a)
        /\ (requires_manual_review a = true <-> action a = MANUAL_REVIEW)).
Proof.
  split; [| split].
  - intros s level rule_results resolved. subst resolved.
    destruct (determine_action_cases s level rule_results)
      as (Hr & Hh & Hm & Ha).
    split; [exact Hr |]. split; [exact Hh |]. split.
    + intros H1 H2. split; intros H.
      * apply Hm. auto.
      * apply Ha. right. auto.
    + intros H. apply Ha. left. exact H.
  - intros tx s level rule_results ml act why conf elapsed new_id created a
      Hnew.
    apply new_assessment_inv in Hnew
      as (_ & _ & _ & _ & _ & _ & Hact & _ & Hflag & _).
    split; [exact Hact |].
    rewrite Hflag. apply manual_review_flag.
  - intros env self req w resp w' a Hrun Hsome.
    destruct (assess_transaction_effects env self req w resp w' a Hrun Hsome)
      as (tx & profile & w1 & w2 & _ & _ & _ & _ & _ & _ & _ & Hact & Hflag
          & _).
    split; [exact Hact |].
    rewrite Hflag. apply manual_review_flag.
Qed.

Lemma determine_action_resolves_witness :
  (exists a,
     new_assessment big_payment 0.5 MEDIUM one_heavy_rule None
       (determine_action 0.5 MEDIUM one_heavy_rule) "" 0.6 0 "a-1" 0 = Ok a
     /\ action a = MANUAL_REVIEW
     /\ requires_manual_review a = true)
  /\ match assess_transaction env_unknown_user sample_service payment_request
             cached_world with
     | (Ok resp, _) =>
         match assessment resp with
         | Some a =>
             action a = determine_action (fa_score a) (risk_level a) (rules a)
             /\ (requires_manual_review a = true <-> action a = MANUAL_REVIEW)
         | None => False
         end
     | (Raise _, _) => False
     end.
Proof.
  destruct determine_action_resolves as (Hresolve & Hnew & Hreturned).
  split.
  - destruct (new_assessment big_payment 0.5 MEDIUM one_heavy_rule None
                (determine_action 0.5 MEDIUM one_heavy_rule) "" 0.6 0 "a-1" 0)
      as [a | e] eqn:Hcall; [| vm_compute in Hcall; discriminate Hcall].
    destruct (Hnew _ _ _ _ _ _ _ _ _ _ _ a Hcall) as [Hact Hflag].
    assert (Hheavy : determine_action 0.5 MEDIUM one_heavy_rule
                     = MANUAL_REVIEW).
    { apply (Hresolve 0.5 MEDIUM one_heavy_rule);
        [vm_compute; discriminate | vm_compute; reflexivity |].
      exists (sample_result "VELOCITY_CHECK" true 0.6).
      split; [left; reflexivity |]. split; [reflexivity |].
      vm_compute. reflexivity. }
    exists a. split; [reflexivity |].
    split; [rewrite Hact; exact Hheavy | apply Hflag; exact Hheavy].
  - destruct (assess_transaction env_unknown_user sample_service
                payment_request cached_world) as [r w'] eqn:Hrun.
    pose proof Hrun as Hval. vm_compute in Hval.
    injection Hval as Hr _.
    destruct r as [resp | e]; [| discriminate Hr].
    injection Hr as Hresp.
    destruct (assessment resp) as [a |] eqn:Ha;
      [| rewrite <- Hresp in Ha; discriminate Ha].
    exact (Hreturned _ _ _ _ _ _ a Hrun Ha).
Defined.

(** ** Failure of a step *)

(** C5, as amended.  For a request that carries a transaction, when a
    step after input validation raises, the response has [success =
    false] and no assessment, its error is the message of the
    exception, and it carries the correlation id and the elapsed time.
    When the exception comes from a step up to and including the
    persistence step, no assessment is persisted.  When it comes from a
    step below the persistence step (the cache invalidation or the
    alert emission), the assessment that the persistence step wrote
    stays in [fraud_assessments].  Every failure is one of the two. *)
Theorem assess_transaction_failure env self req tx w :
  transaction req = Some tx ->
  (forall e w1,
     assess_and_store env self tx (clock env (ticks w)) (tick (tick w))
     = (Raise e, w1) ->
     assess_transaction env self req w
     = (Ok {| success := false; assessment := None; error := Some (str e);
              processing_time_ms :=
                (clock env (ticks w1) - clock env (ticks w)) * 1000;
              correlation_id := correlation_id_of env w |}, tick w1)
     /\ fraud_assessments (tick w1) = fraud_assessments w)
  /\ (forall a s l w1 e w2,
        assess_and_store env self tx (clock env (ticks w)) (tick (tick w))
        = (Ok (a, s, l), w1) ->
        finish_assessment env tx (clock env (ticks w))
          (correlation_id_of env w) (a, s, l) w1 = (Raise e, w2) ->
        assess_transaction env self req w
        = (Ok {| success := false; assessment := None;
                 error := Some (str e);
                 processing_time_ms :=
                   (clock env (ticks w2) - clock env (ticks w)) * 1000;
                 correlation_id := correlation_id_of env w |}, tick w2)
        /\ fraud_assessments (tick w2) = fraud_assessments w ++ [a]
        /\ (redis_delete_error env (cache_key_of (user_id tx)) = Some e
            \/ alert_error env a = Some e))
  /\ (forall resp w',
        assess_transaction env self req w = (Ok resp, w') ->
        success resp = false ->
        (exists e w1,
           assess_and_store env self tx (clock env (ticks w)) (tick (tick w))
           = (Raise e, w1))
        \/ (exists a s l w1 e w2,
              assess_and_store env self tx (clock env (ticks w))
                (tick (tick w)) = (Ok (a, s, l), w1)
              /\ finish_assessment env tx (clock env (ticks w))
                   (correlation_id_of env w) (a, s, l) w1 = (Raise e, w2))).
Proof.
  intros Htx. split; [| split].
  - intros e w1 Hraise.
    rewrite assess_transaction_run, Htx. unfold assess_steps.
    rewrite (bind_raise _ _ _ _ _ Hraise).
    split; [reflexivity |].
    apply assess_and_store_raise in Hraise as [Hrows _]. exact Hrows.
  - intros a s l w1 e w2 Hstore Hfinish.
    rewrite assess_transaction_run, Htx. unfold assess_steps.
    rewrite (bind_ok _ _ _ _ _ Hstore), Hfinish.
    split; [reflexivity |].
    apply assess_and_store_inv in Hstore
      as (_ & _ & _ & _ & _ & _ & _ & _ & _ & _ & _ & _ & _ & _ & _ & _ & _
          & _ & _ & _ & _ & _ & Hrows & _).
    rewrite finish_assessment_run in Hfinish.
    destruct (redis_delete_error env _) as [e' |].
    + injection Hfinish as <- <-. split; [exact Hrows | left; reflexivity].
    + cbv zeta in Hfinish.
      destruct (existsb _ [HIGH; CRITICAL]); [| discriminate Hfinish].
      destruct (alert_error env a) as [e' |]; [| discriminate Hfinish].
      injection Hfinish as <- <-.
      split; [exact Hrows | right; reflexivity].
  - intros resp w' Hrun Hfailed.
    rewrite assess_transaction_run, Htx in Hrun. unfold assess_steps in Hrun.
    rewrite bind_run in Hrun.
    destruct (assess_and_store _ _ _ _ _) as [[[[a s] l] | e] w1] eqn:Hstore.
    + right.
      destruct (finish_assessment _ _ _ _ _ _) as [[resp' | e] w2]
        eqn:Hfinish.
      * injection Hrun as <- _.
        rewrite finish_assessment_run in Hfinish.
        destruct (redis_delete_error env _); [discriminate Hfinish |].
        cbv zeta in Hfinish.
        destruct (existsb _ [HIGH; CRITICAL]);
          [destruct (alert_error env a); [discriminate Hfinish |] |];
          injection Hfinish as <- _; discriminate Hfailed.
      * exists a, s, l, w1, e, w2. split; [reflexivity | exact Hfinish].
    + left. exists e, w1. reflexivity.
Qed.

Lemma assess_transaction_failure_witness :
  (exists resp w',
     assess_transaction env_insert_down sample_service payment_request
       cached_world = (Ok resp, w')
     /\ success resp = false
     /\ error resp = Some "insert failed"
     /\ fraud_assessments w' = [])
  /\ (exists resp w' a,
        assess_transaction env_delete_down sample_service payment_request
          cached_world = (Ok resp, w')
        /\ success resp = false
        /\ assessment resp = None
        /\ error resp = Some "redis unavailable"
        /\ fraud_assessments w' = [a]).
Proof.
  split.
  - destruct (assess_transaction_failure env_insert_down sample_service
                payment_request big_payment cached_world eq_refl)
      as (Hbefore & _ & _).
    destruct (assess_and_store env_insert_down sample_service big_payment
                (clock env_insert_down (ticks cached_world))
                (tick (tick cached_world))) as [r w1] eqn:Hstore.
    pose proof Hstore as Hval. vm_compute in Hval.
    injection Hval as Hr Hw.
    destruct r as [stored | e]; [discriminate Hr |].
    injection Hr as He.
    destruct (Hbefore e w1 eq_refl) as [Hresp Hrows].
    eexists _, _. split; [exact Hresp |].
    split; [reflexivity |]. split; [rewrite <- He; reflexivity |].
    exact Hrows.
  - destruct (assess_transaction_failure env_delete_down sample_service
                payment_request big_payment cached_world eq_refl)
      as (_ & Hafter & _).
    destruct (assess_and_store env_delete_down sample_service big_payment
                (clock env_delete_down (ticks cached_world))
                (tick (tick cached_world))) as [r w1] eqn:Hstore.
    pose proof Hstore as Hval. vm_compute in Hval.
    injection Hval as Hr _.
    destruct r as [[[a s] l] | e]; [| discriminate Hr].
    clear Hr.
    assert (Hfinish :
      finish_assessment env_delete_down big_payment
        (clock env_delete_down (ticks cached_world))
        (correlation_id_of env_delete_down cached_world) (a, s, l) w1
      = (Raise (Exception "redis unavailable"), w1))
      by (rewrite finish_assessment_run; reflexivity).
    destruct (Hafter a s l w1 _ w1 eq_refl Hfinish) as (Hresp & Hrows & _).
    eexists _, _, a. split; [exact Hresp |].
    split; [reflexivity |]. split; [reflexivity |].
    split; [reflexivity | exact Hrows].
Defined.

(** C5 fails as stated: when [redis.delete] raises, the response
    reports the failure and returns no assessment, and yet the
    assessment written by the persistence step is in
    [fraud_assessments]. *)
Lemma failure_after_persistence_keeps_the_row :
  match assess_transaction env_delete_down sample_service payment_request
          cached_world with
  | (Ok resp, w') =>
      success resp = false
      /\ assessment resp = None
      /\ error resp = Some "redis unavailable"
      /\ fraud_assessments cached_world = []
      /\ length (fraud_assessments w') = 1%nat
  | (Raise _, _) => False
  end.
Proof. vm_compute. repeat split. Qed.

(** ** Failure of a rule *)

(** C9.  With the catalog of [__init__], a transaction in the request,
    a profile that the lookup returns, a model step that yields a
    number or no score, and a store, a cache and an alert sink that do
    not fail: the rule engine returns its results without raising, one
    for each rule, and runs as [engine_run] says (a rule whose
    evaluator raises is recorded as not triggered, with score 0 and the
    message under [error], and the loop goes on with the remaining
    rules), and the assessment completes with [success = true] and
    these results, whatever the evaluators do. *)
Theorem rule_failure_is_not_fatal env self req tx profile w w1 ml :
  fraud_rules self = initialize_fraud_rules ->
  transaction req = Some tx ->
  get_user_risk_profile env (user_id tx) (tick (tick w)) = (Ok profile, w1) ->
  model_step_scores env self tx profile ml ->
  (forall a, execute_error env a = None) ->
  redis_delete_error env (cache_key_of (user_id tx)) = None ->
  (forall a, alert_error env a = None) ->
  exists results w2 resp w',
    execute_fraud_rules env self tx profile w1 = (Ok results, w2)
    /\ engine_run env self tx profile (fraud_rules self) [] w1 results w2
    /\ length results = length (fraud_rules self)
    /\ assess_transaction env self req w = (Ok resp, w')
    /\ success resp = true
    /\ exists a, assessment resp = Some a /\ rules a = results.
Proof.
  intros Hcat Htx Hprofile Hml Hexec Hdel Halert.
  destruct (assess_steps_succeeds env self tx (clock env (ticks w))
              (correlation_id_of env w) profile (tick (tick w)) w1 ml
              Hprofile Hml Hexec Hdel Halert)
    as (results & w2 & a & elapsed & w' & Hrules & Hspec & Hsteps & Hres).
  exists results, w2. eexists _, w'.
  split; [exact Hrules |]. split; [exact Hspec |].
  split.
  { destruct (execute_fraud_rules_catalog env self tx profile w1 Hcat)
      as (results' & w2' & Hrules' & _ & Hlen).
    assert (results' = results) by congruence. subst results'.
    rewrite Hlen, Hcat. reflexivity. }
  rewrite assess_transaction_run, Htx, Hsteps.
  split; [reflexivity |]. split; [reflexivity |].
  exists a. split; [reflexivity | exact Hres].
Qed.

Lemma rule_failure_is_not_fatal_witness :
  exists results resp w',
    assess_transaction env_count_query_down scoring_service payment_request
      cached_world = (Ok resp, w')
    /\ success resp = true
    /\ (exists a, assessment resp = Some a /\ rules a = results)
    /\ nth_error results 0
       = Some (recorded_failure "velocity_check"
                 (Exception "connection lost") 1000).
Proof.
  assert (Hml : model_step_scores env_count_query_down scoring_service
                  big_payment regular_profile (Some (np_clip 0.9 0 1)))
    by (intros w; reflexivity).
  destruct (rule_failure_is_not_fatal env_count_query_down scoring_service
              payment_request big_payment regular_profile cached_world
              (tick (tick cached_world)) (Some (np_clip 0.9 0 1))
              eq_refl eq_refl eq_refl Hml (fun _ => eq_refl) eq_refl
              (fun _ => eq_refl))
    as (results & w2 & resp & w' & Hrules & _ & _ & Hrun & Hok & Hres).
  exists results, resp, w'.
  split; [exact Hrun |]. split; [exact Hok |]. split; [exact Hres |].
  vm_compute in Hrules. injection Hrules as <- _. reflexivity.
Defined.

(** ** No manual review with the catalog of [__init__] *)

(** C10.  With the rule catalog of [__init__]: the weighted score that
    each of the five evaluators hands to its result, its raw score
    times the weight of its rule, is at most 0.27; with weighted
    scores of at most 0.27 the action is never MANUAL_REVIEW, whatever
    the final score; and in every assessment that [assess_transaction]
    returns, every rule result has a weighted score of at most 0.27, no
    triggered rule has a weighted score above 0.5, the action is not
    MANUAL_REVIEW and [requires_manual_review] is false. *)
Theorem catalog_never_resolves_manual_review env self :
  fraud_rules self = initialize_fraud_rules ->
  (forall key cfg tx profile locals w l w',
     In (key, cfg) (fraud_rules self) ->
     rule_locals env self key tx profile = Some locals ->
     locals w = (Ok l, w') ->
     rule_evaluator env self key tx profile cfg
     = Some (l0 ← locals; lift (rule_result cfg l0))
     /\ 0 <= l_score l * weight cfg <= 0.27)
  /\ (forall s level rule_results,
        (forall r, In r rule_results -> score r <= 0.27) ->
        ~ heavy_rule_triggered rule_results
        /\ determine_action s level rule_results <> MANUAL_REVIEW)
  /\ (forall req w resp w' a,
        assess_transaction env self req w = (Ok resp, w') ->
        assessment resp = Some a ->
        (forall r, In r (rules a) -> score r <= 0.27)
        /\ ~ heavy_rule_triggered (rules a)
        /\ action a <> MANUAL_REVIEW
        /\ requires_manual_review a = false).
Proof.
  intros Hcat.
  assert (Hlight : forall s level rule_results,
             (forall r, In r rule_results -> score r <= 0.27) ->
             ~ heavy_rule_triggered rule_results
             /\ determine_action s level rule_results <> MANUAL_REVIEW).
  { intros s level rule_results Hscores.
    assert (Hno : ~ heavy_rule_triggered rule_results).
    { intros (r & Hin & _ & Hheavy). apply Hscores in Hin. lra. }
    split; [exact Hno |]. intros Hm.
    apply (determine_action_cases s level rule_results) in Hm. tauto. }
  split; [| split; [exact Hlight |]].
  - intros key cfg tx profile locals w l w' Hin Hlocals Hrun.
    split; [rewrite rule_evaluator_locals, Hlocals; reflexivity |].
    pose proof (rule_locals_raw_score env self key tx profile locals w l w'
                  Hlocals Hrun) as Hraw.
    rewrite Hcat in Hin. simpl in Hin.
    destruct Hin as [E | [E | [E | [E | [E | []]]]]];
      injection E as <- <-; cbn [weight]; split; nra.
  - intros req w resp w' a Hrun Hsome.
    pose proof (returned_rules_report_nothing env self req w resp w' a
                  Hrun Hsome) as Hnothing.
    destruct (reports_nothing_sums _ Hnothing) as (_ & _ & _ & Hscores).
    destruct (assess_transaction_effects env self req w resp w' a Hrun Hsome)
      as (tx & profile & w1 & w2 & _ & _ & _ & _ & _ & _ & _ & Hact & Hflag
          & _).
    destruct (Hlight (fa_score a) (risk_level a) (rules a) Hscores)
      as [Hno Hnot].
    split; [exact Hscores |]. split; [exact Hno |].
    split; [rewrite Hact; exact Hnot |].
    rewrite Hflag. apply not_true_is_false. intros Hc.
    apply manual_review_flag in Hc. rewrite Hact in Hc. contradiction.
Qed.

Lemma catalog_never_resolves_manual_review_witness :
  exists l,
    velocity_locals env_busy_user sample_service big_payment empty_world
    = (Ok l, empty_world)
    /\ l_triggered l = true
    /\ l_score l == 0.8
    /\ 0 <= l_score l * 0.3 <= 0.27.
Proof.
  destruct (catalog_never_resolves_manual_review env_busy_user sample_service
              eq_refl) as (Hweighted & _ & _).
  destruct (velocity_locals env_busy_user sample_service big_payment
              empty_world) as [r w'] eqn:Hrun.
  pose proof Hrun as Hval. vm_compute in Hval.
  injection Hval as Hr Hw.
  destruct r as [l | e]; [| discriminate Hr].
  injection Hr as Hl.
  assert (Hin : In ("velocity_check",
                    {| name := "VELOCITY_CHECK";
                       description := "Check transaction velocity limits";
                       weight := 0.3; rc_action := HOLD; enabled := true |})
                  (fraud_rules sample_service))
    by (left; reflexivity).
  destruct (Hweighted _ _ big_payment regular_profile _ empty_world l w'
              Hin eq_refl Hrun) as [_ Hbound].
  exists l. rewrite <- Hw.
  split; [reflexivity |].
  split; [rewrite <- Hl; reflexivity |].
  split; [rewrite <- Hl; reflexivity | exact Hbound].
Defined.

(** * Further properties *)

(** ** Levels, actions and fusion *)

(** X1. A higher final score never gets a lower risk level. *)
Theorem determine_risk_level_monotone s t :
  s <= t ->
  (level_rank (determine_risk_level s)
   <= level_rank (determine_risk_level t))%Z.
Proof.
  intros Hst. unfold determine_risk_level.
  repeat qcase; simpl; try lia; exfalso; lra.
Qed.

Lemma determine_risk_level_monotone_witness :
  0.2 <= 0.7
  /\ (level_rank (determine_risk_level 0.2)
      <= level_rank (determine_risk_level 0.7))%Z.
Proof.
  assert (H : 0.2 <= 0.7) by (vm_compute; discriminate).
  split; [exact H | exact (determine_risk_level_monotone 0.2 0.7 H)].
Defined.

(** X2. Action and level are resolved on the same bands: the action is
    REJECT exactly when the level is CRITICAL and HOLD exactly when it
    is HIGH; a LOW score is approved, and MANUAL_REVIEW only happens at
    level MEDIUM. *)
Theorem action_agrees_with_level s level rule_results :
  (determine_action s level rule_results = REJECT
   <-> determine_risk_level s = CRITICAL)
  /\ (determine_action s level rule_results = HOLD
      <-> determine_risk_level s = HIGH)
  /\ (determine_risk_level s = LOW ->
      determine_action s level rule_results = APPROVE)
  /\ (determine_action s level rule_results = MANUAL_REVIEW ->
      determine_risk_level s = MEDIUM).
Proof.
  unfold determine_action, determine_risk_level.
  repeat qcase;
    try match goal with
        | |- context [existsb ?f ?l] => destruct (existsb f l)
        end;
    repeat split; intros; try discriminate; reflexivity.
Qed.

Lemma clip01_monotone x y : x <= y -> clip01 x <= clip01 y.
Proof. intros H. unfold clip01. repeat qcase; lra. Qed.

(** X3. Fusion is monotone: raising the sum of the rule scores or the
    model score never lowers the final score, with and without a model
    score. *)
Theorem calculate_final_score_monotone rs1 rs2 m1 m2 :
  rule_sum rs1 <= rule_sum rs2 ->
  m1 <= m2 ->
  calculate_final_score rs1 (Some m1) <= calculate_final_score rs2 (Some m2)
  /\ calculate_final_score rs1 None <= calculate_final_score rs2 None.
Proof.
  intros Hr Hm. unfold calculate_final_score.
  rewrite !np_clip_clip01. split; apply clip01_monotone;
    rewrite !py_sum_scores; lra.
Qed.

Lemma calculate_final_score_monotone_witness :
  rule_sum velocity_fired <= rule_sum two_full_scores
  /\ 0.1 <= 0.9
  /\ calculate_final_score velocity_fired (Some 0.1)
     <= calculate_final_score two_full_scores (Some 0.9).
Proof.
  assert (H1 : rule_sum velocity_fired <= rule_sum two_full_scores)
    by (vm_compute; discriminate).
  assert (H2 : 0.1 <= 0.9) by (vm_compute; discriminate).
  split; [exact H1 |]. split; [exact H2 |].
  exact (proj1 (calculate_final_score_monotone velocity_fired
                  two_full_scores 0.1 0.9 H1 H2)).
Defined.

(** X4. The confidence lies in [0,1] whenever the triggered scores sum
    to at most 1 and the model score, when there is one, lies in [0,1]:
    the constraint of [FraudAssessment.confidence] is then met. *)
Theorem calculate_confidence_range rule_results ml_score :
  triggered_sum rule_results <= 1 ->
  (forall ml, ml_score = Some ml -> 0 <= ml <= 1) ->
  0 <= calculate_confidence rule_results ml_score <= 1.
Proof. apply calculate_confidence_bounds. Qed.

Lemma calculate_confidence_range_witness :
  triggered_sum velocity_fired <= 1
  /\ (forall ml, Some 0.5 = Some ml -> 0 <= ml <= 1)
  /\ 0 <= calculate_confidence velocity_fired (Some 0.5) <= 1.
Proof.
  assert (H1 : triggered_sum velocity_fired <= 1)
    by (vm_compute; discriminate).
  assert (H2 : forall ml, Some 0.5 = Some ml -> 0 <= ml <= 1).
  { intros ml [= <-]. split; vm_compute; discriminate. }
  split; [exact H1 |]. split; [exact H2 |].
  exact (calculate_confidence_range velocity_fired (Some 0.5) H1 H2).
Defined.

(** ** The derived scores of a profile *)

Lemma verification_delta_cases level :
  let delta :=
    default 0.1
      (({[ "NONE" := 0.3; "BASIC" := 0.1; "ENHANCED" := - 0.1;
           "PREMIUM" := - 0.2 ]} : gmap string Q) !! level) in
  (level = "NONE" /\ delta = 0.3)
  \/ (level = "BASIC" /\ delta = 0.1)
  \/ (level = "ENHANCED" /\ delta = - 0.1)
  \/ (level = "PREMIUM" /\ delta = - 0.2)
  \/ (level <> "NONE" /\ level <> "BASIC" /\ level <> "ENHANCED"
      /\ level <> "PREMIUM" /\ delta = 0.1).
Proof.
  cbv zeta.
  destruct (decide (level = "NONE")) as [-> | H1]; [left; split; reflexivity |].
  destruct (decide (level = "BASIC")) as [-> | H2];
    [right; left; split; reflexivity |].
  destruct (decide (level = "ENHANCED")) as [-> | H3];
    [right; right; left; split; reflexivity |].
  destruct (decide (level = "PREMIUM")) as [-> | H4];
    [right; right; right; left; split; reflexivity |].
  do 4 right. repeat (split; [assumption |]).
  rewrite lookup_insert_ne by congruence.
  rewrite lookup_insert_ne by congruence.
  rewrite lookup_insert_ne by congruence.
  rewrite lookup_singleton_ne by congruence.
  reflexivity.
Qed.

(** X5. The base risk score never rises with the age of the account,
    and it lies between 0.19 and 1 for every account age, verification
    level and transaction count: the clip can only act at the top.
    (The smallest sum is 0.5 - 0.2 - 0.1; the bound leaves room for the
    rounding of the sums.) *)
Theorem calculate_base_risk_score_range age older level total :
  (age <= older)%Z ->
  0.19 <= calculate_base_risk_score age level total <= 1
  /\ calculate_base_risk_score older level total
     <= calculate_base_risk_score age level total.
Proof.
  intros Hage. unfold calculate_base_risk_score. cbv zeta.
  rewrite !np_clip_clip01.
  destruct (verification_delta_cases level)
    as [[_ E] | [[_ E] | [[_ E] | [[_ E] | (_ & _ & _ & _ & E)]]]];
    cbv zeta in E; rewrite E; clear E;
    destruct (Z.ltb_spec age 7); destruct (Z.ltb_spec age 30);
    destruct (Z.ltb_spec age 90);
    destruct (Z.ltb_spec older 7); destruct (Z.ltb_spec older 30);
    destruct (Z.ltb_spec older 90); try lia;
    destruct (total =? 0)%Z; destruct (total <? 10)%Z;
    destruct (total >? 100)%Z;
    unfold clip01; repeat qcase; lra.
Qed.

Lemma calculate_base_risk_score_range_witness :
  (100 <= 400)%Z
  /\ 0.19 <= calculate_base_risk_score 100 "PREMIUM" 101 <= 1
  /\ calculate_base_risk_score 400 "PREMIUM" 101
     <= calculate_base_risk_score 100 "PREMIUM" 101.
Proof.
  assert (H : (100 <= 400)%Z) by lia.
  split; [exact H |].
  exact (calculate_base_risk_score_range 100 400 "PREMIUM" 101 H).
Defined.

(** X6. A verification level that is not one of NONE, BASIC, ENHANCED
    and PREMIUM is scored like BASIC. *)
Theorem calculate_base_risk_score_unknown_level age level total :
  level <> "NONE" -> level <> "BASIC" -> level <> "ENHANCED" ->
  level <> "PREMIUM" ->
  calculate_base_risk_score age level total
  = calculate_base_risk_score age "BASIC" total.
Proof.
  intros H1 H2 H3 H4. unfold calculate_base_risk_score. cbv zeta.
  destruct (verification_delta_cases level)
    as [[E _] | [[E _] | [[E _] | [[E _] | (_ & _ & _ & _ & E)]]]];
    try congruence.
  cbv zeta in E. rewrite E. reflexivity.
Qed.

Lemma calculate_base_risk_score_unknown_level_witness :
  calculate_base_risk_score 12 "GOLD" 3
  = calculate_base_risk_score 12 "BASIC" 3.
Proof.
  apply calculate_base_risk_score_unknown_level; discriminate.
Defined.

(** X7. The age score never rises with the age of the account, and it
    lies between 0.1 and 0.9. *)
Theorem calculate_age_score_antitone a b :
  (a <= b)%Z ->
  calculate_age_score b <= calculate_age_score a
  /\ 0.1 <= calculate_age_score a <= 0.9.
Proof.
  intros Hab. unfold calculate_age_score.
  destruct (Z.ltb_spec a 7); destruct (Z.ltb_spec a 30);
    destruct (Z.ltb_spec a 90); destruct (Z.ltb_spec a 365);
    destruct (Z.ltb_spec b 7); destruct (Z.ltb_spec b 30);
    destruct (Z.ltb_spec b 90); destruct (Z.ltb_spec b 365);
    try lia; split; lra.
Qed.

Lemma calculate_age_score_antitone_witness :
  (3 <= 400)%Z /\ calculate_age_score 400 <= calculate_age_score 3.
Proof.
  assert (H : (3 <= 400)%Z) by lia.
  split; [exact H | exact (proj1 (calculate_age_score_antitone 3 400 H))].
Defined.

(** X8. The transaction history score never rises with the number of
    transactions, and it lies between 0.1 and 0.8. *)
Theorem calculate_transaction_history_score_antitone a b :
  (0 <= a)%Z -> (a <= b)%Z ->
  calculate_transaction_history_score b
  <= calculate_transaction_history_score a
  /\ 0.1 <= calculate_transaction_history_score a <= 0.8.
Proof.
  intros Ha Hab. unfold calculate_transaction_history_score.
  destruct (Z.eqb_spec a 0); destruct (Z.ltb_spec a 10);
    destruct (Z.ltb_spec a 50);
    destruct (Z.eqb_spec b 0); destruct (Z.ltb_spec b 10);
    destruct (Z.ltb_spec b 50);
    try lia; split; lra.
Qed.

Lemma calculate_transaction_history_score_antitone_witness :
  (0 <= 0)%Z /\ (0 <= 60)%Z
  /\ calculate_transaction_history_score 60
     <= calculate_transaction_history_score 0.
Proof.
  assert (H1 : (0 <= 0)%Z) by lia.
  assert (H2 : (0 <= 60)%Z) by lia.
  split; [exact H1 |]. split; [exact H2 |].
  exact (proj1 (calculate_transaction_history_score_antitone 0 60 H1 H2)).
Defined.

(** ** The amount rule *)

Lemma Qdiv_gt_iff k x a : 0 < a -> (k < x / a <-> k * a < x).
Proof.
  intros Ha. set (t := x / a).
  assert (E : x == t * a) by (unfold t; field; lra).
  rewrite E. split; intros H; nra.
Qed.

Lemma Qdiv_lt_iff k x a : 0 < a -> (x / a < k <-> x < k * a).
Proof.
  intros Ha. set (t := x / a).
  assert (E : x == t * a) by (unfold t; field; lra).
  rewrite E. split; intros H; nra.
Qed.

(** X9. For a user with transactions, a positive average and a positive
    amount, the amount rule triggers once the amount is well above four
    times the average, and only then: an amount of at most 3.99 times
    the average, so every amount below the average, does not trigger
    it and scores 0; an amount of at least 4.01 times the average
    triggers it, with a raw score from 0.6 to 0.8.  (The threshold
    itself, a deviation of exactly 3, can fall on either side after
    rounding.) *)
Theorem amount_anomaly_threshold tx profile :
  (0 < total_transactions profile)%Z ->
  0 < amount (average_transaction_amount profile) ->
  0 < amount (tx_amount tx) ->
  let l := amount_anomaly_locals tx profile in
  (amount (tx_amount tx) <= 3.99 * amount (average_transaction_amount profile)
   -> l_triggered l = false /\ l_score l = 0)
  /\ (4.01 * amount (average_transaction_amount profile)
      <= amount (tx_amount tx)
      -> l_triggered l = true /\ 0.6 <= l_score l <= 0.8).
Proof.
  intros Htotal Havg Hcur l.
  assert (Hdev : l_triggered l = true <-> 3 < deviation tx profile)
    by apply (amount_anomaly_locals_as_specified tx profile Htotal Havg).
  unfold l, amount_anomaly_locals in *.
  apply Z.gtb_lt in Htotal. rewrite Htotal in *.
  pose proof Havg as Havg'. apply Qgtb_true in Havg'. rewrite Havg' in *.
  cbv zeta in *. cbn [l_triggered l_score] in *.
  unfold deviation in Hdev.
  set (avg := amount (average_transaction_amount profile)) in *.
  set (cur := amount (tx_amount tx)) in *.
  set (d := Qabs (cur - avg) / avg) in *.
  assert (Hfour : 3 < d <-> 4 * avg < cur).
  { unfold d. rewrite (Qdiv_gt_iff 3 _ avg Havg).
    apply (Qabs_case (cur - avg)); intros Hsign; split; intros H; lra. }
  split.
  - intros Hlow.
    destruct (Qgtb d 3) eqn:Ht.
    + exfalso. apply Qgtb_true in Ht. apply Hfour in Ht. lra.
    + split; reflexivity.
  - intros Hhigh.
    assert (Ht : Qgtb d 3 = true) by (apply Qgtb_true, Hfour; lra).
    rewrite Ht. split; [reflexivity |].
    apply Qgtb_true in Ht.
    assert (E : d / 5 == d * (1 # 5)) by field.
    destruct (Q.min_spec 0.8 (d / 5)) as [[? ->] | [? ->]]; lra.
Qed.

Lemma amount_anomaly_threshold_witness :
  l_triggered (amount_anomaly_locals big_payment regular_profile) = true
  /\ 0.6 <= l_score (amount_anomaly_locals big_payment regular_profile)
     <= 0.8.
Proof.
  assert (H1 : (0 < total_transactions regular_profile)%Z) by reflexivity.
  assert (H2 : 0 < amount (average_transaction_amount regular_profile))
    by reflexivity.
  assert (H3 : 0 < amount (tx_amount big_payment)) by reflexivity.
  assert (H4 : 4.01 * amount (average_transaction_amount regular_profile)
               <= amount (tx_amount big_payment))
    by (vm_compute; discriminate).
  exact (proj2 (amount_anomaly_threshold big_payment regular_profile
                  H1 H2 H3) H4).
Defined.

(** X27. The amount rule has nothing to compare with for a user without
    transactions or with an average that is not positive: it does not
    trigger, its score is 0 and its details are empty, and it never
    divides by such an average. *)
Theorem amount_anomaly_without_history tx profile :
  (total_transactions profile <= 0)%Z
  \/ amount (average_transaction_amount profile) <= 0 ->
  amount_anomaly_locals tx profile = initial_locals.
Proof.
  intros H. unfold amount_anomaly_locals.
  destruct (total_transactions profile >? 0)%Z eqn:Htotal; [| reflexivity].
  destruct (Qgtb (amount (average_transaction_amount profile)) 0) eqn:Havg;
    [| reflexivity].
  apply Z.gtb_lt in Htotal. apply Qgtb_true in Havg.
  destruct H as [H | H]; [lia | lra].
Qed.

Lemma amount_anomaly_without_history_witness :
  amount_anomaly_locals big_payment
    {| up_user_id := "u3"; base_score := 0.7;
       transaction_history_score := 0.8; age_score := 0.9;
       verification_level := "NONE"; dispute_rate := 0;
       velocity_score := 0; last_updated := 0; total_transactions := 0;
       total_amount := usd 1; average_transaction_amount := usd 1;
       account_age_days := 0; failed_attempts_24h := 0;
       up_risk_level := MEDIUM |}
  = initial_locals.
Proof.
  apply amount_anomaly_without_history. left. cbn. lia.
Defined.

(** ** The geolocation rule *)






(** ** The time pattern rule *)

Lemma total_frequency_empty : total_frequency ∅ = 0.
Proof. unfold total_frequency. rewrite map_to_list_empty. reflexivity. Qed.

(** X11. For every mapping of typical hours, the body of the time
    pattern rule triggers exactly when the frequencies sum to more than
    0 and the hour of the transaction holds less than 5% of that sum;
    its raw score is then 0.4, and 0 otherwise.  Without typical hours
    it does not trigger and reports the status
    [no_transaction_history]; this is what the rule computes for every
    transaction as the source stands, since the helper that supplies
    the typical hours returns none. *)
Theorem time_pattern_triggers_iff tx hours w :
  let l := time_pattern_of hours tx in
  (l_triggered l = true
   <-> 0 < total_frequency hours
       /\ hour_frequency hours tx < 0.05 * total_frequency hours)
  /\ (l_triggered l = true -> l_score l = 0.4)
  /\ (l_triggered l = false -> l_score l = 0)
  /\ (hours = ∅ ->
      l_details l = {[ "status" := VStr "no_transaction_history" ]})
  /\ time_pattern_locals tx w = (Ok (time_pattern_of ∅ tx), w).
Proof.
  cbv zeta.
  split; [| split; [| split; [| split; [| reflexivity]]]].
  all: unfold time_pattern_of; cbv zeta;
    fold (total_frequency hours); fold (hour_frequency hours tx);
    destruct (bool_decide (hours = ∅)) eqn:Hempty; cbn [negb];
    [ apply bool_decide_eq_true in Hempty; subst hours;
      rewrite ?total_frequency_empty
    | apply bool_decide_eq_false in Hempty;
      destruct (Qgtb (total_frequency hours) 0) eqn:Htotal;
      [apply Qgtb_true in Htotal | apply Qgtb_false in Htotal] ];
    cbn [l_triggered l_score l_details initial_locals].
  - split; [discriminate | intros [H _]; lra].
  - rewrite Qltb_true, (Qdiv_lt_iff _ _ _ Htotal). tauto.
  - split; [discriminate | intros [H _]; lra].
  - discriminate.
  - intros Ht. rewrite Ht. reflexivity.
  - discriminate.
  - reflexivity.
  - intros Ht. rewrite Ht. reflexivity.
  - reflexivity.
  - reflexivity.
  - contradiction.
  - contradiction.
Qed.

(** ** The velocity rule *)

Lemma velocity_round_run env tx l period vc w l' w' :
  velocity_round env tx l (period, vc) w = (Ok l', w') ->
  velocity_shape l ->
  w' = w
  /\ velocity_shape l'
  /\ (l_triggered l' = true
      <-> l_triggered l = true \/ limit_exceeded env tx vc).
Proof.
  intros H Hshape.
  unfold velocity_round, get_transaction_count_in_window,
    get_transaction_amount_in_window in H.
  unfold limit_exceeded. cbv zeta in *.
  set (since := (timestamp tx - window_minutes vc * 60)%Z) in *.
  rewrite !bind_run, lift_run in H.
  destruct (fetchrow_count env (user_id tx) since (timestamp tx))
    as [count_row | e] eqn:Hcount; [| discriminate H].
  cbv beta iota in H. rewrite ret_run in H. cbv beta iota in H.
  set (count := default 0%Z count_row) in *.
  destruct (count >? max_transactions vc)%Z eqn:Hover.
  - apply Z.gtb_lt in Hover.
    assert (Hc : exists row,
               Ok count_row = Ok row
               /\ (max_transactions vc < default 0 row)%Z)
      by (exists count_row; auto).
    destruct (max_amount vc) as [limit |] eqn:Hlimit.
    + rewrite bind_run, bind_run, lift_run in H.
      destruct (fetchrow_total env (user_id tx) since (timestamp tx))
        as [total_row | e] eqn:Htotal; [| discriminate H].
      cbv beta iota in H. rewrite ret_run in H. cbv beta iota in H.
      destruct (Qgtb (default 0.0 total_row) (amount limit)) eqn:Hamount;
        rewrite ret_run in H; injection H as <- <-;
        cbn [l_triggered l_score l_details].
      * split; [reflexivity |]. split; [| tauto].
        right. split; [reflexivity |].
        destruct Hshape as [(_ & -> & _) | (_ & [-> | ->])]; auto.
      * split; [reflexivity |]. split; [| tauto].
        right. split; [reflexivity |].
        destruct Hshape as [(_ & -> & _) | (_ & [-> | ->])]; auto.
    + rewrite ret_run in H. injection H as <- <-.
      cbn [l_triggered l_score l_details].
      split; [reflexivity |]. split; [| tauto].
      right. split; [reflexivity |].
      destruct Hshape as [(_ & -> & _) | (_ & [-> | ->])]; auto.
  - rewrite Z.gtb_ltb in Hover. apply Z.ltb_ge in Hover.
    assert (Hc : ~ exists row,
               Ok count_row = Ok row
               /\ (max_transactions vc < default 0 row)%Z).
    { intros (row & [= <-] & Hlt). unfold count in Hover. lia. }
    destruct (max_amount vc) as [limit |] eqn:Hlimit.
    + rewrite bind_run, bind_run, lift_run in H.
      destruct (fetchrow_total env (user_id tx) since (timestamp tx))
        as [total_row | e] eqn:Htotal; [| discriminate H].
      cbv beta iota in H. rewrite ret_run in H. cbv beta iota in H.
      destruct (Qgtb (default 0.0 total_row) (amount limit)) eqn:Hamount;
        rewrite ret_run in H; injection H as <- <-;
        cbn [l_triggered l_score l_details].
      * apply Qgtb_true in Hamount.
        split; [reflexivity |]. split.
        -- right. split; [reflexivity |].
           destruct Hshape as [(_ & -> & _) | (_ & [-> | ->])]; auto.
        -- split; [intros _ | reflexivity].
           right. right. exists limit, total_row. auto.
      * apply Qgtb_false in Hamount.
        split; [reflexivity |]. split; [exact Hshape |].
        split; [tauto |].
        intros [Ht | [Hex | (limit' & row & [= <-] & [= <-] & Hlt)]];
          [exact Ht | contradiction | lra].
    + rewrite ret_run in H. injection H as <- <-.
      split; [reflexivity |]. split; [exact Hshape |].
      split; [tauto |].
      intros [Ht | [Hex | (limit' & row & Hsome & _)]];
        [exact Ht | contradiction | discriminate Hsome].
Qed.

Lemma velocity_rounds_run env tx checks :
  forall l w l' w',
    for_each (velocity_round env tx) checks l w = (Ok l', w') ->
    velocity_shape l ->
    w' = w
    /\ velocity_shape l'
    /\ (l_triggered l' = true
        <-> l_triggered l = true
            \/ exists period vc,
                 In (period, vc) checks /\ limit_exceeded env tx vc).
Proof.
  induction checks as [| [period vc] rest IH]; intros l w l' w' H Hshape.
  - cbn [for_each] in H. rewrite ret_run in H. injection H as <- <-.
    split; [reflexivity |]. split; [exact Hshape |].
    split; [tauto |]. intros [Ht | (p & v & [] & _)]. exact Ht.
  - cbn [for_each] in H.
    apply bind_ok_inv in H as (l1 & w1 & Hround & Hrest).
    destruct (velocity_round_run _ _ _ _ _ _ _ _ Hround Hshape)
      as (-> & Hshape1 & Hiff1).
    destruct (IH _ _ _ _ Hrest Hshape1) as (-> & Hshape' & Hiff').
    split; [reflexivity |]. split; [exact Hshape' |].
    rewrite Hiff', Hiff1. split.
    + intros [[Ht | Hex] | (p & v & Hin & Hex)].
      * left. exact Ht.
      * right. exists period, vc. split; [left; reflexivity | exact Hex].
      * right. exists p, v. split; [right; exact Hin | exact Hex].
    + intros [Ht | (p & v & [[= <- <-] | Hin] & Hex)].
      * left. left. exact Ht.
      * left. right. exact Hex.
      * right. exists p, v. split; assumption.
Qed.

(** X13. When its queries answer, the velocity rule changes nothing and
    triggers exactly when some configured window has more transactions
    than its count limit or a larger amount than its amount limit.  Its
    raw score is 0.8 or 0.9 when it triggers; when it does not, the
    score is 0 and the details are empty. *)
Theorem velocity_triggers_iff env self tx w l w' :
  velocity_locals env self tx w = (Ok l, w') ->
  w' = w
  /\ (l_triggered l = true
      <-> exists period vc,
            In (period, vc) (velocity_checks self)
            /\ limit_exceeded env tx vc)
  /\ (l_triggered l = true -> l_score l = 0.8 \/ l_score l = 0.9)
  /\ (l_triggered l = false -> l_score l = 0 /\ l_details l = ∅).
Proof.
  intros H. unfold velocity_locals in H.
  destruct (velocity_rounds_run env tx (velocity_checks self) _ _ _ _ H)
    as (Hw & Hshape & Hiff).
  { left. repeat split. }
  split; [exact Hw |]. split.
  - rewrite Hiff. cbn [initial_locals l_triggered]. split.
    + intros [Ht | Hex]; [discriminate Ht | exact Hex].
    + intros Hex. right. exact Hex.
  - destruct Hshape as [(Ht & Hs & Hd) | (Ht & Hs)]; rewrite Ht; split;
      intros; try discriminate; auto.
Qed.

Lemma velocity_triggers_iff_witness :
  exists l,
    velocity_locals env_busy_user sample_service big_payment empty_world
    = (Ok l, empty_world)
    /\ l_triggered l = true
    /\ l_score l = 0.8.
Proof.
  destruct (velocity_locals env_busy_user sample_service big_payment
              empty_world) as [r w'] eqn:Hrun.
  pose proof Hrun as Hval. vm_compute in Hval.
  injection Hval as Hr _.
  destruct r as [l | e]; [| discriminate Hr].
  injection Hr as Hl.
  destruct (velocity_triggers_iff env_busy_user sample_service big_payment
              empty_world l w' Hrun) as (-> & _ & _ & _).
  exists l. split; [reflexivity |].
  rewrite <- Hl. split; reflexivity.
Defined.

(** ** The rule engine over any catalog *)

Section AnyCatalog.

Variable env : Env.
Variable self : FraudDetectionService.
Variable tx : Transaction.
Variable profile : UserRiskProfile.

Lemma rule_evaluator_known key cfg :
  rule_evaluator env self key tx profile cfg = None
  <-> has_evaluator key = false.
Proof.
  unfold rule_evaluator, has_evaluator.
  repeat match goal with
         | |- context [String.eqb key ?s] => destruct (String.eqb key s)
         end; cbn; split; intros; try discriminate; reflexivity.
Qed.

(** What an evaluator returns comes out of its closing constructor
    call. *)
Lemma evaluator_result_shape key cfg evaluator w r w' :
  rule_evaluator env self key tx profile cfg = Some evaluator ->
  evaluator w = (Ok r, w') ->
  exists l, rule_result cfg l = Ok r.
Proof.
  unfold rule_evaluator.
  repeat match goal with
         | |- context [String.eqb key ?s] => destruct (String.eqb key s)
         end; try discriminate; intros [= <-] Hrun;
    unfold check_velocity_rules, check_amount_anomaly,
      check_geolocation_anomaly, check_device_fingerprint,
      check_time_pattern in Hrun;
    try (apply bind_ok_inv in Hrun as (l & w1 & _ & Hrun));
    rewrite lift_run in Hrun; injection Hrun as Hr _; eauto.
Qed.

Lemma engine_run_order entries acc w out w' :
  engine_run env self tx profile entries acc w out w' ->
  exists added,
    out = acc ++ added
    /\ Forall2 names_entry (evaluated_entries entries) added.
Proof.
  induction 1 as [acc w
                 | key cfg rest acc w out w' Hen Hrun IH
                 | key cfg rest acc w out w' Hen Hev Hrun IH
                 | key cfg evaluator r w1 rest acc w out w' Hen Hev He Hrun IH
                 | key cfg evaluator e w1 rest acc w out w' Hen Hev He Hrun IH];
    unfold evaluated_entries in *; cbn [List.filter fst snd].
  - exists []. split; [rewrite app_nil_r; reflexivity | constructor].
  - rewrite Hen. exact IH.
  - apply rule_evaluator_known in Hev. rewrite Hen, Hev. exact IH.
  - assert (Hk : has_evaluator key = true).
    { destruct (has_evaluator key) eqn:Hk; [reflexivity |].
      apply (rule_evaluator_known key cfg) in Hk. congruence. }
    rewrite Hen, Hk. cbn [andb].
    destruct IH as (added & -> & Hall).
    eexists (_ :: added). split; [rewrite <- app_assoc; reflexivity |].
    constructor; [| exact Hall].
    left. cbn.
    destruct (evaluator_result_shape _ _ _ _ _ _ Hev He) as (l & Hl).
    unfold rule_result in Hl. apply FraudRuleResult_new_ok in Hl. tauto.
  - assert (Hk : has_evaluator key = true).
    { destruct (has_evaluator key) eqn:Hk; [reflexivity |].
      apply (rule_evaluator_known key cfg) in Hk. congruence. }
    rewrite Hen, Hk. cbn [andb].
    destruct IH as (added & -> & Hall).
    eexists (_ :: added). split; [rewrite <- app_assoc; reflexivity |].
    constructor; [| exact Hall].
    right. reflexivity.
Qed.

End AnyCatalog.

(** X14. Whatever the rule catalog, the rule engine returns without
    raising, with exactly one result for each enabled rule whose key it
    knows, in the order of the catalog; a disabled rule and a rule with
    an unknown key add no result.  Each result carries the name of its
    rule, or the key of the rule when the evaluator raised. *)
Theorem execute_fraud_rules_in_catalog_order env self tx profile w :
  exists results w',
    execute_fraud_rules env self tx profile w = (Ok results, w')
    /\ Forall2 names_entry (evaluated_entries (fraud_rules self)) results.
Proof.
  unfold execute_fraud_rules.
  destruct (for_each_execute_rule env self tx profile (fraud_rules self) [] w)
    as (results & w' & Hrun & Hspec).
  exists results, w'. split; [exact Hrun |].
  destruct (engine_run_order _ _ _ _ _ _ _ _ _ Hspec) as (added & -> & Hall).
  exact Hall.
Qed.


(** ** The profile store *)

Lemma Money_new_usd x :
  0 < x -> Money_new x "USD" 2 = Ok (usd x).
Proof.
  intros Hx. unfold Money_new, ensure.
  apply Qgtb_true in Hx. rewrite Hx. reflexivity.
Qed.

Lemma Money_new_not_positive x currency precision :
  x <= 0 ->
  Money_new x currency precision = Raise (ValidationError "Money" "amount").
Proof.
  intros Hx. unfold Money_new, ensure.
  apply Qgtb_false in Hx. rewrite Hx. reflexivity.
Qed.

Lemma UserRiskProfile_new_ok p :
  0 <= base_score p <= 1 ->
  0 <= transaction_history_score p <= 1 ->
  0 <= age_score p <= 1 ->
  0 <= dispute_rate p <= 1 ->
  0 <= velocity_score p <= 1 ->
  (0 <= total_transactions p)%Z ->
  (0 <= account_age_days p)%Z ->
  (0 <= failed_attempts_24h p)%Z ->
  UserRiskProfile_new p = Ok p.
Proof.
  intros H1 H2 H3 H4 H5 H6 H7 H8. unfold UserRiskProfile_new, ensure.
  apply unit_interval_true in H1, H2, H3, H4, H5.
  apply Z.leb_le in H6, H7, H8.
  rewrite H1, H2, H3, H4, H5, H6, H7, H8. reflexivity.
Qed.

Lemma base_risk_score_unit age level total :
  0 <= calculate_base_risk_score age level total <= 1.
Proof. unfold calculate_base_risk_score. apply np_clip_bounds. Qed.

Lemma history_score_unit total :
  0 <= calculate_transaction_history_score total <= 1.
Proof.
  unfold calculate_transaction_history_score.
  destruct (total =? 0)%Z; [lra |].
  destruct (total <? 10)%Z; [lra |].
  destruct (total <? 50)%Z; lra.
Qed.

Lemma age_score_unit age : 0 <= calculate_age_score age <= 1.
Proof.
  unfold calculate_age_score.
  destruct (age <? 7)%Z; [lra |].
  destruct (age <? 30)%Z; [lra |].
  destruct (age <? 90)%Z; [lra |].
  destruct (age <? 365)%Z; lra.
Qed.

(** X15. Cache-through read.  For a user who is not cached and whose
    row has positive total and average amounts, counts that are not
    negative and a creation time that is not in the future, with a
    cache that does not fail: the lookup returns a profile built from
    the row, leaves it in the cache under the key of the user, and
    writes nothing else; a second lookup returns the same profile from
    the cache. *)
Theorem profile_lookup_caches env user_id row w :
  redis_get_error env (cache_key_of user_id) = None ->
  redis_setex_error env (cache_key_of user_id) = None ->
  cache w !! cache_key_of user_id = None ->
  fetchrow_user env user_id = Ok (Some row) ->
  0 < row_total_amount row ->
  0 < row_avg_amount row ->
  (0 <= row_total_transactions row)%Z ->
  (0 <= row_failed_attempts_24h row)%Z ->
  (row_created_at row <= Qfloor (clock env (ticks w)))%Z ->
  exists profile w',
    get_user_risk_profile env user_id w = (Ok profile, w')
    /\ cache w' !! cache_key_of user_id = Some profile
    /\ get_user_risk_profile env user_id w' = (Ok profile, w')
    /\ total_transactions profile = row_total_transactions row
    /\ average_transaction_amount profile = usd (row_avg_amount row)
    /\ up_risk_level profile = determine_risk_level (base_score profile)
    /\ fraud_assessments w' = fraud_assessments w
    /\ alerts w' = alerts w.
Proof.
  intros Hget Hset Hmiss Hrow Htotal Havg Hcount Hfailed Hcreated.
  set (age := days_between (Qfloor (clock env (ticks w))) (row_created_at row)).
  assert (Hage : (0 <= age)%Z).
  { unfold age, days_between. apply Z.div_pos; lia. }
  set (profile :=
    {| up_user_id := user_id;
       base_score :=
         calculate_base_risk_score age (row_verification_level row)
           (row_total_transactions row);
       transaction_history_score :=
         calculate_transaction_history_score (row_total_transactions row);
       age_score := calculate_age_score age;
       verification_level := row_verification_level row;
       dispute_rate := 0.0;
       velocity_score := 0.0;
       last_updated := Qfloor (clock env (ticks (tick w)));
       total_transactions := row_total_transactions row;
       total_amount := usd (row_total_amount row);
       average_transaction_amount := usd (row_avg_amount row);
       account_age_days := age;
       failed_attempts_24h := row_failed_attempts_24h row;
       up_risk_level :=
         determine_risk_level
           (calculate_base_risk_score age (row_verification_level row)
              (row_total_transactions row)) |}).
  assert (Hvalid : UserRiskProfile_new profile = Ok profile).
  { apply UserRiskProfile_new_ok; cbn;
      first [apply base_risk_score_unit | apply history_score_unit
            | apply age_score_unit | lra | assumption]. }
  exists profile,
    (set_cache (insert (cache_key_of user_id) profile) (tick (tick w))).
  assert (Hfirst : get_user_risk_profile env user_id w
                   = (Ok profile,
                      set_cache (insert (cache_key_of user_id) profile)
                        (tick (tick w)))).
  { unfold get_user_risk_profile. cbv zeta.
    rewrite bind_run. unfold redis_get at 1. rewrite Hget, Hmiss.
    rewrite bind_run, lift_run, Hrow.
    rewrite (bind_ok _ _ _ _ _ (utcnow_run env w)).
    rewrite (bind_ok _ _ _ _ _ (utcnow_run env (tick w))).
    rewrite bind_run, lift_run, (Money_new_usd _ Htotal).
    rewrite bind_run, lift_run, (Money_new_usd _ Havg).
    rewrite bind_run, lift_run.
    fold age. fold profile. rewrite Hvalid.
    unfold redis_setex. rewrite bind_run, Hset, effect_none.
    reflexivity. }
  split; [exact Hfirst |].
  split; [cbn; apply lookup_insert_eq |].
  split.
  { unfold get_user_risk_profile. cbv zeta.
    rewrite bind_run. unfold redis_get. rewrite Hget.
    cbn [cache set_cache]. rewrite lookup_insert_eq.
    rewrite lift_run. unfold parse_raw. cbn [total_amount
      average_transaction_amount profile amount currency precision usd].
    rewrite (Money_new_usd _ Htotal), (Money_new_usd _ Havg).
    cbn [mbind result_bind]. rewrite Hvalid. reflexivity. }
  repeat split.
Qed.

Lemma profile_lookup_caches_witness :
  exists profile w',
    get_user_risk_profile env_registered_user "u1" empty_world
    = (Ok profile, w')
    /\ cache w' !! cache_key_of "u1" = Some profile
    /\ get_user_risk_profile env_registered_user "u1" w' = (Ok profile, w').
Proof.
  assert (H5 : 0 < row_total_amount registered_row) by reflexivity.
  assert (H6 : 0 < row_avg_amount registered_row) by reflexivity.
  assert (H7 : (0 <= row_total_transactions registered_row)%Z)
    by (vm_compute; discriminate).
  assert (H8 : (0 <= row_failed_attempts_24h registered_row)%Z)
    by (vm_compute; discriminate).
  assert (H9 : (row_created_at registered_row
                <= Qfloor (clock env_registered_user (ticks empty_world)))%Z)
    by (vm_compute; discriminate).
  destruct (profile_lookup_caches env_registered_user "u1" registered_row
              empty_world eq_refl eq_refl eq_refl eq_refl H5 H6 H7 H8 H9)
    as (profile & w' & Hfirst & Hcached & Hsecond & _).
  exists profile, w'. auto.
Defined.

(** X16. A user whose row carries a total amount of 0, as the profile
    query gives it for a user without statistics, gets no profile: the
    lookup raises the validation error of [Money], after two readings
    of the clock, and caches nothing. *)
Theorem profile_lookup_rejects_zero_total env user_id row w :
  redis_get_error env (cache_key_of user_id) = None ->
  cache w !! cache_key_of user_id = None ->
  fetchrow_user env user_id = Ok (Some row) ->
  row_total_amount row <= 0 ->
  get_user_risk_profile env user_id w
  = (Raise (ValidationError "Money" "amount"), tick (tick w)).
Proof.
  intros Hget Hmiss Hrow Htotal.
  unfold get_user_risk_profile. cbv zeta.
  rewrite bind_run. unfold redis_get. rewrite Hget, Hmiss.
  rewrite bind_run, lift_run, Hrow.
  rewrite (bind_ok _ _ _ _ _ (utcnow_run env w)).
  rewrite (bind_ok _ _ _ _ _ (utcnow_run env (tick w))).
  rewrite bind_run, lift_run, (Money_new_not_positive _ _ _ Htotal).
  reflexivity.
Qed.

Lemma profile_lookup_rejects_zero_total_witness :
  get_user_risk_profile env_fresh_user "u2" empty_world
  = (Raise (ValidationError "Money" "amount"), tick (tick empty_world)).
Proof.
  assert (H : row_total_amount fresh_row <= 0) by (vm_compute; discriminate).
  exact (profile_lookup_rejects_zero_total env_fresh_user "u2" fresh_row
           empty_world eq_refl eq_refl eq_refl H).
Defined.

(** X17. A successful assessment is persisted as it is returned: the
    rows of [fraud_assessments] afterwards are the rows before followed
    by the returned assessment. *)
Theorem assess_persists_returned_assessment env self req w resp w' a :
  assess_transaction env self req w = (Ok resp, w') ->
  assessment resp = Some a ->
  fraud_assessments w' = fraud_assessments w ++ [a].
Proof.
  intros Hrun Hsome.
  destruct (assess_transaction_effects env self req w resp w' a Hrun Hsome)
    as (tx & profile & w1 & w2 & _ & _ & _ & _ & _ & _ & _ & _ & _ & _ & _
        & _ & _ & _ & _ & Hrows & _).
  exact Hrows.
Qed.

Lemma assess_persists_returned_assessment_witness :
  match assess_transaction env_unknown_user sample_service payment_request
          cached_world with
  | (Ok resp, w') =>
      match assessment resp with
      | Some a => fraud_assessments w' = fraud_assessments cached_world ++ [a]
      | None => False
      end
  | (Raise _, _) => False
  end.
Proof.
  destruct (assess_transaction env_unknown_user sample_service
              payment_request cached_world) as [r w'] eqn:Hrun.
  pose proof Hrun as Hval. vm_compute in Hval.
  injection Hval as Hr _.
  destruct r as [resp | e]; [| discriminate Hr].
  injection Hr as Hresp.
  destruct (assessment resp) as [a |] eqn:Ha;
    [| rewrite <- Hresp in Ha; discriminate Ha].
  exact (assess_persists_returned_assessment _ _ _ _ _ _ a Hrun Ha).
Defined.

(** X18. A successful assessment invalidates the cached profile of its
    user: afterwards the cache has no entry under the key of that
    user. *)
Theorem assess_invalidates_cached_profile env self req w resp w' a :
  assess_transaction env self req w = (Ok resp, w') ->
  assessment resp = Some a ->
  cache w' !! cache_key_of (fa_user_id a) = None.
Proof.
  intros Hrun Hsome.
  destruct (assess_transaction_effects env self req w resp w' a Hrun Hsome)
    as (tx & profile & w1 & w2 & _ & _ & _ & _ & _ & _ & _ & _ & _ & _ & ->
        & _ & _ & _ & _ & _ & _ & Hcache).
  exact Hcache.
Qed.

Lemma assess_invalidates_cached_profile_witness :
  cache cached_world !! cache_key_of "u1" = Some regular_profile
  /\ match assess_transaction env_unknown_user sample_service
             payment_request cached_world with
     | (Ok resp, w') =>
         match assessment resp with
         | Some a => cache w' !! cache_key_of (fa_user_id a) = None
         | None => False
         end
     | (Raise _, _) => False
     end.
Proof.
  split; [reflexivity |].
  destruct (assess_transaction env_unknown_user sample_service
              payment_request cached_world) as [r w'] eqn:Hrun.
  pose proof Hrun as Hval. vm_compute in Hval.
  injection Hval as Hr _.
  destruct r as [resp | e]; [| discriminate Hr].
  injection Hr as Hresp.
  destruct (assessment resp) as [a |] eqn:Ha;
    [| rewrite <- Hresp in Ha; discriminate Ha].
  exact (assess_invalidates_cached_profile _ _ _ _ _ _ a Hrun Ha).
Defined.

(** X20. Every returned assessment is well formed: its user and its
    transaction are those of the transaction that the request carries
    ([transaction.user_id] and [transaction.id]; the [user_id] of the
    request itself is not what it records), its score, its confidence
    and its model score (when there is one) lie in [0,1], and its risk
    level is the level of its score. *)
Theorem returned_assessment_is_well_formed env self req w resp w' a :
  assess_transaction env self req w = (Ok resp, w') ->
  assessment resp = Some a ->
  (exists tx,
     transaction req = Some tx
     /\ fa_user_id a = user_id tx
     /\ transaction_id a = Some (id tx))
  /\ 0 <= fa_score a <= 1
  /\ 0 <= confidence a <= 1
  /\ (forall ml, ml_score a = Some ml -> 0 <= ml <= 1)
  /\ risk_level a = determine_risk_level (fa_score a).
Proof.
  intros Hrun Hsome.
  destruct (assess_transaction_effects env self req w resp w' a Hrun Hsome)
    as (tx & profile & w1 & w2 & Htx & _ & _ & _ & _ & _ & Hl & _ & _ & _
        & Hu & Ht & Hs & Hm & Hc & _).
  split; [exists tx; auto |]. auto.
Qed.

Lemma returned_assessment_is_well_formed_witness :
  req_user_id proxy_request = "alice"
  /\ match assess_transaction env_unknown_user sample_service proxy_request
             cached_world with
     | (Ok resp, w') =>
         match assessment resp with
         | Some a =>
             fa_user_id a = "u1"
             /\ transaction_id a = Some "t1"
             /\ 0 <= fa_score a <= 1
             /\ risk_level a = determine_risk_level (fa_score a)
         | None => False
         end
     | (Raise _, _) => False
     end.
Proof.
  split; [reflexivity |].
  destruct (assess_transaction env_unknown_user sample_service
              proxy_request cached_world) as [r w'] eqn:Hrun.
  pose proof Hrun as Hval. vm_compute in Hval.
  injection Hval as Hr _.
  destruct r as [resp | e]; [| discriminate Hr].
  injection Hr as Hresp.
  destruct (assessment resp) as [a |] eqn:Ha;
    [| rewrite <- Hresp in Ha; discriminate Ha].
  destruct (returned_assessment_is_well_formed _ _ _ _ _ _ a Hrun Ha)
    as ((tx & Htx & Hu & Ht) & Hs & _ & _ & Hl).
  injection Htx as <-.
  split; [exact Hu |]. split; [exact Ht |]. split; assumption.
Defined.

(** X21. [assess_transaction] never lets an exception out: for every
    request it returns a response with the correlation id of the
    request, which either reports success, with an assessment and no
    error, or reports failure, with an error message and no
    assessment. *)
Theorem assess_transaction_always_responds env self req w :
  exists resp w',
    assess_transaction env self req w = (Ok resp, w')
    /\ correlation_id resp = correlation_id_of env w
    /\ ((success resp = true /\ is_Some (assessment resp)
         /\ error resp = None)
        \/ (success resp = false /\ assessment resp = None
            /\ is_Some (error resp))).
Proof.
  rewrite assess_transaction_run.
  destruct (transaction req) as [tx |].
  - destruct (assess_steps env self tx (clock env (ticks w))
                (correlation_id_of env w) (tick (tick w)))
      as [[resp | e] w1] eqn:Hsteps.
    + destruct (assess_steps_inv _ _ _ _ _ _ _ _ Hsteps)
        as (a & elapsed & profile & w2 & w3 & -> & _).
      eexists _, _. split; [reflexivity |]. split; [reflexivity |].
      left. cbn. eauto.
    + eexists _, _. split; [reflexivity |]. split; [reflexivity |].
      right. cbn. eauto.
  - eexists _, _. split; [reflexivity |]. split; [reflexivity |].
    right. cbn. eauto.
Qed.

(** X22. A request without a transaction is refused before anything is
    read or written: the response reports [No transaction provided],
    and the cache, the rows of [fraud_assessments] and the alerts are
    as before. *)
Theorem assess_transaction_without_transaction env self req w :
  transaction req = None ->
  exists resp w',
    assess_transaction env self req w = (Ok resp, w')
    /\ success resp = false
    /\ assessment resp = None
    /\ error resp = Some "No transaction provided"
    /\ cache w' = cache w
    /\ fraud_assessments w' = fraud_assessments w
    /\ alerts w' = alerts w.
Proof.
  intros Hnone. rewrite assess_transaction_run, Hnone.
  eexists _, _. split; [reflexivity |]. repeat split.
Qed.

Lemma assess_transaction_without_transaction_witness :
  exists resp w',
    assess_transaction env_unknown_user sample_service
      {| req_user_id := "u1"; transaction := None;
         withdrawal_request := None; context := ∅;
         force_assessment := true |} cached_world = (Ok resp, w')
    /\ error resp = Some "No transaction provided"
    /\ cache w' = cache cached_world.
Proof.
  destruct (assess_transaction_without_transaction env_unknown_user
              sample_service
              {| req_user_id := "u1"; transaction := None;
                 withdrawal_request := None; context := ∅;
                 force_assessment := true |} cached_world eq_refl)
    as (resp & w' & Hrun & _ & _ & Herr & Hcache & _).
  exists resp, w'. auto.
Defined.

(** ** The model score *)

(** X23. [_calculate_ml_score] changes nothing.  It returns no score
    when no model is loaded and when the model is false.  It raises
    exactly what the truth test of the loaded model raises (the test
    [if not self.ml_model] stands before the [try]); what the scaler or
    the model raises is turned into no score.  A score it returns is
    NaN or a number in [0,1]. *)
Theorem calculate_ml_score_outcomes env self tx profile w :
  exists r,
    calculate_ml_score env self tx profile w = (r, w)
    /\ (ml_model self = None -> r = Ok None)
    /\ (forall e,
          r = Raise e
          <-> exists model,
                ml_model self = Some model /\ truth_value model = Raise e)
    /\ (forall model,
          ml_model self = Some model -> truth_value model = Ok false ->
          r = Ok None)
    /\ (forall model e,
          ml_model self = Some model -> truth_value model = Ok true ->
          scaler self (extract_features tx profile) = Raise e ->
          r = Ok None)
    /\ (forall model scaled,
          ml_model self = Some model -> truth_value model = Ok true ->
          scaler self (extract_features tx profile) = Ok scaled ->
          match predictor model with
          | Classifier predict_proba =>
              exists e, predict_proba scaled = Raise e
          | AnomalyScorer decision_function =>
              exists e, decision_function scaled = Raise e
          end ->
          r = Ok None)
    /\ (forall m, r = Ok (Some (Num m)) -> 0 <= m <= 1).
Proof.
  destruct (calculate_ml_score_cases env self tx profile w)
    as (r & Hrun & Hcases).
  exists r. split; [exact Hrun |].
  unfold calculate_ml_score in Hrun.
  split; [| split; [| split; [| split; [| split]]]].
  - intros Hnone. rewrite Hnone, ret_run in Hrun. congruence.
  - intros e. split.
    + intros ->. exact Hcases.
    + intros (model & Hmodel & Htruth).
      rewrite Hmodel, bind_run, lift_run, Htruth in Hrun. congruence.
  - intros model Hmodel Htruth.
    rewrite Hmodel, bind_run, lift_run, Htruth in Hrun.
    cbn [negb] in Hrun. rewrite ret_run in Hrun. congruence.
  - intros model e Hmodel Htruth Hscaler.
    rewrite Hmodel, bind_run, lift_run, Htruth in Hrun.
    cbn [negb] in Hrun. cbv zeta in Hrun.
    rewrite try_except_run, bind_run, lift_run, Hscaler, ret_run in Hrun.
    congruence.
  - intros model scaled Hmodel Htruth Hscaler Hpredict.
    rewrite Hmodel, bind_run, lift_run, Htruth in Hrun.
    cbn [negb] in Hrun. cbv zeta in Hrun.
    rewrite try_except_run, bind_run, lift_run, Hscaler, bind_run in Hrun.
    destruct (predictor model) as [predict_proba | decision_function];
      destruct Hpredict as [e Hpredict];
      rewrite bind_run, lift_run, Hpredict, ret_run in Hrun; congruence.
  - intros m ->. destruct Hcases as [_ Hrange]. apply Hrange. reflexivity.
Qed.

(** X28. A model whose truth test raises stops every assessment: each
    request that carries a transaction is answered with [success =
    false] and no assessment, nothing is written to
    [fraud_assessments] and no alert is sent; when the profile of the
    user is found, the error is the message of that exception.  (An
    ensemble of scikit-learn that has not been fitted, such as the
    [IsolationForest] that [_create_fallback_model] installs, is such a
    model: its length is the number of its fitted estimators.) *)
Theorem model_truth_test_failure_is_fatal env self req tx model e w :
  transaction req = Some tx ->
  ml_model self = Some model ->
  truth_value model = Raise e ->
  exists resp w',
    assess_transaction env self req w = (Ok resp, w')
    /\ success resp = false
    /\ assessment resp = None
    /\ fraud_assessments w' = fraud_assessments w
    /\ alerts w' = alerts w
    /\ (forall profile w1,
          get_user_risk_profile env (user_id tx) (tick (tick w))
          = (Ok profile, w1) ->
          error resp = Some (str e)).
Proof.
  intros Htx Hmodel Htruth.
  assert (Hml : forall profile w0,
             calculate_ml_score env self tx profile w0 = (Raise e, w0)).
  { intros profile w0. unfold calculate_ml_score.
    rewrite Hmodel, bind_run, lift_run, Htruth. reflexivity. }
  rewrite assess_transaction_run, Htx. unfold assess_steps.
  rewrite bind_run.
  destruct (assess_and_store env self tx (clock env (ticks w))
              (tick (tick w))) as [[[[a s] l] | e0] w1] eqn:Hstore.
  - exfalso.
    apply assess_and_store_inv in Hstore
      as (profile & w2 & w3 & ml_float & _ & _ & Hscore & _).
    rewrite Hml in Hscore. discriminate Hscore.
  - pose proof (assess_and_store_raise _ _ _ _ _ _ _ Hstore)
      as [Hrows Halerts].
    eexists _, _. split; [reflexivity |].
    cbn [success assessment error failure_response fraud_assessments alerts
         tick].
    split; [reflexivity |]. split; [reflexivity |].
    split; [exact Hrows |]. split; [exact Halerts |].
    intros profile w2 Hprofile.
    unfold assess_and_store in Hstore.
    rewrite (bind_ok _ _ _ _ _ Hprofile) in Hstore.
    destruct (execute_fraud_rules_run env self tx profile w2)
      as (results & w3 & Hrules & _).
    rewrite (bind_ok _ _ _ _ _ Hrules), bind_run, Hml in Hstore.
    injection Hstore as -> _. reflexivity.
Qed.

Lemma model_truth_test_failure_is_fatal_witness :
  exists resp w',
    assess_transaction env_unknown_user unfitted_service payment_request
      cached_world = (Ok resp, w')
    /\ success resp = false
    /\ error resp = Some "object has no attribute 'estimators_'"
    /\ fraud_assessments w' = [].
Proof.
  destruct (model_truth_test_failure_is_fatal env_unknown_user
              unfitted_service payment_request big_payment _ _ cached_world
              eq_refl eq_refl eq_refl)
    as (resp & w' & Hrun & Hfailed & _ & Hrows & _ & Herror).
  exists resp, w'. split; [exact Hrun |]. split; [exact Hfailed |].
  split; [| exact Hrows].
  exact (Herror regular_profile (tick (tick cached_world)) eq_refl).
Defined.
(** ** What the missing [execution_time_ms] entails *)

Lemma final_score_clip01 rule_results ml_score :
  calculate_final_score rule_results ml_score
  == clip01 match ml_score with
            | Some ml => 0.6 * rule_sum rule_results + 0.4 * ml
            | None => rule_sum rule_results
            end.
Proof.
  unfold calculate_final_score. rewrite np_clip_clip01.
  apply clip01_compat.
  destruct ml_score as [ml |]; rewrite py_sum_scores; lra.
Qed.

Lemma clip01_le x c : x <= c -> 0 <= c -> clip01 x <= c.
Proof. intros Hx Hc. unfold clip01. repeat qcase; lra. Qed.

(** X24. No evaluator ever returns a result, because each one calls the
    [FraudRuleResult] constructor without the required
    [execution_time_ms].  So in every returned assessment, whatever the
    rule catalog, each rule result is the record of the [except]
    branch (not triggered, score 0.0); the score is at most 0.4, the
    share of the model score; the action is APPROVE; and no alert is
    sent. *)
Theorem assessment_rules_report_nothing env self req w resp w' a :
  assess_transaction env self req w = (Ok resp, w') ->
  assessment resp = Some a ->
  Forall reports_nothing (rules a)
  /\ fa_score a <= 0.4
  /\ action a = APPROVE
  /\ alerts w' = alerts w.
Proof.
  intros Hrun Hsome.
  destruct (assess_transaction_effects env self req w resp w' a Hrun Hsome)
    as (tx & profile & w1 & w2 & _ & _ & _ & _ & _ & Hscore & _ & Hact & _
        & _ & _ & _ & _ & Hml & _ & _ & Halerts & _).
  pose proof (returned_rules_report_nothing env self req w resp w' a
                Hrun Hsome) as Hnothing.
  destruct (reports_nothing_sums _ Hnothing) as (Hsum & _ & Hlight & _).
  assert (Hlow : fa_score a <= 0.4).
  { rewrite Hscore, final_score_clip01.
    apply clip01_le; [| lra].
    destruct (ml_score a) as [ml |] eqn:Eml;
      [specialize (Hml ml eq_refl) |]; lra. }
  split; [exact Hnothing |]. split; [exact Hlow |]. split.
  - rewrite Hact.
    apply (determine_action_cases (fa_score a) (risk_level a) (rules a)).
    destruct (Qlt_le_dec (fa_score a) 0.3) as [Hlt | Hge];
      [left; exact Hlt | right].
    split; [exact Hge |]. split; [lra | exact Hlight].
  - rewrite Halerts.
    assert (Hno : Qgeb (fa_score a) 0.6 = false) by (apply Qgeb_false; lra).
    rewrite Hno. apply app_nil_r.
Qed.

Lemma assessment_rules_report_nothing_witness :
  match assess_transaction env_busy_user sample_service payment_request
          cached_world with
  | (Ok resp, w') =>
      match assessment resp with
      | Some a => Forall reports_nothing (rules a) /\ action a = APPROVE
      | None => False
      end
  | (Raise _, _) => False
  end.
Proof.
  destruct (assess_transaction env_busy_user sample_service
              payment_request cached_world) as [r w'] eqn:Hrun.
  pose proof Hrun as Hval. vm_compute in Hval.
  injection Hval as Hr _.
  destruct r as [resp | e]; [| discriminate Hr].
  injection Hr as Hresp.
  destruct (assessment resp) as [a |] eqn:Ha;
    [| rewrite <- Hresp in Ha; discriminate Ha].
  destruct (assessment_rules_report_nothing _ _ _ _ _ _ a Hrun Ha)
    as (Hn & _ & Hact & _).
  split; assumption.
Defined.

(** ** The reason of an assessment *)

Lemma string_app_assoc (a b c : string) :
  ((a ++ b) ++ c = a ++ b ++ c)%string.
Proof.
  induction a as [| ch a IH]; [reflexivity |].
  change (String ch ((a ++ b) ++ c) = String ch (a ++ b ++ c))%string.
  rewrite IH. reflexivity.
Qed.

(** X25. The reason is the names of the triggered rules, in the order
    of the results, when there are any, then the model score when it is
    defined, then the final score, which is always there; the parts are
    separated by [; ]. *)
Theorem generate_assessment_reason_parts env rule_results ml_score s :
  generate_assessment_reason env rule_results ml_score s
  = (rules_part rule_results ++ ml_part env ml_score
     ++ "Final score: " ++ format_3f env s)%string.
Proof.
  unfold generate_assessment_reason, rules_part, ml_part. cbv zeta.
  destruct (List.filter triggered rule_results) as [| r fired];
    destruct ml_score as [ml |]; cbn [app String.concat];
    rewrite ?string_app_assoc; cbn [String.append]; try reflexivity.
  all: rewrite ?string_app_assoc; reflexivity.
Qed.

(** ** Invalidation of the cache *)

Lemma cache_key_of_inj a b : cache_key_of a = cache_key_of b -> a = b.
Proof. unfold cache_key_of. cbn. intros H. injection H as H. exact H. Qed.

(** X26. Invalidating the profile of a user removes the cache entry of
    that user and no other: the entries of the other users, the rows
    of [fraud_assessments] and the alerts stay; and when [redis.delete]
    raises, nothing changes. *)
Theorem update_user_risk_profile_removes_one_entry env user_id new_score w :
  match update_user_risk_profile env user_id new_score w with
  | (Ok _, w') =>
      cache w' !! cache_key_of user_id = None
      /\ (forall other, other <> user_id ->
          cache w' !! cache_key_of other = cache w !! cache_key_of other)
      /\ fraud_assessments w' = fraud_assessments w
      /\ alerts w' = alerts w
  | (Raise e, w') =>
      redis_delete_error env (cache_key_of user_id) = Some e /\ w' = w
  end.
Proof.
  unfold update_user_risk_profile, redis_delete.
  destruct (redis_delete_error env (cache_key_of user_id)) as [e |].
  - rewrite effect_some. split; reflexivity.
  - rewrite effect_none. cbn [cache set_cache fraud_assessments alerts].
    split; [apply lookup_delete_eq |].
    split; [| split; reflexivity].
    intros other Hother. apply lookup_delete_ne.
    intros Heq. apply cache_key_of_inj in Heq. congruence.
Qed.
